(** * SKOPOS SFTP tools for Alteryx: download and upload engines

    A shallow embedding of [SKOPOSSFTPDownload_v1.0Engine.py] and
    [SKOPOSSFTPUpload_v1.0Engine.py].

    The two engines are Python classes driven by the Alteryx engine.  They
    talk to three collaborators that are not part of the repository: the
    Alteryx SDK (messages, output anchor, temporary file names), the
    [pysftp]/[paramiko] client (connection, remote file operations, the
    known-hosts store) and the local operating system ([os], [open]).

    - Python code is embedded as functions in a reader/state/exception monad
      [M]: the reader is the environment [Env] (the answers of the
      collaborators), the state is the [World] (the log of calls made so
      far, the local file system, the persisted known-hosts file), and
      exceptions are Python exceptions.
    - Every call that leaves the plugin is logged as an [Event]; the answers
      of the SFTP server are oracles indexed by the number of events logged
      so far, so that any behaviour of the peer over one run is covered.
    - A Python [str] is a [string]; its characters stand for code points
      below 256.  [None] is [option]'s [None]. *)

From Stdlib Require Import String Ascii List ZArith Lia Bool Arith DecimalString.
Import ListNotations.

Local Open Scope string_scope.
Local Open Scope list_scope.
Local Open Scope nat_scope.
Set Warnings "-register-all".

Infix "+:+" := String.append (at level 60, right associativity).

(* ===================================================================== *)
(** ** Python values *)
(* ===================================================================== *)

Module Py.

(** Raw file contents. *)
Definition Bytes := list Byte.byte.

(** Truth value of [str | None]: [None] and the empty string are falsy. *)
Definition truthy (o : option string) : bool :=
  match o with
  | None => false
  | Some s => negb (String.eqb s EmptyString)
  end.

(** Truth value of a plain [str]. *)
Definition truthy_str (s : string) : bool := negb (String.eqb s EmptyString).

(** ["{}".format(x)] for [x : str | None]. *)
Definition fmt (o : option string) : string :=
  match o with
  | None => "None"
  | Some s => s
  end.

(** The double-quote character, as a one-character string. *)
Definition dq : string := String (ascii_of_nat 34) EmptyString.

(** [str(n)] for an [int]. *)
Definition str_of_Z (z : Z) : string := NilZero.string_of_int (Z.to_int z).
Definition str_of_nat (n : nat) : string := str_of_Z (Z.of_nat n).

(** [a == b] on [str | None]. *)
Definition eq_opt (a b : option string) : bool :=
  match a, b with
  | None, None => true
  | Some x, Some y => String.eqb x y
  | _, _ => false
  end.

(** [str.isspace] on one character (code points below 256): TAB..CR,
    FS..US, space, NEL and NBSP. *)
Definition isspace (c : ascii) : bool :=
  let n := nat_of_ascii c in
  ((9 <=? n) && (n <=? 13)) || ((28 <=? n) && (n <=? 32))
  || (n =? 133) || (n =? 160).

Fixpoint lstrip (s : string) : string :=
  match s with
  | EmptyString => EmptyString
  | String c s' => if isspace c then lstrip s' else s
  end.

Fixpoint rstrip (s : string) : string :=
  match s with
  | EmptyString => EmptyString
  | String c s' =>
      match rstrip s' with
      | EmptyString => if isspace c then EmptyString else String c EmptyString
      | r => String c r
      end
  end.

(** [s.strip()] *)
Definition strip (s : string) : string := rstrip (lstrip s).

(** Every character of [s] is whitespace. *)
Fixpoint all_space (s : string) : bool :=
  match s with
  | EmptyString => true
  | String c s' => isspace c && all_space s'
  end.

(** [s] begins, respectively ends, with a whitespace character. *)
Definition starts_with_space (s : string) : bool :=
  match s with
  | EmptyString => false
  | String c _ => isspace c
  end.

Fixpoint ends_with_space (s : string) : bool :=
  match s with
  | EmptyString => false
  | String c EmptyString => isspace c
  | String _ r => ends_with_space r
  end.

(** [r] is [s] without its leading and trailing whitespace. *)
Definition stripped_of (s r : string) : Prop :=
  exists a b,
    s = a +:+ r +:+ b
    /\ all_space a = true /\ all_space b = true
    /\ starts_with_space r = false /\ ends_with_space r = false.

(** Python exception classes that the engines distinguish.  [IOError]
    stands for [OSError] and its subclasses (they are one class in
    Python 3); [OtherException] for any other subclass of [Exception];
    [NonException] for a [BaseException] outside [Exception]. *)
Inductive ExnClass :=
| IOError | TypeError | KeyError | UnboundLocalError | AttributeError
| ConnectionException | CredentialException | BadAuthenticationType
| OtherException | NonException.

Record Exn := mkExn { exn_class : ExnClass; exn_msg : string }.

Definition is_IOError (e : Exn) : bool :=
  match exn_class e with IOError => true | _ => false end.
Definition is_TypeError (e : Exn) : bool :=
  match exn_class e with TypeError => true | _ => false end.
Definition is_ConnectionException (e : Exn) : bool :=
  match exn_class e with ConnectionException => true | _ => false end.
Definition is_CredentialException (e : Exn) : bool :=
  match exn_class e with CredentialException => true | _ => false end.
Definition is_BadAuthenticationType (e : Exn) : bool :=
  match exn_class e with BadAuthenticationType => true | _ => false end.
Definition is_Exception (e : Exn) : bool :=
  match exn_class e with NonException => false | _ => true end.

(** The result of evaluating a Python expression. *)
Inductive Res (A : Type) : Type :=
| Ok (a : A)
| Raised (e : Exn).
Arguments Ok {A} a.
Arguments Raised {A} e.

End Py.
Export Py.

(* ===================================================================== *)
(** ** The hostname pattern *)
(* ===================================================================== *)

Module Hostname.

(** [REGEX_HOSTNAME]:
    [^((L)\.)*(L)$] with [L = [a-zA-Z0-9]|[a-zA-Z0-9][a-zA-Z0-9\-]*[a-zA-Z0-9]]:
    one or more labels separated by dots, each label a non-empty run of
    letters, digits and hyphens that starts and ends with a letter or a
    digit. *)

Definition is_alnum (c : ascii) : bool :=
  let n := nat_of_ascii c in
  ((48 <=? n) && (n <=? 57)) || ((65 <=? n) && (n <=? 90))
  || ((97 <=? n) && (n <=? 122)).

Definition is_hyphen (c : ascii) : bool := nat_of_ascii c =? 45.
Definition is_dot (c : ascii) : bool := nat_of_ascii c =? 46.
Definition is_newline (c : ascii) : bool := nat_of_ascii c =? 10.

Definition label_ok (l : list ascii) : bool :=
  match l with
  | [] => false
  | c :: _ =>
      is_alnum c && is_alnum (last l c)
      && forallb (fun x => is_alnum x || is_hyphen x) l
  end.

(** [split_dots acc s]: the dot-separated pieces of [rev acc ++ s]. *)
Fixpoint split_dots (acc : list ascii) (s : list ascii) : list (list ascii) :=
  match s with
  | [] => [rev acc]
  | c :: s' =>
      if is_dot c then rev acc :: split_dots [] s'
      else split_dots (c :: acc) s'
  end.

Definition labels_ok (s : list ascii) : bool :=
  forallb label_ok (split_dots [] s).

(** [re.match(REGEX_HOSTNAME, s)] is not [None].  [$] matches at the end
    of the string and also just before a final newline. *)
Definition re_match (s : string) : bool :=
  let l := list_ascii_of_string s in
  labels_ok l
  || match rev l with
     | c :: r => is_newline c && labels_ok (rev r)
     | [] => false
     end.

End Hostname.

(* ===================================================================== *)
(** ** [xml.etree.ElementTree] and the settings extractor *)
(* ===================================================================== *)

Module Et.

(** An element: its tag, its text ([None] when the element has no text
    node) and its children. *)
Inductive Element :=
| Elem (tag : string) (text : option string) (children : list Element).

Definition tag (e : Element) : string := let 'Elem t _ _ := e in t.
Definition text (e : Element) : option string := let 'Elem _ t _ := e in t.
Definition children (e : Element) : list Element := let 'Elem _ _ c := e in c.

(** [et.find(key)] for a plain tag name: the first direct child with that
    tag, or [None]. *)
Definition find (et : Element) (key : string) : option Element :=
  List.find (fun c => String.eqb (tag c) key) (children et).

(** [et.findtext(key)]: [None] when no child matches, the child's text
    otherwise, with the empty string for a child without text. *)
Definition findtext (et : Element) (key : string) : option string :=
  match find et key with
  | None => None
  | Some c => Some (match text c with None => EmptyString | Some t => t end)
  end.

(** [AyxPlugin._prep_xmltext] (the download and the upload engine carry
    the same static method).  [t] is [et.find(key).text.strip()] if
    [et.findtext(key)] is truthy and [et.find(key).text] is not [None],
    else [None]; the method returns [None] if [t] is falsy or the empty
    string, else [t].  [et.find(key).text] on a missing element would
    raise [AttributeError]. *)
Definition _prep_xmltext (et : Element) (key : string) : Res (option string) :=
  match
    (if truthy (findtext et key) then
       match find et key with
       | None => Raised (mkExn AttributeError "'NoneType' object has no attribute 'text'")
       | Some c =>
           match text c with
           | Some tx => Ok (Some (strip tx))
           | None => Ok None
           end
       end
     else Ok None)
  with
  | Raised e => Raised e
  | Ok t => Ok (if negb (truthy t) || eq_opt t (Some EmptyString) then None else t)
  end.

End Et.

(* ===================================================================== *)
(** ** The collaborators: Alteryx SDK, pysftp, operating system *)
(* ===================================================================== *)

Module Rt.

(** [Sdk.EngineMessageType.error|warning|info] and [Sdk.Status.info]. *)
Inductive MessageType := EMT_error | EMT_warning | EMT_info | Status_info.

(** Whether a logged call returned or raised. *)
Inductive Outcome := Returned | Failed.

(** A node of the local file system. *)
Inductive Node := File (content : Bytes) | Dir.

(** A line of the known-hosts file: hostname, key type, key material. *)
Record HostKeyEntry := mkHostKey {
  hk_host : option string;
  hk_type : string;
  hk_key : string
}.
Definition HostKeys := list HostKeyEntry.

(** The port setting is the string ['22'] by default and an [int] after
    [pi_init]. *)
Inductive Port := PortStr (s : string) | PortInt (z : Z).

Definition port_truthy (p : Port) : bool :=
  match p with
  | PortStr s => truthy_str s
  | PortInt z => negb (Z.eqb z 0)
  end.

(** The keyword arguments of [pysftp.Connection]; [ca_hostkeys] is
    [cnopts.hostkeys], [None] when key validation is disabled. *)
Record ConnArgs := mkConnArgs {
  ca_host : option string;
  ca_port : Port;
  ca_username : option string;
  ca_password : option string;
  ca_private_key : option string;
  ca_private_key_pass : option string;
  ca_hostkeys : option HostKeys
}.

(** [sftp_conn.remote_server_key]: [get_name()] and the key itself. *)
Record ServerKey := mkServerKey { key_name : string; key_data : string }.

(** A live [pysftp.Connection]; [conn_id] tells sessions apart. *)
Record Connection := mkConnection {
  conn_id : nat;
  remote_server_key : ServerKey
}.

(** [paramiko.SFTPAttributes] as returned by [listdir_attr] and [stat]. *)
Record SFTPAttributes := mkAttrs {
  filename : string;
  st_size : Z;
  st_uid : Z;
  st_gid : Z;
  st_mode : Z;
  st_atime : Z;
  st_mtime : Z
}.

(** A value handed to a field of the record creator. *)
Inductive FieldVal :=
| VStr (s : string)
| VInt (z : Z)
| VBool (b : bool)
| VBlob (b : Bytes).

(** Methods of [pysftp.Connection] used by the engines. *)
Inductive SftpCall :=
| c_isdir (p : option string)
| c_isfile (p : string)
| c_exists (p : option string)
| c_chdir (p : option string)
| c_listdir_attr
| c_stat (p : string)
| c_get (remotepath localpath : string)
| c_rename (src dst : string)
| c_remove (p : string)
| c_normalize (p : option string)
| c_pwd
| c_close
| c_put (localpath : string)
| c_putfo (data : Bytes) (remotepath : string).

(** Calls that change or read the contents of the local file system. *)
Inductive OsCall :=
| o_mkdir (p : string)
| o_remove (p : string)
| o_rename (src dst : string)
| o_open_rb (p : string)
| o_save_hosts (p : string).

Inductive Event :=
| EvMessage (t : MessageType) (text : string)
| EvAnchorInit (fields : list string)
| EvUpdateProgress (num den : nat)
| EvPushRecord (r : list (option FieldVal))
| EvRecordCount (final : bool)
| EvAnchorClose
| EvTempFileName (name : string)
| EvConnect (a : ConnArgs) (o : Outcome)
| EvSftp (c : Connection) (call : SftpCall) (o : Outcome)
| EvOs (call : OsCall) (o : Outcome).

(** What [sftp_conn.get] does: it returns after writing the whole file to
    [localpath], or it raises, leaving at [localpath] either nothing (the
    local file could not be opened) or the bytes received so far. *)
Inductive GetResult :=
| GetOk (data : Bytes)
| GetFail (e : Exn) (left_behind : option Bytes).

(** The answers of the collaborators.  The [nat] argument of an oracle is
    the number of events logged before the call. *)
Record Env := mkEnv {
  (* the platform *)
  os_path_join : string -> string -> string;
  os_path_split : string -> string * string;
  os_path_dirname : string -> string;
  known_hosts : string;
  utc_strftime : Z -> string;
  st_mode_to_int : Z -> Z;
  os_fault : nat -> OsCall -> option Exn;
  (* the Alteryx engine *)
  UpdateOnly : string;
  temp_file_name : nat -> string -> string;
  (* the SFTP server, through pysftp *)
  srv_connect : nat -> ConnArgs -> Res ServerKey;
  srv_isdir : nat -> option string -> bool;
  srv_isfile : nat -> string -> bool;
  srv_exists : nat -> option string -> bool;
  srv_chdir : nat -> option string -> Res unit;
  srv_listdir_attr : nat -> Res (list SFTPAttributes);
  srv_stat : nat -> string -> Res SFTPAttributes;
  srv_get : nat -> string -> string -> GetResult;
  srv_rename : nat -> string -> string -> Res unit;
  srv_remove : nat -> string -> Res unit;
  srv_normalize : nat -> option string -> string;
  srv_pwd : nat -> string;
  srv_put : nat -> string -> Res unit;
  srv_putfo : nat -> Bytes -> string -> Res unit
}.

(** The mutable world: the log of calls in the order they were made, the
    local file system, and the contents of the known-hosts file
    ([None] when the file does not exist). *)
Record World := mkWorld {
  trace : list Event;
  files : string -> option Node;
  hosts_file : option HostKeys
}.

Definition clock (w : World) : nat := length (trace w).

Definition add_event (w : World) (e : Event) : World :=
  mkWorld (trace w ++ [e]) (files w) (hosts_file w).

Definition set_file (w : World) (p : string) (n : option Node) : World :=
  mkWorld (trace w)
          (fun q => if String.eqb q p then n else files w q)
          (hosts_file w).

Definition set_hosts (w : World) (h : HostKeys) : World :=
  mkWorld (trace w) (files w) (Some h).

(** *** The monad *)

Definition M (A : Type) : Type := Env -> World -> Res A * World.

Definition ret {A} (a : A) : M A := fun _ w => (Ok a, w).

Definition raise {A} (e : Exn) : M A := fun _ w => (Raised e, w).

Definition bind {A B} (m : M A) (f : A -> M B) : M B :=
  fun env w =>
    match m env w with
    | (Ok a, w') => f a env w'
    | (Raised e, w') => (Raised e, w')
    end.

(** [try: m  except <classes accepted by h>: h e  else: els a] *)
Definition try_except_else {A B} (m : M A) (h : Exn -> option (M B))
           (els : A -> M B) : M B :=
  fun env w =>
    match m env w with
    | (Ok a, w') => els a env w'
    | (Raised e, w') =>
        match h e with
        | Some k => k env w'
        | None => (Raised e, w')
        end
    end.

Definition try_except {A} (m : M A) (h : Exn -> option (M A)) : M A :=
  try_except_else m h ret.

(** A pure Python expression that may raise. *)
Definition lift {A} (r : Res A) : M A := fun _ w => (r, w).

(** Reading the environment and the world. *)
Definition ask {A} (f : Env -> A) : M A := fun env w => (Ok (f env), w).
Definition peek {A} (f : World -> A) : M A := fun _ w => (Ok (f w), w).

End Rt.
Export Rt.

Declare Scope py_scope.
Delimit Scope py_scope with py.
Notation "x <- c1 ;; c2" := (Rt.bind c1 (fun x => c2))
  (at level 61, c1 at next level, right associativity) : py_scope.
Notation "c1 ;; c2" := (Rt.bind c1 (fun _ => c2))
  (at level 61, right associativity) : py_scope.
Local Open Scope py_scope.

(** *** Logged calls *)

Module Call.

(** A call that always returns. *)
Definition total {A} (ans : Env -> nat -> A) (ev : Event) : M A :=
  fun env w => (Ok (ans env (clock w)), add_event w ev).

(** A call that returns or raises. *)
Definition fallible {A} (ans : Env -> nat -> Res A) (ev : Outcome -> Event) : M A :=
  fun env w =>
    match ans env (clock w) with
    | Ok a => (Ok a, add_event w (ev Returned))
    | Raised e => (Raised e, add_event w (ev Failed))
    end.

(** A call without an answer. *)
Definition notify (ev : Event) : M unit :=
  fun _ w => (Ok tt, add_event w ev).

End Call.

(** *** The Alteryx SDK *)

Module Sdk.

(** [alteryx_engine.output_message(n_tool_id, messageType, text)] *)
Definition output_message (t : MessageType) (text : string) : M unit :=
  Call.notify (EvMessage t text).

(** [alteryx_engine.get_init_var(n_tool_id, 'UpdateOnly')] *)
Definition get_init_var_UpdateOnly : M string := ask UpdateOnly.

(** [alteryx_engine.create_temp_file_name(ext)]: a name, not a file. *)
Definition create_temp_file_name (ext : string) : M string :=
  fun env w =>
    let name := temp_file_name env (clock w) ext in
    (Ok name, add_event w (EvTempFileName name)).

(** The output anchor. *)
Definition anchor_init (fields : list string) : M unit :=
  Call.notify (EvAnchorInit fields).
Definition update_progress (num den : nat) : M unit :=
  Call.notify (EvUpdateProgress num den).
Definition push_record (r : list (option FieldVal)) : M unit :=
  Call.notify (EvPushRecord r).
Definition output_record_count (final : bool) : M unit :=
  Call.notify (EvRecordCount final).
Definition anchor_close : M unit := Call.notify EvAnchorClose.

End Sdk.

(** *** The operating system *)

Module Os.

Definition is_file (n : option Node) : bool :=
  match n with Some (File _) => true | _ => false end.
Definition is_dir (n : option Node) : bool :=
  match n with Some Dir => true | _ => false end.
Definition is_some (n : option Node) : bool :=
  match n with Some _ => true | None => false end.

Definition path_exists (p : string) : M bool := peek (fun w => is_some (files w p)).
Definition path_isfile (p : string) : M bool := peek (fun w => is_file (files w p)).
Definition path_isdir (p : string) : M bool := peek (fun w => is_dir (files w p)).

Definition path_join (a b : string) : M string := ask (fun env => os_path_join env a b).
Definition path_split (p : string) : M (string * string) :=
  ask (fun env => os_path_split env p).
Definition path_dirname (p : string) : M string := ask (fun env => os_path_dirname env p).

Definition not_found (p : string) : Exn :=
  mkExn IOError ("[Errno 2] No such file or directory: " +:+ p).
Definition file_exists (p : string) : Exn :=
  mkExn IOError ("[Errno 17] File exists: " +:+ p).

(** [os.mkdir(p)] *)
Definition mkdir (p : string) : M unit :=
  fun env w =>
    match os_fault env (clock w) (o_mkdir p) with
    | Some e => (Raised e, add_event w (EvOs (o_mkdir p) Failed))
    | None =>
        match files w p with
        | Some _ => (Raised (file_exists p), add_event w (EvOs (o_mkdir p) Failed))
        | None => (Ok tt, set_file (add_event w (EvOs (o_mkdir p) Returned)) p (Some Dir))
        end
    end.

(** [os.remove(p)] *)
Definition remove (p : string) : M unit :=
  fun env w =>
    match os_fault env (clock w) (o_remove p) with
    | Some e => (Raised e, add_event w (EvOs (o_remove p) Failed))
    | None =>
        match files w p with
        | Some (File _) =>
            (Ok tt, set_file (add_event w (EvOs (o_remove p) Returned)) p None)
        | _ => (Raised (not_found p), add_event w (EvOs (o_remove p) Failed))
        end
    end.

(** [os.rename(src, dst)] *)
Definition rename (src dst : string) : M unit :=
  fun env w =>
    match os_fault env (clock w) (o_rename src dst) with
    | Some e => (Raised e, add_event w (EvOs (o_rename src dst) Failed))
    | None =>
        match files w src with
        | Some n =>
            (Ok tt,
             set_file (set_file (add_event w (EvOs (o_rename src dst) Returned))
                                src None) dst (Some n))
        | None => (Raised (not_found src), add_event w (EvOs (o_rename src dst) Failed))
        end
    end.

(** [with open(p, 'rb') as f: f.read()] *)
Definition open_rb_read (p : string) : M Bytes :=
  fun env w =>
    match os_fault env (clock w) (o_open_rb p) with
    | Some e => (Raised e, add_event w (EvOs (o_open_rb p) Failed))
    | None =>
        match files w p with
        | Some (File b) => (Ok b, add_event w (EvOs (o_open_rb p) Returned))
        | _ => (Raised (not_found p), add_event w (EvOs (o_open_rb p) Failed))
        end
    end.

End Os.

(** *** pysftp

    The library is not part of the repository; the engines see it as
    follows.
    - [CnOpts()] reads the known-hosts file; [lookup], [add] and [save]
      work on the entries read, and [save] rewrites the file.
    - [Connection(...)] yields a session or raises.
    - [isdir], [isfile] and [exists] answer with a boolean (the library
      turns the [IOError] of the underlying [stat] into [False]);
      [normalize], [pwd] and [close] return; the other methods return or
      raise, as the server decides.
    - [get] writes the local file: see [GetResult]. *)

Module Pysftp.

(** [pysftp.CnOpts().hostkeys]: the entries of the known-hosts file, none
    when the file is missing. *)
Definition CnOpts_hostkeys : M HostKeys :=
  peek (fun w => match hosts_file w with Some h => h | None => [] end).

(** [hostkeys.lookup(hostname)]: [None] unless some entry names the host. *)
Definition lookup (hk : HostKeys) (hostname : option string) : option HostKeys :=
  match filter (fun e => eq_opt (hk_host e) hostname) hk with
  | [] => None
  | l => Some l
  end.

(** [hostkeys.add(hostname, keytype, key)]: replaces the key of the entry
    for this host and key type, appends a new entry when there is none. *)
Fixpoint add (hk : HostKeys) (hostname : option string) (keytype key : string)
  : HostKeys :=
  match hk with
  | [] => [mkHostKey hostname keytype key]
  | e :: r =>
      if eq_opt (hk_host e) hostname && String.eqb (hk_type e) keytype
      then mkHostKey (hk_host e) (hk_type e) key :: r
      else e :: add r hostname keytype key
  end.

(** [hostkeys.save(filename)]: rewrites the known-hosts file. *)
Definition save (hk : HostKeys) (filename : string) : M unit :=
  fun env w =>
    match os_fault env (clock w) (o_save_hosts filename) with
    | Some e => (Raised e, add_event w (EvOs (o_save_hosts filename) Failed))
    | None =>
        (Ok tt, set_hosts (add_event w (EvOs (o_save_hosts filename) Returned)) hk)
    end.

(** [pysftp.helpers.known_hosts()] *)
Definition helpers_known_hosts : M string := ask known_hosts.

(** [pysftp.Connection(host=.., .., cnopts=..)] *)
Definition Connection_ (a : ConnArgs) : M Connection :=
  fun env w =>
    match srv_connect env (clock w) a with
    | Ok k => (Ok (mkConnection (clock w) k), add_event w (EvConnect a Returned))
    | Raised e => (Raised e, add_event w (EvConnect a Failed))
    end.

Section Methods.
Variable c : Connection.

Definition isdir (p : option string) : M bool :=
  Call.total (fun env t => srv_isdir env t p) (EvSftp c (c_isdir p) Returned).
Definition isfile (p : string) : M bool :=
  Call.total (fun env t => srv_isfile env t p) (EvSftp c (c_isfile p) Returned).
Definition exists_ (p : option string) : M bool :=
  Call.total (fun env t => srv_exists env t p) (EvSftp c (c_exists p) Returned).
Definition normalize (p : option string) : M string :=
  Call.total (fun env t => srv_normalize env t p) (EvSftp c (c_normalize p) Returned).
Definition pwd : M string :=
  Call.total srv_pwd (EvSftp c c_pwd Returned).
Definition close : M unit := Call.notify (EvSftp c c_close Returned).

Definition chdir (p : option string) : M unit :=
  Call.fallible (fun env t => srv_chdir env t p) (EvSftp c (c_chdir p)).
Definition listdir_attr : M (list SFTPAttributes) :=
  Call.fallible srv_listdir_attr (EvSftp c c_listdir_attr).
Definition stat (p : string) : M SFTPAttributes :=
  Call.fallible (fun env t => srv_stat env t p) (EvSftp c (c_stat p)).
Definition rename (src dst : string) : M unit :=
  Call.fallible (fun env t => srv_rename env t src dst) (EvSftp c (c_rename src dst)).
Definition remove (p : string) : M unit :=
  Call.fallible (fun env t => srv_remove env t p) (EvSftp c (c_remove p)).
Definition put (localpath : string) : M unit :=
  Call.fallible (fun env t => srv_put env t localpath) (EvSftp c (c_put localpath)).
Definition putfo (data : Bytes) (remotepath : string) : M unit :=
  Call.fallible (fun env t => srv_putfo env t data remotepath)
                (EvSftp c (c_putfo data remotepath)).

(** [sftp_conn.get(remotepath, localpath=localpath)] *)
Definition get (remotepath localpath : string) : M unit :=
  fun env w =>
    match srv_get env (clock w) remotepath localpath with
    | GetOk data =>
        (Ok tt,
         set_file (add_event w (EvSftp c (c_get remotepath localpath) Returned))
                  localpath (Some (File data)))
    | GetFail e None =>
        (Raised e, add_event w (EvSftp c (c_get remotepath localpath) Failed))
    | GetFail e (Some part) =>
        (Raised e,
         set_file (add_event w (EvSftp c (c_get remotepath localpath) Failed))
                  localpath (Some (File part)))
    end.
End Methods.

End Pysftp.

(* ===================================================================== *)
(** ** Records of the Alteryx data stream *)
(* ===================================================================== *)

Module Record_.

(** [Sdk.FieldType] *)
Inductive FieldType :=
| ft_string | ft_wstring | ft_v_string | ft_v_wstring
| ft_int32 | ft_datetime | ft_bool | ft_blob.

Record FieldSpec := mkField {
  fd_name : string;
  fd_type : FieldType;
  fd_size : Z;
  fd_description : string
}.

(** [Sdk.RecordInfo]: the fields and the source they were added with. *)
Record RecordInfo := mkRecordInfo {
  ri_fields : list FieldSpec;
  ri_source : string
}.

(** The dictionary [{a['name']: idx for idx, a in enumerate(field_list)}];
    a later field of the same name overrides an earlier one. *)
Definition FieldDict := list (string * nat).

Fixpoint enumerate_names (i : nat) (l : list FieldSpec) : FieldDict :=
  match l with
  | [] => []
  | a :: r => (fd_name a, i) :: enumerate_names (S i) r
  end.

Definition dict_get (d : FieldDict) (k : string) : Res nat :=
  match List.find (fun kv => String.eqb (fst kv) k) (rev d) with
  | Some kv => Ok (snd kv)
  | None => Raised (mkExn KeyError k)
  end.

(** A record creator holds one optional value per field. *)
Definition RecordCreator := list (option FieldVal).

Definition construct_record_creator (ri : RecordInfo) : RecordCreator :=
  repeat None (length (ri_fields ri)).

Fixpoint set_nth (i : nat) (v : option FieldVal) (rc : RecordCreator) : RecordCreator :=
  match rc, i with
  | [], _ => []
  | _ :: r, O => v :: r
  | x :: r, S j => x :: set_nth j v r
  end.

(** [record_info[field_dict[name]].set_from_*(record_creator, v)] *)
Definition set_field (d : FieldDict) (name : string) (v : FieldVal)
           (rc : RecordCreator) : M RecordCreator :=
  i <- lift (dict_get d name);;
  ret (set_nth i (Some v) rc).

(** An incoming record, read through the field accessors. *)
Record InRecord := mkInRecord {
  get_as_string : string -> string;
  get_as_blob : string -> Bytes
}.

(** [record_info_in.get_field_by_name(name, throw_error=False)] *)
Definition get_field_by_name (ri : RecordInfo) (name : string) : option FieldSpec :=
  List.find (fun a => String.eqb (fd_name a) name) (ri_fields ri).

End Record_.
Export Record_.

(* ===================================================================== *)
(** ** Connecting: the part of [_init_sftp] that both engines share *)
(* ===================================================================== *)

Module Connect.

(** Lines 240-280 of the download engine and 160-200 of the upload
    engine are the same text: the known-hosts check, the connection
    attempt with its four handlers, and the caching of the key of an
    unknown host.  [None] stands for the [return False] of a handler. *)
Definition _init_sftp_connect
           (hostname : option string) (port : Port)
           (username password key_filepath key_passphrase : option string)
  : M (option Connection) :=
  (* SFTP Security: Check for known_hosts *)
  cnopts_hostkeys <- Pysftp.CnOpts_hostkeys;;
  st <- (match Pysftp.lookup cnopts_hostkeys hostname with
         | None =>
             Sdk.output_message EMT_warning
               ("Unkown host " +:+ fmt hostname +:+ ". Any host key will be accepted.");;
             (* DANGER: Disable all key validation for all hosts *)
             ret (Some cnopts_hostkeys, None)
         | Some _ => ret (None, Some cnopts_hostkeys)
         end);;
  let sftp_hosts : option HostKeys := fst st in
  let cnopts : option HostKeys := snd st in
  (* Initiate connection *)
  try_except
    (sftp_conn <- Pysftp.Connection_
                    (mkConnArgs hostname port username password
                                key_filepath key_passphrase cnopts);;
     (* Add host to known_hosts if not known yet *)
     (match sftp_hosts with
      | Some hosts =>
          Sdk.output_message EMT_warning
            "Connected to unknown host. Caching its hostkey to known_hosts.";;
          let hosts := Pysftp.add hosts hostname
                                  (key_name (remote_server_key sftp_conn))
                                  (key_data (remote_server_key sftp_conn)) in
          (* Create necessary directories if not yet available *)
          hosts_file <- Pysftp.helpers_known_hosts;;
          d <- Os.path_dirname hosts_file;;
          ex <- Os.path_exists d;;
          (if negb ex then Os.mkdir d else ret tt);;
          Pysftp.save hosts hosts_file
      | None => ret tt
      end);;
     ret (Some sftp_conn))
    (fun e =>
       if is_ConnectionException e then
         Some (Sdk.output_message EMT_error
                 "Could not connect to server. Please check settings.";;
               ret None)
       else if is_CredentialException e then
         Some (Sdk.output_message EMT_error
                 "Authentication failed. Please check credentials.";;
               ret None)
       else if is_BadAuthenticationType e then
         Some (Sdk.output_message EMT_error
                 ("Unsupported Authentication Type: " +:+ exn_msg e);;
               ret None)
       else if is_Exception e then
         Some (Sdk.output_message EMT_error ("Connection error: " +:+ exn_msg e);;
               ret None)
       else None).

End Connect.

(* ===================================================================== *)
(** ** The download engine *)
(* ===================================================================== *)

Module Download.

Inductive ToolMode := NONE_MODE | LIST_FILES | DOWNLOAD_TO_PATH | DOWNLOAD_TO_BLOB.

Inductive FileHandling := NONE_HANDLING | KEEP_FILES | DELETE_FILES | MOVE_FILES.

Definition mode_eqb (a b : ToolMode) : bool :=
  match a, b with
  | NONE_MODE, NONE_MODE | LIST_FILES, LIST_FILES
  | DOWNLOAD_TO_PATH, DOWNLOAD_TO_PATH | DOWNLOAD_TO_BLOB, DOWNLOAD_TO_BLOB => true
  | _, _ => false
  end.

Definition handling_eqb (a b : FileHandling) : bool :=
  match a, b with
  | NONE_HANDLING, NONE_HANDLING | KEEP_FILES, KEEP_FILES
  | DELETE_FILES, DELETE_FILES | MOVE_FILES, MOVE_FILES => true
  | _, _ => false
  end.

(** [self.sftp_settings] *)
Record SftpSettings := mkSftpSettings {
  hostname : option string;
  port : Port;
  username : option string;
  password : option string;
  key_filepath : option string;
  key_passphrase : option string;
  remote_path : option string;
  move_path : option string
}.

(** [self.output_settings] *)
Record OutputSettings := mkOutputSettings {
  local_path : option string;
  blobfield : string
}.

(** The attributes of [AyxPlugin] that the engine reads after [pi_init];
    [input_optional] tells whether an [IncomingInterface] is attached. *)
Record AyxPlugin := mkPlugin {
  sftp_settings : SftpSettings;
  tool_mode : ToolMode;
  output_settings : OutputSettings;
  file_handling : FileHandling;
  incoming_field : option string;
  input_optional : bool;
  output_recordinfo : option RecordInfo
}.

Definition set_output_recordinfo (self : AyxPlugin) (ri : RecordInfo) : AyxPlugin :=
  mkPlugin (sftp_settings self) (tool_mode self) (output_settings self)
           (file_handling self) (incoming_field self) (input_optional self)
           (Some ri).

(** An entry of [file_list] (and [cur_f] of the streaming mode, which has
    no ['is_file'] and no ['is_dir'] key). *)
Record FileEntry := mkEntry {
  f_filename : string;
  f_size : Z;
  f_uid : string;
  f_gid : string;
  f_mode : string;
  f_atime : string;
  f_mtime : string;
  f_is_file : option bool;
  f_is_dir : option bool
}.

(** [if not silent: self.output_message(text)] followed by
    [validation_result = False]. *)
Definition invalid (silent : bool) (text : string) : M bool :=
  (if silent then ret tt else Sdk.output_message EMT_error text);;
  ret false.

(** [AyxPlugin.validate_settings] *)
Definition validate_settings (self : AyxPlugin) (silent : bool) : M bool :=
  let s := sftp_settings self in
  let validation_result := true in
  (* Validate the settings *)
  validation_result <-
    (if negb (truthy (hostname s)) then
       invalid silent "Please enter a hostname."
     else if negb (match hostname s with
                   | Some h => Hostname.re_match h
                   | None => false
                   end) then
       invalid silent "Please enter a valid hostname without protocol, user or port."
     else ret validation_result);;
  validation_result <-
    (if negb (port_truthy (port s)) then
       invalid silent "Please provide a port for the connection."
     else ret validation_result);;
  validation_result <-
    (if negb (truthy (username s)) then
       invalid silent "Please provide a username for the connection."
     else ret validation_result);;
  validation_result <-
    (if negb (truthy (remote_path s)) then
       invalid silent "Please provide a remote path. Root directory would be /."
     else ret validation_result);;
  validation_result <-
    (if mode_eqb (tool_mode self) NONE_MODE then
       invalid silent "Please select a mode for the tool."
     else ret validation_result);;
  validation_result <-
    (if mode_eqb (tool_mode self) DOWNLOAD_TO_PATH
        && negb (truthy (local_path (output_settings self))) then
       invalid silent "Please enter a path to store downloaded files."
     else ret validation_result);;
  (* Check if a file handling is selected *)
  validation_result <-
    (if negb (mode_eqb (tool_mode self) LIST_FILES)
        && handling_eqb (file_handling self) NONE_HANDLING then
       invalid silent "Please decide what should happen with the files after download."
     else ret validation_result);;
  validation_result <-
    (if negb (mode_eqb (tool_mode self) LIST_FILES)
        && handling_eqb (file_handling self) MOVE_FILES
        && negb (truthy (move_path s)) then
       invalid silent "Please specify a path where the data should be moved to."
     else ret validation_result);;
  (* Check if paths are existent *)
  validation_result <-
    (match key_filepath s with
     | Some kf =>
         if truthy_str kf then
           ex <- Os.path_exists kf;;
           if negb ex then
             invalid silent "The keyfile could not be found. Please check file path."
           else
             isf <- Os.path_isfile kf;;
             if negb isf then
               invalid silent
                 "The path for the keyfile is not a file. Please specify a filename."
             else ret validation_result
         else ret validation_result
     | None => ret validation_result
     end);;
  validation_result <-
    (match local_path (output_settings self) with
     | Some lp =>
         if mode_eqb (tool_mode self) DOWNLOAD_TO_PATH && truthy_str lp then
           ex <- Os.path_exists lp;;
           if negb ex then
             invalid silent
               "The specified path for the output does not exist. Please create the folder or enter a different path."
           else
             isd <- Os.path_isdir lp;;
             if negb isd then
               invalid silent "The output path is not a directory. Please enter a directory."
             else ret validation_result
         else ret validation_result
     | None => ret validation_result
     end);;
  (* If there is an Incoming connection, we need a field containing
     file/folder names *)
  validation_result <-
    (if input_optional self && negb (truthy (incoming_field self)) then
       invalid silent
         "Please select a field from the incoming data containing file/folder names."
     else ret validation_result);;
  ret validation_result.

Definition list_fields : list FieldSpec :=
  [ mkField "Filename" ft_v_wstring 12345678 "Filename";
    mkField "Size" ft_int32 32 "File Size";
    mkField "UID" ft_v_wstring 12345678 "User ID of Owner";
    mkField "GID" ft_v_wstring 12345678 "Group ID of Owner";
    mkField "Mode" ft_v_wstring 12345678 "File Mode";
    mkField "TimeAdded" ft_datetime 19 "Time Added";
    mkField "TimeModified" ft_datetime 12345678 "Time Modified";
    mkField "IsDirectory" ft_bool 0 "Is item a directory?";
    mkField "IsFile" ft_bool 0 "Is item a file?" ].

Definition download_fields : list FieldSpec :=
  [ mkField "Filename" ft_v_wstring 12345678 "Filename";
    mkField "Size" ft_int32 32 "File Size";
    mkField "TimeAdded" ft_datetime 19 "Time Added";
    mkField "TimeModified" ft_datetime 12345678 "Time Modified" ].

(** [AyxPlugin.build_ayx_output] *)
Definition build_ayx_output (self : AyxPlugin) (push_metadata : bool)
  : M (RecordInfo * RecordCreator * FieldDict) :=
  (* Generate list of fields according to tool mode *)
  let field_list :=
    match tool_mode self with
    | LIST_FILES => list_fields
    | DOWNLOAD_TO_BLOB =>
        download_fields
        ++ [mkField (blobfield (output_settings self)) ft_blob 123456789
                    "File Contents as Blob"]
    | DOWNLOAD_TO_PATH =>
        download_fields
        ++ [mkField "FilePath" ft_v_wstring 123456789 "Local File Path"]
    | NONE_MODE => download_fields
    end in
  (* Add fields to RecordInfo object *)
  let rec_info :=
    mkRecordInfo field_list
                 ("SFTP Downloader: " +:+ fmt (hostname (sftp_settings self))) in
  (* Push meta data downstream *)
  (if push_metadata then Sdk.anchor_init (map fd_name field_list) else ret tt);;
  (* Get a record creator *)
  let rec_creator := construct_record_creator rec_info in
  let field_dict := enumerate_names 0 field_list in
  ret (rec_info, rec_creator, field_dict).

(** [AyxPlugin._init_sftp] *)
Definition _init_sftp (self : AyxPlugin) : M (option Connection) :=
  let s := sftp_settings self in
  r <- Connect._init_sftp_connect (hostname s) (port s) (username s) (password s)
                                  (key_filepath s) (key_passphrase s);;
  match r with
  | None => ret None
  | Some sftp_conn =>
      (* Change working directory *)
      Sdk.output_message EMT_info ("Connected successfully to " +:+ fmt (hostname s));;
      isd <- Pysftp.isdir sftp_conn (remote_path s);;
      if negb isd then
        Sdk.output_message EMT_error
          ("Remote path " +:+ dq +:+ fmt (remote_path s) +:+ dq +:+ " is not a directory.");;
        ret None
      else
        try_except
          (Pysftp.chdir sftp_conn (remote_path s);;
           ret (Some sftp_conn))
          (fun e =>
             if is_IOError e then
               Some (Sdk.output_message EMT_error
                       ("Remote path does not exist: " +:+ fmt (remote_path s));;
                     ret None)
             else None)
  end.

(** The last block of [_process_file], below the comment "Handle file
    after it has been downloaded": the file-handling policy applied to
    the remote file. *)
Definition handle_downloaded (self : AyxPlugin) (sftp_conn : Connection)
           (f : FileEntry) : M unit :=
  let s := sftp_settings self in
  match file_handling self with
  | MOVE_FILES =>
      (* Check if target folder exists *)
      ex <- Pysftp.exists_ sftp_conn (move_path s);;
      if negb ex then
        Sdk.output_message EMT_warning
          ("The target folder " +:+ fmt (move_path s) +:+ " does not exist.")
      else
        (* Check if it is actually a folder *)
        isd <- Pysftp.isdir sftp_conn (move_path s);;
        if negb isd then
          Sdk.output_message EMT_warning
            ("The target folder " +:+ fmt (move_path s) +:+ " is not a directory.")
        else
          (* Try to move file *)
          try_except_else
            (cwd <- Pysftp.pwd sftp_conn;;
             target <- Pysftp.normalize sftp_conn (move_path s);;
             Pysftp.rename sftp_conn (cwd +:+ "/" +:+ f_filename f)
                           (target +:+ "/" +:+ f_filename f))
            (fun e =>
               if is_IOError e then
                 Some (Sdk.output_message EMT_error
                         ("Error moving file " +:+ dq +:+ f_filename f +:+ dq
                          +:+ ": " +:+ exn_msg e))
               else None)
            (fun _ =>
               target <- Pysftp.normalize sftp_conn (move_path s);;
               Sdk.output_message EMT_info
                 ("File " +:+ f_filename f +:+ " moved to " +:+ target +:+ "."))
  | DELETE_FILES =>
      (* Simply delete file *)
      try_except_else
        (cwd <- Pysftp.pwd sftp_conn;;
         Pysftp.remove sftp_conn (cwd +:+ "/" +:+ f_filename f))
        (fun e =>
           if is_IOError e then
             Some (Sdk.output_message EMT_error
                     ("Error deleting file " +:+ dq +:+ f_filename f +:+ dq
                      +:+ ": " +:+ exn_msg e))
           else None)
        (fun _ =>
           Sdk.output_message EMT_info
             ("File " +:+ f_filename f +:+ " deleted from server."))
  | _ => ret tt
  end.

(** [AyxPlugin._process_file] *)
Definition _process_file (self : AyxPlugin) (sftp_conn : Connection) (f : FileEntry)
           (field_dict : FieldDict) (record_info : RecordInfo)
           (record_creator : RecordCreator) : M unit :=
  let s := sftp_settings self in
  (* These fields are shared by all tool modes *)
  rc <- set_field field_dict "Filename" (VStr (f_filename f)) record_creator;;
  rc <- set_field field_dict "Size" (VInt (f_size f)) rc;;
  rc <- set_field field_dict "TimeAdded" (VStr (f_atime f)) rc;;
  rc <- set_field field_dict "TimeModified" (VStr (f_mtime f)) rc;;
  rc <-
    (match tool_mode self with
     | LIST_FILES =>
         (* Fields only present for LIST_FILES mode *)
         rc <- set_field field_dict "UID" (VStr (f_uid f)) rc;;
         rc <- set_field field_dict "GID" (VStr (f_gid f)) rc;;
         rc <- set_field field_dict "Mode" (VStr (f_mode f)) rc;;
         is_dir <- lift (match f_is_dir f with
                         | Some b => Ok b
                         | None => Raised (mkExn KeyError "is_dir")
                         end);;
         rc <- set_field field_dict "IsDirectory" (VBool is_dir) rc;;
         is_file <- lift (match f_is_file f with
                          | Some b => Ok b
                          | None => Raised (mkExn KeyError "is_file")
                          end);;
         set_field field_dict "IsFile" (VBool is_file) rc
     | mode =>
         (* Download files if not in LIST_FILES mode *)
         out_fname <-
           (match mode with
            | DOWNLOAD_TO_BLOB =>
                (* Generate temporary filename *)
                n <- Sdk.create_temp_file_name "tmp";;
                ret (Some n)
            | DOWNLOAD_TO_PATH =>
                (* Build local path for download *)
                match local_path (output_settings self) with
                | Some lp =>
                    n <- Os.path_join lp (f_filename f);;
                    ret (Some n)
                | None => raise (mkExn TypeError "expected str, not NoneType")
                end
            | _ => ret None
            end);;
         (* Download file *)
         try_except
           (match out_fname with
            | Some n => Pysftp.get sftp_conn (f_filename f) n
            | None => raise (mkExn UnboundLocalError "out_fname")
            end)
           (fun e =>
              if is_IOError e then
                Some (Sdk.output_message EMT_error
                        ("Error transferring file " +:+ dq +:+ f_filename f +:+ dq
                         +:+ ": " +:+ exn_msg e))
              else None);;
         (* Generate BLOB for Alteryx *)
         match mode, out_fname with
         | DOWNLOAD_TO_BLOB, Some n =>
             (* Read file as binary for blob *)
             blob_content <- Os.open_rb_read n;;
             (* Add file as blob *)
             set_field field_dict (blobfield (output_settings self))
                       (VBlob blob_content) rc
         | DOWNLOAD_TO_PATH, Some n =>
             (* Add file path *)
             set_field field_dict "FilePath" (VStr n) rc
         | _, _ => ret rc
         end
     end);;
  (* Finalize record for this file and push *)
  Sdk.push_record rc;;
  (* Handle file after it has been downloaded *)
  handle_downloaded self sftp_conn f.

(** The dictionary built for one [fattr] of [sftp_conn.listdir_attr()]. *)
Definition file_entry (sftp_conn : Connection) (fattr : SFTPAttributes) : M FileEntry :=
  mode <- ask (fun env => st_mode_to_int env (st_mode fattr));;
  atime <- ask (fun env => utc_strftime env (st_atime fattr));;
  mtime <- ask (fun env => utc_strftime env (st_mtime fattr));;
  is_file <- Pysftp.isfile sftp_conn (filename fattr);;
  is_dir <- Pysftp.isdir sftp_conn (Some (filename fattr));;
  ret (mkEntry (filename fattr) (st_size fattr)
               (str_of_Z (st_uid fattr)) (str_of_Z (st_gid fattr))
               (str_of_Z mode) atime mtime (Some is_file) (Some is_dir)).

(** [for fattr in sftp_files: file_list.append({...})] *)
Fixpoint collect_files (sftp_conn : Connection) (sftp_files : list SFTPAttributes)
  : M (list FileEntry) :=
  match sftp_files with
  | [] => ret []
  | fattr :: rest =>
      e <- file_entry sftp_conn fattr;;
      l <- collect_files sftp_conn rest;;
      ret (e :: l)
  end.

(** The body of [for f in file_list:] in [pi_push_all_records];
    [item_counter] is its value after the increment and [total] is
    [len(file_list)]. *)
Definition push_item (self : AyxPlugin) (sftp_conn : Connection)
           (field_dict : FieldDict) (record_info : RecordInfo)
           (record_creator : RecordCreator) (total : nat)
           (item_counter : nat) (f : FileEntry) : M unit :=
  (* Update progress *)
  Sdk.update_progress item_counter total;;
  is_file <- lift (match f_is_file f with
                   | Some b => Ok b
                   | None => Raised (mkExn KeyError "is_file")
                   end);;
  if negb is_file && negb (mode_eqb (tool_mode self) LIST_FILES) then
    (* If not a file, do not download *)
    Sdk.output_message EMT_warning
      (dq +:+ fmt (remote_path (sftp_settings self)) +:+ f_filename f +:+ dq
       +:+ " is not a file. Skipped.")
  else
    (* Process file *)
    _process_file self sftp_conn f field_dict record_info record_creator.

(** The loop itself. *)
Fixpoint push_items (body : nat -> FileEntry -> M unit) (item_counter : nat)
         (file_list : list FileEntry) : M unit :=
  match file_list with
  | [] => ret tt
  | f :: rest =>
      body item_counter f;;
      push_items body (S item_counter) rest
  end.

Definition count_files (file_list : list FileEntry) : nat :=
  length (filter (fun f => match f_is_file f with Some b => b | None => false end)
                 file_list).

(** [AyxPlugin.pi_push_all_records]; the plugin is returned with its
    [output_recordinfo] as the method leaves it. *)
Definition pi_push_all_records (self : AyxPlugin) (n_record_limit : Z)
  : M (bool * AyxPlugin) :=
  let s := sftp_settings self in
  (* Don't get data when data is not actually requested *)
  uo <- Sdk.get_init_var_UpdateOnly;;
  if String.eqb uo "True" then
    (match output_recordinfo self with
     | Some ri => Sdk.anchor_init (map fd_name (ri_fields ri))
     | None => ret tt
     end);;
    ret (false, self)
  else
    (* Validate settings, otherwise do not do anything *)
    valid <- validate_settings self true;;
    if negb valid then ret (false, self)
    else
      (* Reset progress *)
      Sdk.update_progress 0 1;;
      (* Prepare SFTP-connection *)
      conn <- _init_sftp self;;
      match conn with
      | None => (* Something went wrong *) ret (false, self)
      | Some sftp_conn =>
          (* Collect all files and directories *)
          sftp_files <- Pysftp.listdir_attr sftp_conn;;
          file_list <- collect_files sftp_conn sftp_files;;
          (* Get everything Alteryx needs *)
          out <- build_ayx_output self true;;
          let '(record_info, record_creator, field_dict) := out in
          let self := set_output_recordinfo self record_info in
          (* Iterate through all files in current directory *)
          push_items (push_item self sftp_conn field_dict record_info record_creator
                                (length file_list))
                     0 file_list;;
          (* Close connection *)
          Pysftp.close sftp_conn;;
          (* Log Tool input *)
          Sdk.output_message Status_info
            (match tool_mode self with
             | LIST_FILES =>
                 str_of_nat (length file_list) +:+ " items in found in directory "
                 +:+ fmt (hostname s) +:+ fmt (remote_path s)
             | _ =>
                 str_of_nat (count_files file_list) +:+ " files downloaded from "
                 +:+ fmt (hostname s) +:+ fmt (remote_path s)
             end);;
          Sdk.update_progress 1 1;;
          Sdk.anchor_close;;
          ret (true, self)
      end.

(** *** [IncomingInterface] of the download engine *)

(** [self.sftp_conn]: [None] at construction, then whatever [_init_sftp]
    returned, [False] included. *)
Inductive ConnSlot := slot_None | slot_False | slot_Conn (c : Connection).

Record IncomingInterface := mkII {
  record_info_out : option RecordInfo;
  in_field : option FieldSpec;
  record_creator : option RecordCreator;
  field_dict : FieldDict;
  sftp_conn : ConnSlot;
  file_counter : nat
}.

(** [IncomingInterface.__init__] *)
Definition II_new : IncomingInterface := mkII None None None [] slot_None 0.

Definition slot_of (r : option Connection) : ConnSlot :=
  match r with
  | Some c => slot_Conn c
  | None => slot_False
  end.

(** [IncomingInterface.ii_init]; returns the interface and the plugin as
    the method leaves them. *)
Definition ii_init (self : IncomingInterface) (ayx_plugin : AyxPlugin)
           (record_info_in : RecordInfo)
  : M (bool * IncomingInterface * AyxPlugin) :=
  match incoming_field ayx_plugin with
  | Some name =>
      if truthy_str name then
        let fld := get_field_by_name record_info_in name in
        let self := mkII (record_info_out self) fld (record_creator self)
                         (field_dict self) (sftp_conn self) (file_counter self) in
        match fld with
        | None =>
            Sdk.output_message EMT_error
              ("Field " +:+ dq +:+ name +:+ dq +:+ " was not found in the incoming data.");;
            ret (false, self, ayx_plugin)
        | Some _ =>
            (* Build everything for outputting data *)
            out <- build_ayx_output ayx_plugin true;;
            let '(ri, rc, fd) := out in
            ret (true,
                 mkII (Some ri) fld (Some rc) fd (sftp_conn self) 0,
                 set_output_recordinfo ayx_plugin ri)
        end
      else
        Sdk.output_message EMT_error "No incoming field selected.";;
        ret (false, self, ayx_plugin)
  | None =>
      Sdk.output_message EMT_error "No incoming field selected.";;
      ret (false, self, ayx_plugin)
  end.

Definition with_conn (self : IncomingInterface) (c : ConnSlot) : IncomingInterface :=
  mkII (record_info_out self) (in_field self) (record_creator self)
       (field_dict self) c (file_counter self).

Definition count_up (self : IncomingInterface) : IncomingInterface :=
  mkII (record_info_out self) (in_field self) (record_creator self)
       (field_dict self) (sftp_conn self) (S (file_counter self)).

(** The part of [ii_push_record] that follows the connection check: it
    runs with the session [conn] that [self.sftp_conn] holds. *)
Definition push_current (self : IncomingInterface) (ayx_plugin : AyxPlugin)
           (fld : FieldSpec) (conn : Connection) (in_record : InRecord)
  : M (bool * IncomingInterface) :=
  let rp := fmt (remote_path (sftp_settings ayx_plugin)) in
  (* Current file *)
  let cur_fname := get_as_string in_record (fd_name fld) in
  (* Check whether file exists *)
  ex <- Pysftp.exists_ conn (Some cur_fname);;
  if negb ex then
    Sdk.output_message EMT_warning
      ("File " +:+ dq +:+ rp +:+ cur_fname +:+ dq +:+ " does not exist. Skipped.");;
    ret (true, self)
  else
    (* Check if it is actually a file *)
    isf <- Pysftp.isfile conn cur_fname;;
    if negb isf then
      Sdk.output_message EMT_warning
        ("File " +:+ dq +:+ rp +:+ cur_fname +:+ dq +:+ " is actually a folder. Skipped.");;
      ret (true, self)
    else
      (* Get details on the file *)
      fattr <- Pysftp.stat conn cur_fname;;
      mode <- ask (fun env => st_mode_to_int env (st_mode fattr));;
      atime <- ask (fun env => utc_strftime env (st_atime fattr));;
      mtime <- ask (fun env => utc_strftime env (st_mtime fattr));;
      let cur_f := mkEntry cur_fname (st_size fattr)
                           (str_of_Z (st_uid fattr)) (str_of_Z (st_gid fattr))
                           (str_of_Z mode) atime mtime None None in
      (* Process file; without [ii_init] the field dictionary is empty
         and the first lookup in it raises *)
      (match record_info_out self, record_creator self with
       | Some ri, Some rc => _process_file ayx_plugin conn cur_f (field_dict self) ri rc
       | _, _ => raise (mkExn KeyError "Filename")
       end);;
      (* Update Record Counts downstream *)
      Sdk.output_record_count false;;
      ret (true, count_up self).

(** [IncomingInterface.ii_push_record] *)
Definition ii_push_record (self : IncomingInterface) (ayx_plugin : AyxPlugin)
           (in_record : option InRecord) : M (bool * IncomingInterface) :=
  match in_record with
  | None => ret (false, self)
  | Some rec =>
      uo <- Sdk.get_init_var_UpdateOnly;;
      if String.eqb uo "True" then ret (false, self)
      else
        (* Validate settings *)
        valid <- validate_settings ayx_plugin false;;
        if negb valid then ret (false, self)
        else
          match in_field self with
          | None => ret (false, self)
          | Some fld =>
              if mode_eqb (tool_mode ayx_plugin) LIST_FILES then
                Sdk.output_message EMT_error
                  (dq +:+ "List Files" +:+ dq +:+
                   " is not supported when filenames are provided through an incoming connection.");;
                ret (false, self)
              else
                (* If we do not yet have a connection, we need to connect *)
                match sftp_conn self with
                | slot_Conn conn => push_current self ayx_plugin fld conn rec
                | _ =>
                    r <- _init_sftp ayx_plugin;;
                    let self := with_conn self (slot_of r) in
                    match r with
                    | None => ret (false, self)
                    | Some conn => push_current self ayx_plugin fld conn rec
                    end
                end
          end
  end.

(** [IncomingInterface.ii_close] *)
Definition ii_close (self : IncomingInterface) (ayx_plugin : AyxPlugin)
  : M IncomingInterface :=
  let s := sftp_settings ayx_plugin in
  self <- (match sftp_conn self with
           | slot_Conn conn =>
               Pysftp.close conn;;
               ret (with_conn self slot_None)
           | _ => ret self
           end);;
  Sdk.output_message Status_info
    (match tool_mode ayx_plugin with
     | LIST_FILES =>
         str_of_nat (file_counter self) +:+ " items in found in directory "
         +:+ fmt (hostname s) +:+ fmt (remote_path s)
     | _ =>
         str_of_nat (file_counter self) +:+ " files downloaded from "
         +:+ fmt (hostname s) +:+ fmt (remote_path s)
     end);;
  Sdk.output_record_count true;;
  Sdk.anchor_close;;
  ret self.

(** *** The engine's side of an incoming connection

    The upstream tool pushes its records one at a time and stops when
    [ii_push_record] answers [False] ("False if method calling limit is
    hit"); the end of the stream is [ii_close]. *)
Fixpoint feed (self : IncomingInterface) (ayx_plugin : AyxPlugin)
         (records : list InRecord) : M IncomingInterface :=
  match records with
  | [] => ret self
  | r :: rest =>
      out <- ii_push_record self ayx_plugin (Some r);;
      if fst out then feed (snd out) ayx_plugin rest else ret (snd out)
  end.

Definition run_streaming (ayx_plugin : AyxPlugin) (record_info_in : RecordInfo)
           (records : list InRecord) : M IncomingInterface :=
  out <- ii_init II_new ayx_plugin record_info_in;;
  let '(ok, self, ayx_plugin) := out in
  self <- (if ok then feed self ayx_plugin records else ret self);;
  ii_close self ayx_plugin.

End Download.

(* ===================================================================== *)
(** ** The upload engine *)
(* ===================================================================== *)

Module Upload.

Inductive UploadMode := NONE_MODE | UPLOAD_FILES | UPLOAD_BLOBS.

Inductive FileHandling := NONE_HANDLING | KEEP_FILES | DELETE_FILES | MOVE_FILES.

Definition mode_eqb (a b : UploadMode) : bool :=
  match a, b with
  | NONE_MODE, NONE_MODE | UPLOAD_FILES, UPLOAD_FILES
  | UPLOAD_BLOBS, UPLOAD_BLOBS => true
  | _, _ => false
  end.

Definition handling_eqb (a b : FileHandling) : bool :=
  match a, b with
  | NONE_HANDLING, NONE_HANDLING | KEEP_FILES, KEEP_FILES
  | DELETE_FILES, DELETE_FILES | MOVE_FILES, MOVE_FILES => true
  | _, _ => false
  end.

(** [self.sftp_settings] *)
Record SftpSettings := mkSftpSettings {
  hostname : option string;
  port : Port;
  username : option string;
  password : option string;
  key_filepath : option string;
  key_passphrase : option string;
  remote_path : option string
}.

Record AyxPlugin := mkPlugin {
  sftp_settings : SftpSettings;
  upload_mode : UploadMode;
  file_handling : FileHandling;
  move_path : option string;
  incoming_field : option string;
  blob_field : option string;
  overwrite : bool
}.

Definition invalid (silent : bool) (text : string) : M bool :=
  (if silent then ret tt else Sdk.output_message EMT_error text);;
  ret false.

(** [AyxPlugin.validate_settings] *)
Definition validate_settings (self : AyxPlugin) (silent : bool) : M bool :=
  let s := sftp_settings self in
  let validation_result := true in
  (* Validate the settings *)
  validation_result <-
    (if negb (truthy (hostname s)) then
       invalid silent "Please enter a hostname."
     else if negb (match hostname s with
                   | Some h => Hostname.re_match h
                   | None => false
                   end) then
       invalid silent "Please enter a valid hostname without protocol, user or port."
     else ret validation_result);;
  validation_result <-
    (if negb (port_truthy (port s)) then
       invalid silent "Please provide a port for the connection."
     else ret validation_result);;
  validation_result <-
    (if negb (truthy (username s)) then
       invalid silent "Please provide a username for the connection."
     else ret validation_result);;
  validation_result <-
    (if negb (truthy (remote_path s)) then
       invalid silent "Please provide a remote path. Root directory would be /."
     else ret validation_result);;
  validation_result <-
    (if mode_eqb (upload_mode self) NONE_MODE then
       invalid silent "Please specify what kind of data you provide."
     else ret validation_result);;
  (* If there is an Incoming connection, we need a field containing
     file/folder names *)
  validation_result <-
    (if negb (truthy (incoming_field self)) then
       invalid silent "Please select a field from the incoming data containing file names."
     else ret validation_result);;
  validation_result <-
    (if mode_eqb (upload_mode self) UPLOAD_BLOBS && negb (truthy (blob_field self)) then
       invalid silent "Please select a field containing the blob data."
     else ret validation_result);;
  (* Check if a file handling is selected *)
  validation_result <-
    (if mode_eqb (upload_mode self) UPLOAD_FILES
        && handling_eqb (file_handling self) NONE_HANDLING then
       invalid silent "Please decide what should happen with the files after upload."
     else ret validation_result);;
  validation_result <-
    (if mode_eqb (upload_mode self) UPLOAD_FILES
        && handling_eqb (file_handling self) MOVE_FILES
        && negb (truthy (move_path self)) then
       invalid silent
         "Please specify a path where the data should be moved to after upload."
     else ret validation_result);;
  (* Check if paths are existent *)
  validation_result <-
    (match key_filepath s with
     | Some kf =>
         if truthy_str kf then
           ex <- Os.path_exists kf;;
           if negb ex then
             invalid silent "The keyfile could not be found. Please check file path."
           else
             isf <- Os.path_isfile kf;;
             if negb isf then
               invalid silent
                 "The path for the keyfile is not a file. Please specify a filename."
             else ret validation_result
         else ret validation_result
     | None => ret validation_result
     end);;
  validation_result <-
    (match move_path self with
     | Some mp =>
         if mode_eqb (upload_mode self) UPLOAD_FILES
            && handling_eqb (file_handling self) MOVE_FILES
            && truthy_str mp then
           ex <- Os.path_exists mp;;
           if negb ex then
             invalid silent
               "The specified path for moving the files after upload does not exist. Please create the folder or enter a different path."
           else
             isd <- Os.path_isdir mp;;
             if negb isd then
               invalid silent
                 "The target path for moving the files is not a directory. Please enter a directory."
             else ret validation_result
         else ret validation_result
     | None => ret validation_result
     end);;
  ret validation_result.

(** [AyxPlugin._init_sftp] *)
Definition _init_sftp (self : AyxPlugin) : M (option Connection) :=
  let s := sftp_settings self in
  r <- Connect._init_sftp_connect (hostname s) (port s) (username s) (password s)
                                  (key_filepath s) (key_passphrase s);;
  match r with
  | None => ret None
  | Some sftp_conn =>
      (* Change working directory *)
      Sdk.output_message EMT_info ("Connected successfully to " +:+ fmt (hostname s));;
      try_except
        (Pysftp.chdir sftp_conn (remote_path s);;
         ret (Some sftp_conn))
        (fun e =>
           if is_IOError e then
             Some (Sdk.output_message EMT_error
                     ("Remote path does not exist: " +:+ fmt (remote_path s));;
                   ret None)
           else None)
  end.

(** [AyxPlugin.pi_push_all_records] *)
Definition pi_push_all_records (self : AyxPlugin) (n_record_limit : Z) : M bool :=
  ret false.

(** *** [IncomingInterface] of the upload engine *)

Inductive ConnSlot := slot_None | slot_False | slot_Conn (c : Connection).

Record IncomingInterface := mkII {
  record_info_in : option RecordInfo;
  in_field : option FieldSpec;
  ii_blob_field : option FieldSpec;
  sftp_conn : ConnSlot;
  file_counter : nat
}.

(** [IncomingInterface.__init__] *)
Definition II_new : IncomingInterface := mkII None None None slot_None 0.

Definition slot_of (r : option Connection) : ConnSlot :=
  match r with
  | Some c => slot_Conn c
  | None => slot_False
  end.

Definition is_string_type (t : FieldType) : bool :=
  match t with
  | ft_string | ft_wstring | ft_v_string | ft_v_wstring => true
  | _ => false
  end.

Definition is_blob_type (t : FieldType) : bool :=
  match t with ft_blob => true | _ => false end.

(** [IncomingInterface.ii_init] *)
Definition ii_init (self : IncomingInterface) (ayx_plugin : AyxPlugin)
           (record_info : RecordInfo) : M (bool * IncomingInterface) :=
  let self := mkII (Some record_info) (in_field self) (ii_blob_field self)
                   (sftp_conn self) (file_counter self) in
  if negb (truthy (incoming_field ayx_plugin)) then
    Sdk.output_message EMT_error "No incoming field selected.";;
    ret (false, self)
  else
    let name := fmt (incoming_field ayx_plugin) in
    let fld := get_field_by_name record_info name in
    let self := mkII (record_info_in self) fld (ii_blob_field self)
                     (sftp_conn self) (file_counter self) in
    match fld with
    | None =>
        Sdk.output_message EMT_error
          ("Field " +:+ dq +:+ name +:+ dq +:+ " was not found in the incoming data.");;
        ret (false, self)
    | Some f =>
        if negb (is_string_type (fd_type f)) then
          Sdk.output_message EMT_error
            ("Field " +:+ dq +:+ fd_name f +:+ dq
             +:+ " is not a string, so cannot contain a file name.");;
          ret (false, self)
        else
          (* Check if field type matches *)
          if mode_eqb (upload_mode ayx_plugin) UPLOAD_BLOBS then
            let bf := match blob_field ayx_plugin with
                      | Some b => get_field_by_name record_info b
                      | None => None
                      end in
            let self := mkII (record_info_in self) (in_field self) bf
                             (sftp_conn self) (file_counter self) in
            match bf with
            | None =>
                raise (mkExn AttributeError "'NoneType' object has no attribute 'type'")
            | Some b =>
                if negb (is_blob_type (fd_type b)) then
                  Sdk.output_message EMT_error
                    ("Field " +:+ dq +:+ fd_name f +:+ dq +:+ " does not contain blobs.");;
                  ret (false, self)
                else
                  ret (true, mkII (record_info_in self) (in_field self) bf
                                  (sftp_conn self) 0)
            end
          else
            ret (true, mkII (record_info_in self) (in_field self) (ii_blob_field self)
                            (sftp_conn self) 0)
    end.

Definition with_conn (self : IncomingInterface) (c : ConnSlot) : IncomingInterface :=
  mkII (record_info_in self) (in_field self) (ii_blob_field self) c (file_counter self).

Definition count_up (self : IncomingInterface) : IncomingInterface :=
  mkII (record_info_in self) (in_field self) (ii_blob_field self) (sftp_conn self)
       (S (file_counter self)).

(** The file-handling block of the [UPLOAD_FILES] branch: the policy
    applied to the local file. *)
Definition handle_uploaded (ayx_plugin : AyxPlugin) (cur_fpath cur_fname : string)
  : M unit :=
  match file_handling ayx_plugin with
  | DELETE_FILES =>
      (* Delete current file *)
      try_except
        (Os.remove cur_fpath)
        (fun e =>
           if is_Exception e then
             Some (Sdk.output_message EMT_error
                     ("Could not delete " +:+ dq +:+ cur_fpath +:+ dq
                      +:+ ": " +:+ exn_msg e))
           else None)
  | MOVE_FILES =>
      (* Move current file to target path *)
      match move_path ayx_plugin with
      | None => raise (mkExn TypeError "expected str, not NoneType")
      | Some mp =>
          new_fpath <- Os.path_join mp cur_fname;;
          try_except
            (Os.rename cur_fpath new_fpath)
            (fun e =>
               if is_Exception e then
                 Some (Sdk.output_message EMT_error
                         ("Could not move " +:+ dq +:+ cur_fpath +:+ dq
                          +:+ " to " +:+ dq +:+ new_fpath +:+ dq
                          +:+ ": " +:+ exn_msg e))
               else None)
      end
  | _ => ret tt
  end.

(** The [UPLOAD_FILES] branch of [ii_push_record]; [true] when the branch
    ends in [return True], [false] when it falls through to the counter. *)
Definition upload_file (ayx_plugin : AyxPlugin) (fld : FieldSpec) (conn : Connection)
           (in_record : InRecord) : M bool :=
  let rp := fmt (remote_path (sftp_settings ayx_plugin)) in
  let cur_fpath := get_as_string in_record (fd_name fld) in
  (* Check whether local file exists *)
  ex <- Os.path_exists cur_fpath;;
  if negb ex then
    Sdk.output_message EMT_error
      ("File " +:+ dq +:+ cur_fpath +:+ dq +:+ " does not exist.");;
    ret true
  else
    (* Check whether file is actually a file *)
    isf <- Os.path_isfile cur_fpath;;
    if negb isf then
      Sdk.output_message EMT_error
        ("File " +:+ dq +:+ cur_fpath +:+ dq
         +:+ " is actually a folder. Please provide a file name.");;
      ret true
    else
      parts <- Os.path_split cur_fpath;;
      let cur_fname := snd parts in
      (* Check whether remote file exists already *)
      ex <- Pysftp.exists_ conn (Some cur_fname);;
      if ex && negb (overwrite ayx_plugin) then
        Sdk.output_message EMT_warning
          ("File " +:+ dq +:+ rp +:+ cur_fname +:+ dq +:+ " already exists. Skipped.");;
        ret true
      else
        (* Upload file *)
        try_except_else
          (Pysftp.put conn cur_fpath)
          (fun e =>
             if is_IOError e then
               Some (Sdk.output_message EMT_error
                       ("File " +:+ dq +:+ cur_fname +:+ dq
                        +:+ " could not be uploaded: " +:+ exn_msg e))
             else None)
          (fun _ =>
             Sdk.output_message Status_info
               (cur_fname +:+ " successfully uploaded to " +:+ rp +:+ cur_fname));;
        handle_uploaded ayx_plugin cur_fpath cur_fname;;
        ret false.

(** The [UPLOAD_BLOBS] branch of [ii_push_record]. *)
Definition upload_blob (self : IncomingInterface) (ayx_plugin : AyxPlugin)
           (fld : FieldSpec) (conn : Connection) (in_record : InRecord) : M bool :=
  let rp := fmt (remote_path (sftp_settings ayx_plugin)) in
  let cur_fname := get_as_string in_record (fd_name fld) in
  (* Check whether file name is not empty *)
  if negb (truthy_str cur_fname) then
    Sdk.output_message EMT_error "No filename provided. Cannot upload.";;
    ret true
  else
    (* Check whether remote file already exists *)
    ex <- Pysftp.exists_ conn (Some cur_fname);;
    if ex && negb (overwrite ayx_plugin) then
      Sdk.output_message EMT_warning
        ("File " +:+ dq +:+ rp +:+ cur_fname +:+ dq +:+ " already exists. Skipped.");;
      ret true
    else
      cur_blob <- (match ii_blob_field self with
                   | Some b => ret (get_as_blob in_record (fd_name b))
                   | None =>
                       raise (mkExn AttributeError
                                    "'NoneType' object has no attribute 'get_as_blob'")
                   end);;
      try_except_else
        (Pysftp.putfo conn cur_blob cur_fname)
        (fun e =>
           if is_TypeError e || is_IOError e then
             Some (Sdk.output_message EMT_error
                     ("Error uploading " +:+ cur_fname +:+ ": " +:+ exn_msg e))
           else None)
        (fun _ =>
           Sdk.output_message Status_info
             (cur_fname +:+ " successfully uploaded to " +:+ rp +:+ cur_fname));;
      ret false.

(** The part of [ii_push_record] that follows the connection check. *)
Definition push_current (self : IncomingInterface) (ayx_plugin : AyxPlugin)
           (fld : FieldSpec) (conn : Connection) (in_record : InRecord)
  : M (bool * IncomingInterface) :=
  returned <- (match upload_mode ayx_plugin with
               | UPLOAD_FILES => upload_file ayx_plugin fld conn in_record
               | UPLOAD_BLOBS => upload_blob self ayx_plugin fld conn in_record
               | NONE_MODE => ret false
               end);;
  if returned then ret (true, self) else ret (true, count_up self).

(** [IncomingInterface.ii_push_record] *)
Definition ii_push_record (self : IncomingInterface) (ayx_plugin : AyxPlugin)
           (in_record : option InRecord) : M (bool * IncomingInterface) :=
  match in_record with
  | None => ret (false, self)
  | Some rec =>
      uo <- Sdk.get_init_var_UpdateOnly;;
      if String.eqb uo "True" then ret (false, self)
      else
        (* Validate settings *)
        valid <- validate_settings ayx_plugin false;;
        if negb valid then ret (false, self)
        else
          match in_field self with
          | None => ret (false, self)
          | Some fld =>
              (* If we do not yet have a connection, we need to connect *)
              match sftp_conn self with
              | slot_Conn conn => push_current self ayx_plugin fld conn rec
              | _ =>
                  r <- _init_sftp ayx_plugin;;
                  let self := with_conn self (slot_of r) in
                  match r with
                  | None => ret (false, self)
                  | Some conn => push_current self ayx_plugin fld conn rec
                  end
              end
          end
  end.

(** [IncomingInterface.ii_close] *)
Definition ii_close (self : IncomingInterface) : M IncomingInterface :=
  match sftp_conn self with
  | slot_Conn conn =>
      Pysftp.close conn;;
      ret (with_conn self slot_None)
  | _ => ret self
  end.

(** The engine's side of the incoming connection, as for the download
    engine. *)
Fixpoint feed (self : IncomingInterface) (ayx_plugin : AyxPlugin)
         (records : list InRecord) : M IncomingInterface :=
  match records with
  | [] => ret self
  | r :: rest =>
      out <- ii_push_record self ayx_plugin (Some r);;
      if fst out then feed (snd out) ayx_plugin rest else ret (snd out)
  end.

Definition run_streaming (ayx_plugin : AyxPlugin) (record_info : RecordInfo)
           (records : list InRecord) : M IncomingInterface :=
  out <- ii_init II_new ayx_plugin record_info;;
  self <- (if fst out then feed (snd out) ayx_plugin records else ret (snd out));;
  ii_close self.

End Upload.

(* ===================================================================== *)
(** ** Observing a run *)
(* ===================================================================== *)

Module Obs.

(** The world after a list of further events. *)
Definition add_events (w : World) (evs : list Event) : World :=
  fold_left add_event evs w.

(** Kinds of events. *)
Definition is_connect (e : Event) : bool :=
  match e with EvConnect _ _ => true | _ => false end.


Definition is_close (e : Event) : bool :=
  match e with EvSftp _ c_close _ => true | _ => false end.

Definition is_get (e : Event) : bool :=
  match e with EvSftp _ (c_get _ _) _ => true | _ => false end.

Definition is_put (e : Event) : bool :=
  match e with
  | EvSftp _ (c_put _) _ | EvSftp _ (c_putfo _ _) _ => true
  | _ => false
  end.

(** The remote source is removed or renamed. *)
Definition is_remote_handling (e : Event) : bool :=
  match e with
  | EvSftp _ (c_remove _) _ | EvSftp _ (c_rename _ _) _ => true
  | _ => false
  end.

(** A local file is deleted or moved. *)
Definition is_local_handling (e : Event) : bool :=
  match e with
  | EvOs (o_remove _) _ | EvOs (o_rename _ _) _ => true
  | _ => false
  end.

Definition is_isdir (e : Event) : bool :=
  match e with EvSftp _ (c_isdir _) _ => true | _ => false end.

Definition is_chdir (e : Event) : bool :=
  match e with EvSftp _ (c_chdir _) _ => true | _ => false end.

Definition is_push_record (e : Event) : bool :=
  match e with EvPushRecord _ => true | _ => false end.

Definition is_warning (e : Event) : bool :=
  match e with EvMessage EMT_warning _ => true | _ => false end.

Definition is_error (e : Event) : bool :=
  match e with EvMessage EMT_error _ => true | _ => false end.

Definition is_message (e : Event) : bool :=
  match e with EvMessage _ _ => true | _ => false end.

(** The entries of the known-hosts file. *)
Definition loaded (w : World) : HostKeys :=
  match hosts_file w with Some h => h | None => [] end.

(** What connecting to the unknown host [h] leaves behind, from world [w]
    to world [w'], when it yields the session [conn]: the warning before
    the attempt, the attempt itself, the warning after it, then no
    further warning; and the known-hosts file has one more entry, for
    [h] and the key the server presented. *)
Definition trusted_on_first_use (h : option string) (w : World)
           (conn : Connection) (w' : World) : Prop :=
  exists a tail,
    trace w' =
      trace w
      ++ EvMessage EMT_warning
           ("Unkown host " +:+ fmt h +:+ ". Any host key will be accepted.")
      :: EvConnect a Returned
      :: EvMessage EMT_warning
           "Connected to unknown host. Caching its hostkey to known_hosts."
      :: tail
    /\ length (filter is_warning tail) = 0
    /\ hosts_file w'
       = Some (loaded w ++ [mkHostKey h (key_name (remote_server_key conn))
                                        (key_data (remote_server_key conn))]).

Definition count (f : Event -> bool) (evs : list Event) : nat :=
  length (filter f evs).

(** [m] appends to the log, and at most [n] of the events it appends are
    of kind [f]. *)
Definition bounded {A} (f : Event -> bool) (n : nat) (m : M A) : Prop :=
  forall env w,
  exists evs, trace (snd (m env w)) = trace w ++ evs /\ count f evs <= n.

(** [m] appends to the log exactly [n] events of kind [f]. *)
Definition exactly {A} (f : Event -> bool) (n : nat) (m : M A) : Prop :=
  forall env w,
  exists evs, trace (snd (m env w)) = trace w ++ evs /\ count f evs = n.

(** [m] never raises. *)
Definition total {A} (m : M A) : Prop :=
  forall env w, exists a, fst (m env w) = Ok a.

(** Whenever [m] returns, it returns a value that satisfies [Q]. *)
Definition returns {A} (m : M A) (Q : A -> Prop) : Prop :=
  forall env w a w', m env w = (Ok a, w') -> Q a.


(** The session on which [ii_push_record] processes its record, and the
    world in which it starts doing so: the session in store, or else the
    one that [_init_sftp] returns. *)
Definition download_session (self : Download.IncomingInterface)
           (ayx_plugin : Download.AyxPlugin) (env : Env) (w1 : World)
           (conn : Connection) (w2 : World) : Prop :=
  (Download.sftp_conn self = Download.slot_Conn conn /\ w2 = w1)
  \/ ((forall c, Download.sftp_conn self <> Download.slot_Conn c)
      /\ Download._init_sftp ayx_plugin env w1 = (Ok (Some conn), w2)).

Definition upload_session (self : Upload.IncomingInterface)
           (ayx_plugin : Upload.AyxPlugin) (env : Env) (w1 : World)
           (conn : Connection) (w2 : World) : Prop :=
  (Upload.sftp_conn self = Upload.slot_Conn conn /\ w2 = w1)
  \/ ((forall c, Upload.sftp_conn self <> Upload.slot_Conn c)
      /\ Upload._init_sftp ayx_plugin env w1 = (Ok (Some conn), w2)).

(** The warning of the overwrite check. *)
Definition exists_warning (p : Upload.AyxPlugin) (name : string) : Event :=
  EvMessage EMT_warning
    ("File " +:+ dq +:+ fmt (Upload.remote_path (Upload.sftp_settings p)) +:+ name
     +:+ dq +:+ " already exists. Skipped.").

End Obs.
Export Obs.

(* ===================================================================== *)
(** ** Concrete runs *)
(* ===================================================================== *)

Module Scenario.

Definition server_key : ServerKey := mkServerKey "ssh-ed25519" "AAAAC3NzaC1lZDI1NTE5".

Definition hosts_path : string := "/home/ayx/.ssh/known_hosts".

(** A platform with [/] as separator; directories handed to
    [os.path.join] end with it. *)
Definition split_path (p : string) : string * string :=
  if String.eqb p "/data/out/x.csv" then ("/data/out", "x.csv")
  else if String.eqb p "/data/out/missing.csv" then ("/data/out", "missing.csv")
  else (EmptyString, p).

Definition dirname (p : string) : string :=
  if String.eqb p hosts_path then "/home/ayx/.ssh" else fst (split_path p).

Definition attrs (name : string) (size : Z) : SFTPAttributes :=
  mkAttrs name size 1000 1000 33188 1700000000 1700000000.

(** An environment in which nothing fails apart from what the arguments
    say. *)
Definition make_env (connect : Res ServerKey)
           (isdir : option string -> bool) (isfile : string -> bool)
           (exists_ : option string -> bool) (chdir : Res unit)
           (listing : list SFTPAttributes) (get : string -> GetResult)
           (put : Res unit) : Env :=
  {| os_path_join := fun a b => a +:+ b;
     os_path_split := split_path;
     os_path_dirname := dirname;
     known_hosts := hosts_path;
     utc_strftime := fun _ => "2023-11-14 22:13:20";
     st_mode_to_int := fun _ => 644%Z;
     os_fault := fun _ _ => None;
     UpdateOnly := "False";
     temp_file_name := fun t ext => "/tmp/engine_" +:+ str_of_nat t +:+ "." +:+ ext;
     srv_connect := fun _ _ => connect;
     srv_isdir := fun _ p => isdir p;
     srv_isfile := fun _ p => isfile p;
     srv_exists := fun _ p => exists_ p;
     srv_chdir := fun _ _ => chdir;
     srv_listdir_attr := fun _ => Ok listing;
     srv_stat := fun _ p => Ok (attrs p 100);
     srv_get := fun _ r _ => get r;
     srv_rename := fun _ _ _ => Ok tt;
     srv_remove := fun _ _ => Ok tt;
     srv_normalize := fun _ p => fmt p;
     srv_pwd := fun _ => "/inbox";
     srv_put := fun _ _ => put;
     srv_putfo := fun _ _ _ => put |}.

Definition payload : Bytes := [Byte.x68; Byte.x69].

Definition local_files (p : string) : option Node :=
  if String.eqb p "/data/in/" then Some Dir
  else if String.eqb p "/data/done/" then Some Dir
  else if String.eqb p "/data/out/x.csv" then Some (File payload)
  else if String.eqb p "/home/ayx/.ssh" then Some Dir
  else None.

Definition known_host : HostKeyEntry :=
  mkHostKey (Some "sftp.example.org") "ssh-ed25519" "AAAAC3NzaC1lZDI1NTE5".

(** The server is already in the known-hosts file. *)
Definition world : World := mkWorld [] local_files (Some [known_host]).

(** The known-hosts file lists another server only. *)
Definition world_unknown_host : World :=
  mkWorld [] local_files (Some [mkHostKey (Some "other.example.org") "ssh-rsa" "AAAAB3"]).

Definition io_error : Exn := mkExn IOError "Failure".

(** What [paramiko] raises from [chdir] on a path that is not a
    directory: an [SFTPError], which is not an [IOError]. *)
Definition not_a_directory : Exn := mkExn OtherException "[Errno 20] Not a directory".

Definition always {A} (b : bool) : A -> bool := fun _ => b.

Definition is_inbox (p : option string) : bool := eq_opt p (Some "/inbox/").

(** *** The download engine *)

Definition download_settings : Download.SftpSettings :=
  Download.mkSftpSettings (Some "sftp.example.org") (PortInt 22) (Some "ayx")
                          (Some "secret") None None (Some "/inbox/") None.

Definition download_plugin (mode : Download.ToolMode) (h : Download.FileHandling)
           (streaming : bool) : Download.AyxPlugin :=
  Download.mkPlugin
    download_settings mode
    (Download.mkOutputSettings
       (match mode with Download.DOWNLOAD_TO_PATH => Some "/data/in/" | _ => None end)
       "DownloadedData")
    h
    (if streaming then Some "Name" else None)
    streaming None.

Definition names_in : RecordInfo :=
  mkRecordInfo [mkField "Name" ft_v_wstring 256 EmptyString; mkField "Data" ft_blob 1000 EmptyString]
               "upstream".

Definition name_field : FieldSpec := mkField "Name" ft_v_wstring 256 EmptyString.

Definition record_of (name : string) : InRecord :=
  mkInRecord (fun _ => name) (fun _ => payload).

(** A healthy server with [a.txt] in [/inbox/]. *)
Definition env_ok : Env :=
  make_env (Ok server_key) (always true) (always true) (always true) (Ok tt)
           [attrs "a.txt" 100] (fun _ => GetOk payload) (Ok tt).

(** Every download fails half-way, leaving an empty local file. *)
Definition env_get_fails : Env :=
  make_env (Ok server_key) (always true) (always true) (always true) (Ok tt)
           [attrs "a.txt" 100] (fun _ => GetFail io_error (Some [])) (Ok tt).

(** The download of [a.bin] fails before its local file is created; the
    one of [b.bin] would succeed. *)
Definition env_first_get_fails : Env :=
  make_env (Ok server_key) (always true) (always true) (always true) (Ok tt)
           [attrs "a.bin" 100; attrs "b.bin" 2]
           (fun r => if String.eqb r "a.bin" then GetFail io_error None
                     else GetOk payload)
           (Ok tt).

(** The configured remote path is a regular file. *)
Definition env_path_is_file : Env :=
  make_env (Ok server_key) (fun p => negb (is_inbox p)) (always true) (always true)
           (Raised not_a_directory)
           [] (fun _ => GetOk payload) (Ok tt).

(** [sub] is a directory. *)
Definition env_directory : Env :=
  make_env (Ok server_key) (always true) (always false) (always true) (Ok tt)
           [attrs "sub" 4096] (fun _ => GetOk payload) (Ok tt).

(** The interface of the streaming mode after [ii_init]. *)
Definition download_ii (mode : Download.ToolMode) (h : Download.FileHandling)
  : Download.IncomingInterface :=
  match fst (Download.ii_init Download.II_new (download_plugin mode h true) names_in
                              env_ok world) with
  | Ok (_, self, _) => self
  | Raised _ => Download.II_new
  end.

(** The session that the first connection of a run yields. *)
Definition session (t : nat) : Connection := mkConnection t server_key.

(** The same interface with a session in store. *)
Definition download_ii_connected (mode : Download.ToolMode) (h : Download.FileHandling)
  : Download.IncomingInterface :=
  Download.with_conn (download_ii mode h) (Download.slot_Conn (session 0)).

(** What [build_ayx_output] yields in blob mode. *)
Definition blob_fields : list FieldSpec :=
  Download.download_fields
  ++ [mkField "DownloadedData" ft_blob 123456789 "File Contents as Blob"].

Definition blob_record_info : RecordInfo :=
  mkRecordInfo blob_fields "SFTP Downloader: sftp.example.org".


(** *** The upload engine *)

Definition upload_settings : Upload.SftpSettings :=
  Upload.mkSftpSettings (Some "sftp.example.org") (PortInt 22) (Some "ayx")
                        (Some "secret") None None (Some "/inbox/").

Definition upload_plugin (mode : Upload.UploadMode) (h : Upload.FileHandling)
  : Upload.AyxPlugin :=
  Upload.mkPlugin upload_settings mode h (Some "/data/done/") (Some "Name")
                  (Some "Data") false.

Definition upload_ii : Upload.IncomingInterface :=
  Upload.mkII (Some names_in) (Some name_field)
              (Some (mkField "Data" ft_blob 1000 EmptyString)) Upload.slot_None 0.


(** Every upload fails. *)
Definition env_put_fails : Env :=
  make_env (Ok server_key) (always true) (always true) (always false) (Ok tt)
           [] (fun _ => GetOk payload) (Raised io_error).

(** *** A configuration *)

Definition sample_config : Et.Element :=
  Et.Elem "Configuration" None
          [Et.Elem "Hostname" (Some "  sftp.example.org ") [];
           Et.Elem "Port" (Some "22") [];
           Et.Elem "Username" (Some "   ") [];
           Et.Elem "Password" None []].

End Scenario.

(* ===================================================================== *)
(** ** The checks of [validate_settings], one after the other *)
(* ===================================================================== *)

Module Validity.

(** A character that a hostname may hold. *)
Definition hostname_char (c : ascii) : bool :=
  Hostname.is_alnum c || Hostname.is_hyphen c || Hostname.is_dot c.

Definition newline : ascii := ascii_of_nat 10.

(** The message of a check that fails. *)
Definition failing (c : bool) (text : string) : list string :=
  if c then [text] else [].

(** A path that has to exist and to be of the right kind. *)
Definition path_check (fs : string -> option Node) (p : string)
           (kind : option Node -> bool) (missing wrong_kind : string) : list string :=
  if negb (Os.is_some (fs p)) then [missing]
  else if negb (kind (fs p)) then [wrong_kind]
  else [].

Definition hostname_check (h : option string) : list string :=
  if negb (truthy h) then ["Please enter a hostname."]
  else if negb (match h with Some x => Hostname.re_match x | None => false end) then
    ["Please enter a valid hostname without protocol, user or port."]
  else [].

Definition keyfile_check (fs : string -> option Node) (k : option string) : list string :=
  match k with
  | Some kf =>
      if truthy_str kf then
        path_check fs kf Os.is_file
                   "The keyfile could not be found. Please check file path."
                   "The path for the keyfile is not a file. Please specify a filename."
      else []
  | None => []
  end.

(** The texts that the download engine's [validate_settings] has to
    report for the settings [self] on the local file system [fs], in the
    order of its checks. *)
Definition download_failures (self : Download.AyxPlugin) (fs : string -> option Node)
  : list string :=
  let s := Download.sftp_settings self in
  let mode := Download.tool_mode self in
  let handling := Download.file_handling self in
  let lp := Download.local_path (Download.output_settings self) in
  hostname_check (Download.hostname s)
  ++ failing (negb (port_truthy (Download.port s)))
             "Please provide a port for the connection."
  ++ failing (negb (truthy (Download.username s)))
             "Please provide a username for the connection."
  ++ failing (negb (truthy (Download.remote_path s)))
             "Please provide a remote path. Root directory would be /."
  ++ failing (Download.mode_eqb mode Download.NONE_MODE)
             "Please select a mode for the tool."
  ++ failing (Download.mode_eqb mode Download.DOWNLOAD_TO_PATH && negb (truthy lp))
             "Please enter a path to store downloaded files."
  ++ failing (negb (Download.mode_eqb mode Download.LIST_FILES)
              && Download.handling_eqb handling Download.NONE_HANDLING)
             "Please decide what should happen with the files after download."
  ++ failing (negb (Download.mode_eqb mode Download.LIST_FILES)
              && Download.handling_eqb handling Download.MOVE_FILES
              && negb (truthy (Download.move_path s)))
             "Please specify a path where the data should be moved to."
  ++ keyfile_check fs (Download.key_filepath s)
  ++ match lp with
     | Some p =>
         if Download.mode_eqb mode Download.DOWNLOAD_TO_PATH && truthy_str p then
           path_check fs p Os.is_dir
                      "The specified path for the output does not exist. Please create the folder or enter a different path."
                      "The output path is not a directory. Please enter a directory."
         else []
     | None => []
     end
  ++ failing (Download.input_optional self && negb (truthy (Download.incoming_field self)))
             "Please select a field from the incoming data containing file/folder names.".

(** The same for the upload engine. *)
Definition upload_failures (self : Upload.AyxPlugin) (fs : string -> option Node)
  : list string :=
  let s := Upload.sftp_settings self in
  let mode := Upload.upload_mode self in
  let handling := Upload.file_handling self in
  hostname_check (Upload.hostname s)
  ++ failing (negb (port_truthy (Upload.port s)))
             "Please provide a port for the connection."
  ++ failing (negb (truthy (Upload.username s)))
             "Please provide a username for the connection."
  ++ failing (negb (truthy (Upload.remote_path s)))
             "Please provide a remote path. Root directory would be /."
  ++ failing (Upload.mode_eqb mode Upload.NONE_MODE)
             "Please specify what kind of data you provide."
  ++ failing (negb (truthy (Upload.incoming_field self)))
             "Please select a field from the incoming data containing file names."
  ++ failing (Upload.mode_eqb mode Upload.UPLOAD_BLOBS
              && negb (truthy (Upload.blob_field self)))
             "Please select a field containing the blob data."
  ++ failing (Upload.mode_eqb mode Upload.UPLOAD_FILES
              && Upload.handling_eqb handling Upload.NONE_HANDLING)
             "Please decide what should happen with the files after upload."
  ++ failing (Upload.mode_eqb mode Upload.UPLOAD_FILES
              && Upload.handling_eqb handling Upload.MOVE_FILES
              && negb (truthy (Upload.move_path self)))
             "Please specify a path where the data should be moved to after upload."
  ++ keyfile_check fs (Upload.key_filepath s)
  ++ match Upload.move_path self with
     | Some p =>
         if Upload.mode_eqb mode Upload.UPLOAD_FILES
            && Upload.handling_eqb handling Upload.MOVE_FILES
            && truthy_str p then
           path_check fs p Os.is_dir
                      "The specified path for moving the files after upload does not exist. Please create the folder or enter a different path."
                      "The target path for moving the files is not a directory. Please enter a directory."
         else []
     | None => []
     end.

Definition is_nil {A} (l : list A) : bool :=
  match l with [] => true | _ => false end.

(** The world after the texts have been reported, or not. *)
Definition reported (silent : bool) (w : World) (texts : list string) : World :=
  if silent then w else add_events w (map (EvMessage EMT_error) texts).

(** [m] carries on a validation whose result so far is [vr]: it reports
    the texts [f] (of the local file system) and answers [False] if any,
    [vr] otherwise. *)
Definition checks (silent : bool) (vr : bool) (f : (string -> option Node) -> list string)
           (m : M bool) : Prop :=
  forall env w,
    m env w = (Ok (vr && is_nil (f (files w))), reported silent w (f (files w))).

End Validity.

(* ===================================================================== *)
(** ** What a run that returns has logged *)
(* ===================================================================== *)

Module Post.

(** Whenever [m] returns [a], the events it has appended to the log
    satisfy [Q a]. *)
Definition post {A} (m : M A) (Q : A -> list Event -> Prop) : Prop :=
  forall env w a w',
    m env w = (Ok a, w') -> exists evs, trace w' = trace w ++ evs /\ Q a evs.

(** Counting from [c]: whenever [m] returns [a], [c] plus the number of
    events of kind [f] it has appended is [N a]. *)
Definition tallies {A} (f : Event -> bool) (c : nat) (m : M A) (N : A -> nat) : Prop :=
  post m (fun a evs => c + count f evs = N a).

(** Whatever [m] raises satisfies [P]. *)
Definition raises_only {A} (m : M A) (P : Exn -> Prop) : Prop :=
  forall env w e w', m env w = (Raised e, w') -> P e.

(** Not an [IOError] (nor an [OSError]). *)
Definition not_io (e : Exn) : Prop := is_IOError e = false.

(** From [w] to [w'], the log has grown and now ends with an error
    message. *)
Definition reported_last (w w' : World) : Prop :=
  exists evs text, trace w' = trace w ++ evs ++ [EvMessage EMT_error text].

(** The number of records a static run has to push for [file_list]: one
    per entry when listing, one per regular file otherwise. *)
Definition expected_records (self : Download.AyxPlugin)
           (file_list : list Download.FileEntry) : nat :=
  match Download.tool_mode self with
  | Download.LIST_FILES => length file_list
  | _ => Download.count_files file_list
  end.

(** The text of the closing status message for the count [n]. *)
Definition download_summary (self : Download.AyxPlugin) (n : nat) : string :=
  let s := Download.sftp_settings self in
  match Download.tool_mode self with
  | Download.LIST_FILES =>
      str_of_nat n +:+ " items in found in directory "
      +:+ fmt (Download.hostname s) +:+ fmt (Download.remote_path s)
  | _ =>
      str_of_nat n +:+ " files downloaded from "
      +:+ fmt (Download.hostname s) +:+ fmt (Download.remote_path s)
  end.

End Post.

(* ===================================================================== *)
(** ** Reading the configuration: [pi_init] *)
(* ===================================================================== *)

Module Builtins.

Definition digit_value (c : ascii) : option Z :=
  let n := nat_of_ascii c in
  if (48 <=? n) && (n <=? 57) then Some (Z.of_nat (n - 48)) else None.

Definition is_underscore (c : ascii) : bool := nat_of_ascii c =? 95.

(** The digits that follow a digit of a decimal literal: digits, and
    single underscores between two digits. *)
Fixpoint int_digits (acc : Z) (s : string) : option Z :=
  match s with
  | EmptyString => Some acc
  | String c r =>
      match digit_value c with
      | Some d => int_digits (10 * acc + d) r
      | None =>
          if is_underscore c then
            match r with
            | String c' _ =>
                match digit_value c' with
                | Some _ => int_digits acc r
                | None => None
                end
            | EmptyString => None
            end
          else None
      end
  end.

Definition int_body (s : string) : option Z :=
  match s with
  | String c r =>
      match digit_value c with
      | Some d => int_digits d r
      | None => None
      end
  | EmptyString => None
  end.

(** [int(x)] for [x : str | None], base ten: surrounding whitespace is
    dropped, one sign is allowed, then comes a decimal literal; [None]
    raises [TypeError], any other text [ValueError], which is an
    [Exception] outside the classes the engines name.  (No limit on the
    number of digits is modelled.) *)
Definition int_ (x : option string) : Res Z :=
  match x with
  | None =>
      Raised (mkExn TypeError
                    "int() argument must be a string, a bytes-like object or a number, not 'NoneType'")
  | Some s =>
      let t := strip s in
      let parsed :=
        match t with
        | String c r =>
            if nat_of_ascii c =? 45 then option_map Z.opp (int_body r)
            else if nat_of_ascii c =? 43 then int_body r
            else int_body t
        | EmptyString => None
        end in
      match parsed with
      | Some z => Ok z
      | None =>
          Raised (mkExn OtherException
                        ("invalid literal for int() with base 10: '" +:+ s +:+ "'"))
      end
  end.

(** [s[len(s)-1] != '/'] for a non-empty [s]. *)
Fixpoint ends_with_slash (s : string) : bool :=
  match s with
  | EmptyString => false
  | String c EmptyString => nat_of_ascii c =? 47
  | String _ r => ends_with_slash r
  end.

(** The trailing slash that [pi_init] adds to a non-empty remote path. *)
Definition with_trailing_slash (rp : option string) : option string :=
  match rp with
  | Some p =>
      if truthy_str p then
        if negb (ends_with_slash p) then Some (p +:+ "/") else Some p
      else Some p
  | None => None
  end.

(** [os.path.join(a, b)] raises [TypeError] when [a] is [None]. *)
Definition path_join_opt (a : option string) (b : string) : M string :=
  match a with
  | Some p => Os.path_join p b
  | None =>
      raise (mkExn TypeError "expected str, bytes or os.PathLike object, not NoneType")
  end.

(** [self._prep_xmltext(xml, key)] inside a method. *)
Definition setting (xml : Et.Element) (key : string) : M (option string) :=
  lift (Et._prep_xmltext xml key).

End Builtins.

Module DownloadConfig.
Import Download Builtins.

(** [AyxPlugin.__init__]: the settings before [pi_init]. *)
Definition AyxPlugin_new : AyxPlugin :=
  mkPlugin (mkSftpSettings None (PortStr "22") None None None None (Some "/") None)
           NONE_MODE
           (mkOutputSettings None "DownloadedData")
           NONE_HANDLING None false None.

(** [{'list': .., 'download_file': .., 'download_blob': ..}.get(t, NONE_MODE)] *)
Definition tool_mode_of (t : option string) : ToolMode :=
  match t with
  | Some s =>
      if String.eqb s "list" then LIST_FILES
      else if String.eqb s "download_file" then DOWNLOAD_TO_PATH
      else if String.eqb s "download_blob" then DOWNLOAD_TO_BLOB
      else NONE_MODE
  | None => NONE_MODE
  end.

Definition file_handling_of (t : option string) : FileHandling :=
  match t with
  | Some s =>
      if String.eqb s "keep_files" then KEEP_FILES
      else if String.eqb s "delete_files" then DELETE_FILES
      else if String.eqb s "move_files" then MOVE_FILES
      else NONE_HANDLING
  | None => NONE_HANDLING
  end.

(** [AyxPlugin.pi_init], on the parsed configuration ([xml] is what
    [Et.fromstring] yields); the plugin is returned as the method leaves
    it.  When the method raises, the model keeps the exception only, not
    the settings assigned up to that point.  The last statement of the
    method fetches the output anchor, which logs nothing. *)
Definition pi_init (self : AyxPlugin) (xml : Et.Element) : M AyxPlugin :=
  (* SFTP Settings *)
  hostname <- setting xml "Hostname";;
  port_text <- setting xml "Port";;
  port <- lift (int_ port_text);;
  username <- setting xml "Username";;
  password <- setting xml "Password";;
  key_filepath <- setting xml "KeyfilePath";;
  key_passphrase <- (if truthy key_filepath then setting xml "KeyfilePassphrase"
                     else ret None);;
  remote_path <- setting xml "RemotePath";;
  (* Add trailing slash *)
  let remote_path := with_trailing_slash remote_path in
  move_path <- setting xml "MovePath";;
  (* Tool Mode *)
  mode_text <- setting xml "ToolMode";;
  let tool_mode := tool_mode_of mode_text in
  (* File Handling *)
  handling_text <- setting xml "FileHandling";;
  let file_handling := file_handling_of handling_text in
  (* Output Settings *)
  local_path <- (if mode_eqb tool_mode DOWNLOAD_TO_PATH then
                   lp <- setting xml "LocalPath";;
                   joined <- path_join_opt lp EmptyString;;
                   ret (Some joined)
                 else ret None);;
  (* Incoming Settings *)
  incoming_field <- setting xml "IncomingField";;
  let self :=
    mkPlugin (mkSftpSettings hostname (PortInt port) username password key_filepath
                             key_passphrase remote_path move_path)
             tool_mode
             (mkOutputSettings local_path (blobfield (output_settings self)))
             file_handling incoming_field (input_optional self)
             (output_recordinfo self) in
  (* Validate settings *)
  validate_settings self false;;
  ret self.

(** [AyxPlugin.pi_add_incoming_connection]: the plugin with its new
    interface attached, and the interface. *)
Definition pi_add_incoming_connection (self : AyxPlugin)
  : AyxPlugin * IncomingInterface :=
  (mkPlugin (sftp_settings self) (tool_mode self) (output_settings self)
            (file_handling self) (incoming_field self) true (output_recordinfo self),
   II_new).

(** [AyxPlugin.pi_add_outgoing_connection] *)
Definition pi_add_outgoing_connection (self : AyxPlugin) (str_name : string) : bool :=
  true.

End DownloadConfig.

Module UploadConfig.
Import Upload Builtins.

(** [AyxPlugin.__init__] *)
Definition AyxPlugin_new : AyxPlugin :=
  mkPlugin (mkSftpSettings None (PortStr "22") None None None None (Some "/"))
           NONE_MODE NONE_HANDLING None None None false.

Definition upload_mode_of (t : option string) : UploadMode :=
  match t with
  | Some s =>
      if String.eqb s "upload_files" then UPLOAD_FILES
      else if String.eqb s "upload_blobs" then UPLOAD_BLOBS
      else NONE_MODE
  | None => NONE_MODE
  end.

Definition file_handling_of (t : option string) : FileHandling :=
  match t with
  | Some s =>
      if String.eqb s "keep_files" then KEEP_FILES
      else if String.eqb s "delete_files" then DELETE_FILES
      else if String.eqb s "move_files" then MOVE_FILES
      else NONE_HANDLING
  | None => NONE_HANDLING
  end.

(** [AyxPlugin.pi_init], on the parsed configuration; as for the
    download engine, an exception is kept without the settings assigned
    before it. *)
Definition pi_init (self : AyxPlugin) (xml : Et.Element) : M AyxPlugin :=
  (* SFTP Settings *)
  hostname <- setting xml "Hostname";;
  port_text <- setting xml "Port";;
  port <- lift (int_ port_text);;
  username <- setting xml "Username";;
  password <- setting xml "Password";;
  key_filepath <- setting xml "KeyfilePath";;
  key_passphrase <- (if truthy key_filepath then setting xml "KeyfilePassphrase"
                     else ret None);;
  remote_path <- setting xml "RemotePath";;
  (* Add trailing slash *)
  let remote_path := with_trailing_slash remote_path in
  (* Tool Mode *)
  mode_text <- setting xml "UploadMode";;
  let upload_mode := upload_mode_of mode_text in
  (* File Handling *)
  handling_text <- setting xml "FileHandling";;
  let file_handling := file_handling_of handling_text in
  move_path <- setting xml "MovePath";;
  (* Trailing slash *)
  move_path <- (match move_path with
                | Some mp =>
                    if truthy_str mp then
                      joined <- Os.path_join mp EmptyString;;
                      ret (Some joined)
                    else ret (Some mp)
                | None => ret None
                end);;
  overwrite_text <- setting xml "Overwrite";;
  let overwrite := eq_opt overwrite_text (Some "True") in
  (* Incoming Settings *)
  incoming_field <- setting xml "IncomingField";;
  blob_field <- setting xml "BlobField";;
  let self :=
    mkPlugin (mkSftpSettings hostname (PortInt port) username password key_filepath
                             key_passphrase remote_path)
             upload_mode file_handling move_path incoming_field blob_field overwrite in
  (* Validate settings *)
  validate_settings self false;;
  ret self.

(** [AyxPlugin.pi_add_outgoing_connection] *)
Definition pi_add_outgoing_connection (self : AyxPlugin) (str_name : string) : bool :=
  true.

End UploadConfig.

(* ===================================================================== *)
(** ** Further concrete runs *)
(* ===================================================================== *)

Module MoreScenarios.
Import Scenario.

(** The engine asks for metadata only. *)
Definition env_update_only : Env :=
  mkEnv (os_path_join env_ok) (os_path_split env_ok) (os_path_dirname env_ok)
        (known_hosts env_ok) (utc_strftime env_ok) (st_mode_to_int env_ok)
        (os_fault env_ok) "True" (temp_file_name env_ok)
        (srv_connect env_ok) (srv_isdir env_ok) (srv_isfile env_ok) (srv_exists env_ok)
        (srv_chdir env_ok) (srv_listdir_attr env_ok) (srv_stat env_ok) (srv_get env_ok)
        (srv_rename env_ok) (srv_remove env_ok) (srv_normalize env_ok) (srv_pwd env_ok)
        (srv_put env_ok) (srv_putfo env_ok).

(** Settings without a tool mode. *)
Definition unconfigured_download : Download.AyxPlugin :=
  download_plugin Download.NONE_MODE Download.KEEP_FILES true.

Definition unconfigured_upload : Upload.AyxPlugin :=
  upload_plugin Upload.NONE_MODE Upload.KEEP_FILES.

(** What a run returned, [d] if it raised. *)
Definition value_of {A} (d : A) (r : Res A * World) : A :=
  match fst r with
  | Ok a => a
  | Raised _ => d
  end.

(** What a run raised. *)
Definition raised_by {A} (r : Res A * World) : Exn :=
  match fst r with
  | Ok _ => mkExn NonException EmptyString
  | Raised e => e
  end.

(** A streaming and a static download of blobs from the healthy server. *)
Definition streaming_run : Res Download.IncomingInterface * World :=
  Download.run_streaming
    (download_plugin Download.DOWNLOAD_TO_BLOB Download.KEEP_FILES true)
    names_in [record_of "a.txt"] env_ok world.

Definition static_run : Res (bool * Download.AyxPlugin) * World :=
  Download.pi_push_all_records
    (download_plugin Download.DOWNLOAD_TO_BLOB Download.KEEP_FILES false) 0
    env_ok world.

(** Configurations. *)
Definition config_without_port : Et.Element :=
  Et.Elem "Configuration" None
          [Et.Elem "Hostname" (Some "sftp.example.org") [];
           Et.Elem "Port" (Some "  ") [];
           Et.Elem "Username" (Some "ayx") []].

Definition config_without_local_path : Et.Element :=
  Et.Elem "Configuration" None
          [Et.Elem "Hostname" (Some "sftp.example.org") [];
           Et.Elem "Port" (Some "22") [];
           Et.Elem "Username" (Some "ayx") [];
           Et.Elem "RemotePath" (Some "/inbox") [];
           Et.Elem "ToolMode" (Some "download_file") [];
           Et.Elem "FileHandling" (Some "keep_files") []].

Definition download_init_run : Res Download.AyxPlugin * World :=
  DownloadConfig.pi_init DownloadConfig.AyxPlugin_new sample_config env_ok world.

Definition upload_init_run : Res Upload.AyxPlugin * World :=
  UploadConfig.pi_init UploadConfig.AyxPlugin_new sample_config env_ok world.



(** A healthy server on which no name is taken. *)
Definition env_fresh_server : Env :=
  make_env (Ok server_key) (always true) (always true) (always false) (Ok tt)
           [] (fun _ => GetOk payload) (Ok tt).


(** Nobody listens on the port. *)
Definition env_refused : Env :=
  make_env (Raised (mkExn ConnectionException "Unable to connect"))
           (always true) (always true) (always true) (Ok tt)
           [] (fun _ => GetOk payload) (Ok tt).

Definition download_setup (env : Env) : Res (option Connection) * World :=
  Download._init_sftp
    (download_plugin Download.DOWNLOAD_TO_BLOB Download.KEEP_FILES false) env world.

Definition upload_setup (env : Env) : Res (option Connection) * World :=
  Upload._init_sftp (upload_plugin Upload.UPLOAD_FILES Upload.KEEP_FILES) env world.


(** An upload to a remote path that is a regular file. *)
Definition upload_to_file_path : Res Upload.IncomingInterface * World :=
  Upload.run_streaming (upload_plugin Upload.UPLOAD_FILES Upload.KEEP_FILES)
                       names_in [record_of "/data/out/x.csv"] env_path_is_file world.

End MoreScenarios.

(* ===================================================================== *)
(** ** Rules for [bounded], [returns] and [keeps_files] *)
(* ===================================================================== *)

Module Rules.

Lemma count_app f a b : count f (a ++ b) = count f a + count f b.
Proof. unfold count. now rewrite filter_app, length_app. Qed.

Lemma trace_add_events w evs : trace (add_events w evs) = trace w ++ evs.
Proof.
  revert w. induction evs as [|e evs IH]; intros w; simpl.
  - now rewrite app_nil_r.
  - rewrite IH. simpl. now rewrite <- app_assoc.
Qed.

(** Running a sequence: the equation of [bind]. *)
Lemma run_bind {A B} (m : M A) (k : A -> M B) env w :
  bind m k env w
  = match m env w with
    | (Ok a, w') => k a env w'
    | (Raised e, w') => (Raised e, w')
    end.
Proof. reflexivity. Qed.

Lemma run_try {A B} (m : M A) (h : Exn -> option (M B)) (els : A -> M B) env w :
  try_except_else m h els env w
  = match m env w with
    | (Ok a, w') => els a env w'
    | (Raised e, w') =>
        match h e with
        | Some k => k env w'
        | None => (Raised e, w')
        end
    end.
Proof. reflexivity. Qed.

Section Bounded.
Context {A B : Type} (f : Event -> bool).

Lemma bounded_weaken n n' (m : M A) :
  n <= n' -> bounded f n m -> bounded f n' m.
Proof.
  intros L H env w. destruct (H env w) as [evs [E C]].
  exists evs. split; [exact E|lia].
Qed.

Lemma bounded_same n (m : M A) :
  (forall env w, snd (m env w) = w) -> bounded f n m.
Proof.
  intros H env w. exists []. rewrite H, app_nil_r. split; [reflexivity|].
  unfold count. simpl. lia.
Qed.

Lemma bounded_ret n (a : A) : bounded f n (ret a).
Proof. now apply bounded_same. Qed.

Lemma bounded_raise n e : bounded f n (@raise A e).
Proof. now apply bounded_same. Qed.

Lemma bounded_lift n (r : Res A) : bounded f n (lift r).
Proof. now apply bounded_same. Qed.

Lemma bounded_ask n (g : Env -> A) : bounded f n (ask g).
Proof. now apply bounded_same. Qed.

Lemma bounded_peek n (g : World -> A) : bounded f n (peek g).
Proof. now apply bounded_same. Qed.

Lemma bounded_bind n1 n2 (m : M A) (k : A -> M B) :
  bounded f n1 m -> (forall a, bounded f n2 (k a)) ->
  bounded f (n1 + n2) (bind m k).
Proof.
  intros Hm Hk env w. unfold bind.
  destruct (Hm env w) as [e1 [E1 C1]].
  destruct (m env w) as [[a|e] w1]; simpl in *.
  - destruct (Hk a env w1) as [e2 [E2 C2]].
    exists (e1 ++ e2). rewrite E2, E1, app_assoc, count_app.
    split; [reflexivity|lia].
  - exists e1. split; [exact E1|lia].
Qed.

(** The continuation only has to be bounded on the values that [m] can
    return. *)
Lemma bounded_bind_returns (Q : A -> Prop) n1 n2 (m : M A) (k : A -> M B) :
  bounded f n1 m -> returns m Q -> (forall a, Q a -> bounded f n2 (k a)) ->
  bounded f (n1 + n2) (bind m k).
Proof.
  intros Hm HQ Hk env w. unfold bind.
  destruct (Hm env w) as [e1 [E1 C1]].
  destruct (m env w) as [[a|e] w1] eqn:R; simpl in *.
  - destruct (Hk a (HQ env w a w1 R) env w1) as [e2 [E2 C2]].
    exists (e1 ++ e2). rewrite E2, E1, app_assoc, count_app.
    split; [reflexivity|lia].
  - exists e1. split; [exact E1|lia].
Qed.

Lemma bounded_try n1 n2 (m : M A) (h : Exn -> option (M B)) (els : A -> M B) :
  bounded f n1 m ->
  (forall e, match h e with Some k => bounded f n2 k | None => True end) ->
  (forall a, bounded f n2 (els a)) ->
  bounded f (n1 + n2) (try_except_else m h els).
Proof.
  intros Hm Hh He env w. unfold try_except_else.
  destruct (Hm env w) as [e1 [E1 C1]].
  destruct (m env w) as [[a|e] w1]; simpl in *.
  - destruct (He a env w1) as [e2 [E2 C2]].
    exists (e1 ++ e2). rewrite E2, E1, app_assoc, count_app.
    split; [reflexivity|lia].
  - specialize (Hh e). destruct (h e) as [k|].
    + destruct (Hh env w1) as [e2 [E2 C2]].
      exists (e1 ++ e2). rewrite E2, E1, app_assoc, count_app.
      split; [reflexivity|lia].
    + exists e1. split; [exact E1|lia].
Qed.

(** A call that logs exactly one event, whatever it answers. *)
Lemma bounded_one n (m : M A) (P : Event -> Prop) :
  (forall env w, exists e, trace (snd (m env w)) = trace w ++ [e] /\ P e) ->
  (forall e, P e -> f e = false) ->
  bounded f n m.
Proof.
  intros H Hf env w. destruct (H env w) as [e [E Pe]].
  exists [e]. split; [exact E|].
  unfold count. simpl. rewrite (Hf e Pe). simpl. lia.
Qed.

Lemma bounded_one_any (m : M A) :
  (forall env w, exists e, trace (snd (m env w)) = trace w ++ [e]) ->
  bounded f 1 m.
Proof.
  intros H env w. destruct (H env w) as [e E].
  exists [e]. split; [exact E|].
  unfold count. simpl. destruct (f e); simpl; lia.
Qed.
End Bounded.

Section Quiet.
Context {A B : Type} (f : Event -> bool).

Lemma quiet_bind (m : M A) (k : A -> M B) :
  bounded f 0 m -> (forall a, bounded f 0 (k a)) -> bounded f 0 (bind m k).
Proof. intros. now apply (bounded_bind f 0 0). Qed.

Lemma quiet_try (m : M A) (h : Exn -> option (M B)) (els : A -> M B) :
  bounded f 0 m ->
  (forall e, match h e with Some k => bounded f 0 k | None => True end) ->
  (forall a, bounded f 0 (els a)) ->
  bounded f 0 (try_except_else m h els).
Proof. intros. now apply (bounded_try f 0 0). Qed.

Lemma quiet_notify ev : f ev = false -> bounded f 0 (Call.notify ev).
Proof.
  intros H. apply bounded_one with (P := fun e => e = ev).
  - intros env w. exists ev. now split.
  - now intros e ->.
Qed.

Lemma quiet_total (ans : Env -> nat -> A) ev :
  f ev = false -> bounded f 0 (Call.total ans ev).
Proof.
  intros H. apply bounded_one with (P := fun e => e = ev).
  - intros env w. exists ev. now split.
  - now intros e ->.
Qed.

Lemma quiet_fallible (ans : Env -> nat -> Res A) ev :
  (forall o, f (ev o) = false) -> bounded f 0 (Call.fallible ans ev).
Proof.
  intros H. apply bounded_one with (P := fun e => exists o, e = ev o).
  - intros env w. unfold Call.fallible.
    destruct (ans env (clock w)); simpl; eexists; split; eauto.
  - now intros e [o ->].
Qed.
End Quiet.

(** The calls with a definition of their own. *)
Section Calls.
Context (f : Event -> bool).

Lemma quiet_temp_name ext :
  (forall n, f (EvTempFileName n) = false) ->
  bounded f 0 (Sdk.create_temp_file_name ext).
Proof.
  intros H. apply bounded_one with (P := fun e => exists n, e = EvTempFileName n).
  - intros env w. simpl. eexists; split; eauto.
  - now intros e [o ->].
Qed.

Lemma quiet_os (m : M unit) call :
  (forall env w, exists o, trace (snd (m env w)) = trace w ++ [EvOs call o]) ->
  (forall o, f (EvOs call o) = false) -> bounded f 0 m.
Proof.
  intros Hm H. apply bounded_one with (P := fun e => exists o, e = EvOs call o).
  - intros env w. destruct (Hm env w) as [o E]. eauto.
  - now intros e [o ->].
Qed.

Lemma quiet_mkdir p :
  (forall o, f (EvOs (o_mkdir p) o) = false) -> bounded f 0 (Os.mkdir p).
Proof.
  apply quiet_os. intros env w. unfold Os.mkdir.
  destruct (os_fault env (clock w) (o_mkdir p)); [|destruct (files w p)];
    simpl; eauto.
Qed.

Lemma quiet_os_remove p :
  (forall o, f (EvOs (o_remove p) o) = false) -> bounded f 0 (Os.remove p).
Proof.
  apply quiet_os. intros env w. unfold Os.remove.
  destruct (os_fault env (clock w) (o_remove p)); [|destruct (files w p) as [[]|]];
    simpl; eauto.
Qed.

Lemma quiet_os_rename a b :
  (forall o, f (EvOs (o_rename a b) o) = false) -> bounded f 0 (Os.rename a b).
Proof.
  apply quiet_os. intros env w. unfold Os.rename.
  destruct (os_fault env (clock w) (o_rename a b)); [|destruct (files w a)];
    simpl; eauto.
Qed.

Lemma quiet_save hk p :
  (forall o, f (EvOs (o_save_hosts p) o) = false) -> bounded f 0 (Pysftp.save hk p).
Proof.
  apply quiet_os. intros env w. unfold Pysftp.save.
  destruct (os_fault env (clock w) (o_save_hosts p)); simpl; eauto.
Qed.

Lemma quiet_open_rb p :
  (forall o, f (EvOs (o_open_rb p) o) = false) -> bounded f 0 (Os.open_rb_read p).
Proof.
  intros H. apply bounded_one with (P := fun e => exists o, e = EvOs (o_open_rb p) o).
  - intros env w. unfold Os.open_rb_read.
    destruct (os_fault env (clock w) (o_open_rb p)); [|destruct (files w p) as [[]|]];
      simpl; eauto.
  - now intros e [o ->].
Qed.

Lemma quiet_get c r l :
  (forall o, f (EvSftp c (c_get r l) o) = false) -> bounded f 0 (Pysftp.get c r l).
Proof.
  intros H. apply bounded_one with (P := fun e => exists o, e = EvSftp c (c_get r l) o).
  - intros env w. unfold Pysftp.get.
    destruct (srv_get env (clock w) r l) as [d|e [part|]]; simpl; eauto.
  - now intros e [o ->].
Qed.

Lemma quiet_connection a :
  (forall o, f (EvConnect a o) = false) -> bounded f 0 (Pysftp.Connection_ a).
Proof.
  intros H. apply bounded_one with (P := fun e => exists o, e = EvConnect a o).
  - intros env w. unfold Pysftp.Connection_.
    destruct (srv_connect env (clock w) a); simpl; eauto.
  - now intros e [o ->].
Qed.

Lemma one_connection a : bounded f 1 (Pysftp.Connection_ a).
Proof.
  apply bounded_one_any. intros env w. unfold Pysftp.Connection_.
  destruct (srv_connect env (clock w) a); simpl; eauto.
Qed.
End Calls.

Section Exactly.
Context {A B : Type} (f : Event -> bool).

Lemma quiet_exactly (m : M A) : bounded f 0 m <-> exactly f 0 m.
Proof.
  split; intros H env w; destruct (H env w) as [evs [E C]];
    exists evs; (split; [exact E|lia]).
Qed.


(** The counted events all come from the first part. *)
Lemma exactly_bind_l n (m : M A) (k : A -> M B) :
  exactly f n m -> (forall a, bounded f 0 (k a)) -> exactly f n (bind m k).
Proof.
  intros Hm Hk env w. unfold bind.
  destruct (Hm env w) as [e1 [E1 C1]].
  destruct (m env w) as [[a|e] w1]; simpl in *.
  - destruct (Hk a env w1) as [e2 [E2 C2]].
    exists (e1 ++ e2). rewrite E2, E1, app_assoc, count_app.
    split; [reflexivity|lia].
  - exists e1. split; [exact E1|lia].
Qed.

(** The counted events all come from the continuation, which is
    reached. *)
Lemma exactly_bind_r n (m : M A) (k : A -> M B) :
  bounded f 0 m -> total m -> (forall a, exactly f n (k a)) ->
  exactly f n (bind m k).
Proof.
  intros Hm Ht Hk env w. unfold bind.
  destruct (Hm env w) as [e1 [E1 C1]].
  destruct (Ht env w) as [a Ha].
  destruct (m env w) as [[a'|e] w1]; simpl in *; [|discriminate].
  destruct (Hk a' env w1) as [e2 [E2 C2]].
  exists (e1 ++ e2). rewrite E2, E1, app_assoc, count_app.
  split; [reflexivity|lia].
Qed.

Lemma exactly_try n (m : M A) (h : Exn -> option (M B)) (els : A -> M B) :
  exactly f n m ->
  (forall e, match h e with Some k => bounded f 0 k | None => True end) ->
  (forall a, bounded f 0 (els a)) ->
  exactly f n (try_except_else m h els).
Proof.
  intros Hm Hh He env w. unfold try_except_else.
  destruct (Hm env w) as [e1 [E1 C1]].
  destruct (m env w) as [[a|e] w1]; simpl in *.
  - destruct (He a env w1) as [e2 [E2 C2]].
    exists (e1 ++ e2). rewrite E2, E1, app_assoc, count_app.
    split; [reflexivity|lia].
  - specialize (Hh e). destruct (h e) as [k|].
    + destruct (Hh env w1) as [e2 [E2 C2]].
      exists (e1 ++ e2). rewrite E2, E1, app_assoc, count_app.
      split; [reflexivity|lia].
    + exists e1. split; [exact E1|lia].
Qed.

Lemma total_ret (a : A) : total (ret a).
Proof. intros env w. now exists a. Qed.

Lemma total_ask (g : Env -> A) : total (ask g).
Proof. intros env w. now eexists. Qed.

Lemma total_peek (g : World -> A) : total (peek g).
Proof. intros env w. now eexists. Qed.

Lemma total_bind (m : M A) (k : A -> M B) :
  total m -> (forall a, total (k a)) -> total (bind m k).
Proof.
  intros Hm Hk env w. unfold bind.
  destruct (Hm env w) as [a Ha].
  destruct (m env w) as [[a'|e] w1]; simpl in *; [|discriminate].
  apply Hk.
Qed.
End Exactly.

Lemma total_notify ev : total (Call.notify ev).
Proof. intros env w. now exists tt. Qed.

Lemma exactly_connection a : exactly is_connect 1 (Pysftp.Connection_ a).
Proof.
  intros env w. unfold Pysftp.Connection_.
  destruct (srv_connect env (clock w) a); simpl; eexists; split; eauto.
Qed.

Section Returns.
Context {A B : Type}.

Lemma returns_ret (a : A) (Q : A -> Prop) : Q a -> returns (ret a) Q.
Proof. intros H env w a' w' E. injection E as <- _. exact H. Qed.

Lemma returns_raise e (Q : A -> Prop) : returns (raise e) Q.
Proof. intros env w a' w' E. discriminate. Qed.

Lemma returns_bind (m : M A) (k : A -> M B) (Q : B -> Prop) :
  (forall a, returns (k a) Q) -> returns (bind m k) Q.
Proof.
  intros Hk env w b w' E. unfold bind in E.
  destruct (m env w) as [[a|e] w1]; [|discriminate].
  exact (Hk a env w1 b w' E).
Qed.

Lemma returns_try (m : M A) (h : Exn -> option (M B)) (els : A -> M B)
      (Q : B -> Prop) :
  (forall e, match h e with Some k => returns k Q | None => True end) ->
  (forall a, returns (els a) Q) ->
  returns (try_except_else m h els) Q.
Proof.
  intros Hh He env w b w' E. unfold try_except_else in E.
  destruct (m env w) as [[a|e] w1].
  - exact (He a env w1 b w' E).
  - specialize (Hh e). destruct (h e) as [k|]; [|discriminate].
    exact (Hh env w1 b w' E).
Qed.

End Returns.

End Rules.

(** *** Deriving [bounded f 0 m] along the structure of [m] *)

Ltac quiet_call :=
  first
    [ apply Rules.quiet_notify; reflexivity
    | apply Rules.quiet_total; reflexivity
    | apply Rules.quiet_fallible; intros []; reflexivity
    | apply Rules.quiet_temp_name; intros; reflexivity
    | apply Rules.quiet_mkdir; intros []; reflexivity
    | apply Rules.quiet_os_remove; intros []; reflexivity
    | apply Rules.quiet_os_rename; intros []; reflexivity
    | apply Rules.quiet_save; intros []; reflexivity
    | apply Rules.quiet_open_rb; intros []; reflexivity
    | apply Rules.quiet_get; intros []; reflexivity
    | apply Rules.quiet_connection; intros []; reflexivity ].

Ltac quiet_step :=
  lazymatch goal with
  | |- forall _, _ => intro
  | |- True => exact I
  | |- bounded _ _ (ret _) => apply Rules.bounded_ret
  | |- bounded _ _ (raise _) => apply Rules.bounded_raise
  | |- bounded _ _ (lift _) => apply Rules.bounded_lift
  | |- bounded _ _ (ask _) => apply Rules.bounded_ask
  | |- bounded _ _ (peek _) => apply Rules.bounded_peek
  | |- bounded _ 0 (bind _ _) => apply Rules.quiet_bind
  | |- bounded _ 0 (try_except_else _ _ _) => apply Rules.quiet_try
  | |- bounded _ _ (try_except _ _) => unfold try_except
  | |- bounded _ _ (if ?b then _ else _) => destruct b
  | |- bounded _ _ (match ?x with _ => _ end) => destruct x
  | |- match (if ?b then _ else _) with _ => _ end => destruct b
  | |- bounded _ _ (Sdk.output_message _ _) => unfold Sdk.output_message
  | |- bounded _ _ Sdk.get_init_var_UpdateOnly => unfold Sdk.get_init_var_UpdateOnly
  | |- bounded _ _ (Sdk.anchor_init _) => unfold Sdk.anchor_init
  | |- bounded _ _ (Sdk.update_progress _ _) => unfold Sdk.update_progress
  | |- bounded _ _ (Sdk.push_record _) => unfold Sdk.push_record
  | |- bounded _ _ (Sdk.output_record_count _) => unfold Sdk.output_record_count
  | |- bounded _ _ Sdk.anchor_close => unfold Sdk.anchor_close
  | |- bounded _ _ (Os.path_exists _) => unfold Os.path_exists
  | |- bounded _ _ (Os.path_isfile _) => unfold Os.path_isfile
  | |- bounded _ _ (Os.path_isdir _) => unfold Os.path_isdir
  | |- bounded _ _ (Os.path_join _ _) => unfold Os.path_join
  | |- bounded _ _ (Os.path_split _) => unfold Os.path_split
  | |- bounded _ _ (Os.path_dirname _) => unfold Os.path_dirname
  | |- bounded _ _ Pysftp.CnOpts_hostkeys => unfold Pysftp.CnOpts_hostkeys
  | |- bounded _ _ Pysftp.helpers_known_hosts => unfold Pysftp.helpers_known_hosts
  | |- bounded _ _ (Pysftp.isdir _ _) => unfold Pysftp.isdir
  | |- bounded _ _ (Pysftp.isfile _ _) => unfold Pysftp.isfile
  | |- bounded _ _ (Pysftp.exists_ _ _) => unfold Pysftp.exists_
  | |- bounded _ _ (Pysftp.normalize _ _) => unfold Pysftp.normalize
  | |- bounded _ _ (Pysftp.pwd _) => unfold Pysftp.pwd
  | |- bounded _ _ (Pysftp.close _) => unfold Pysftp.close
  | |- bounded _ _ (Pysftp.chdir _ _) => unfold Pysftp.chdir
  | |- bounded _ _ (Pysftp.listdir_attr _) => unfold Pysftp.listdir_attr
  | |- bounded _ _ (Pysftp.stat _ _) => unfold Pysftp.stat
  | |- bounded _ _ (Pysftp.rename _ _ _) => unfold Pysftp.rename
  | |- bounded _ _ (Pysftp.remove _ _) => unfold Pysftp.remove
  | |- bounded _ _ (Pysftp.put _ _) => unfold Pysftp.put
  | |- bounded _ _ (Pysftp.putfo _ _ _) => unfold Pysftp.putfo
  | |- bounded _ _ (set_field _ _ _ _) => unfold set_field
  | |- bounded _ _ (Download.invalid _ _) => unfold Download.invalid
  | |- bounded _ _ (Upload.invalid _ _) => unfold Upload.invalid
  | |- bounded _ 0 _ => quiet_call
  end.

Ltac quiet := repeat quiet_step.

(** *** Running a method on a symbolic world

    [run_unfold] exposes the answers a run depends on; [run_case] splits on
    the first of them that is still open. *)

Ltac run_unfold :=
  cbv [bind ret raise lift ask peek try_except try_except_else
       Call.notify Call.total Call.fallible
       Sdk.output_message Sdk.get_init_var_UpdateOnly Sdk.create_temp_file_name
       Sdk.anchor_init Sdk.update_progress Sdk.push_record Sdk.output_record_count
       Sdk.anchor_close
       Os.path_exists Os.path_isfile Os.path_isdir Os.path_join Os.path_split
       Os.path_dirname Os.mkdir Os.remove Os.rename Os.open_rb_read
       Pysftp.CnOpts_hostkeys Pysftp.helpers_known_hosts Pysftp.save
       Pysftp.Connection_ Pysftp.isdir Pysftp.isfile Pysftp.exists_ Pysftp.normalize
       Pysftp.pwd Pysftp.close Pysftp.chdir Pysftp.listdir_attr Pysftp.stat
       Pysftp.rename Pysftp.remove Pysftp.put Pysftp.putfo Pysftp.get
       set_field] in *.

Ltac run_case_in H :=
  match type of H with
  | context [match ?x with _ => _ end] =>
      lazymatch x with
      | context [match _ with _ => _ end] => fail
      | _ => destruct x eqn:?
      end
  end.


(* ===================================================================== *)
(** ** How often [_init_sftp] connects *)
(* ===================================================================== *)

Module ConnectFrames.
Import Connect.

(** Every call of the shared connecting code makes exactly one connection
    attempt. *)
Lemma connect_exactly_once h p u pw kf kp :
  exactly is_connect 1 (_init_sftp_connect h p u pw kf kp).
Proof.
  unfold _init_sftp_connect.
  apply Rules.exactly_bind_r; [quiet|apply Rules.total_peek|intro hk].
  apply Rules.exactly_bind_r.
  - quiet.
  - destruct (Pysftp.lookup hk h).
    + apply Rules.total_ret.
    + apply Rules.total_bind; [apply Rules.total_notify|intro; apply Rules.total_ret].
  - intro st. unfold try_except. apply Rules.exactly_try.
    + apply Rules.exactly_bind_l; [apply Rules.exactly_connection|quiet].
    + quiet.
    + quiet.
Qed.

Lemma connect_no_close h p u pw kf kp :
  bounded is_close 0 (_init_sftp_connect h p u pw kf kp).
Proof. unfold _init_sftp_connect. quiet. Qed.

End ConnectFrames.

(* ===================================================================== *)
(** ** Which calls each method of the download engine can make *)
(* ===================================================================== *)

Module DownloadFrames.
Import Download.

Lemma dl_validate_settings_messages f self silent :
  (forall t s, f (EvMessage t s) = false) ->
  bounded f 0 (validate_settings self silent).
Proof.
  intros Hf. unfold validate_settings.
  assert (Hm : forall t s, bounded f 0 (Sdk.output_message t s)).
  { intros. apply Rules.quiet_notify, Hf. }
  assert (Hi : forall s, bounded f 0 (invalid silent s)).
  { intros. unfold invalid. apply Rules.quiet_bind; [destruct silent|intros].
    - apply Rules.bounded_ret.
    - apply Hm.
    - apply Rules.bounded_ret. }
  repeat (first [ apply Hi | quiet_step ]).
Qed.

Lemma process_file_no_connect self c e fd ri rc :
  bounded is_connect 0 (_process_file self c e fd ri rc).
Proof. unfold _process_file, handle_downloaded. quiet. Qed.

Lemma process_file_no_close self c e fd ri rc :
  bounded is_close 0 (_process_file self c e fd ri rc).
Proof. unfold _process_file, handle_downloaded. quiet. Qed.








Lemma dl_init_sftp_exactly_once self : exactly is_connect 1 (_init_sftp self).
Proof.
  unfold _init_sftp.
  apply Rules.exactly_bind_l; [apply ConnectFrames.connect_exactly_once|quiet].
Qed.

Lemma dl_init_sftp_no_close self : bounded is_close 0 (_init_sftp self).
Proof.
  unfold _init_sftp.
  repeat first [ apply ConnectFrames.connect_no_close | quiet_step ].
Qed.

End DownloadFrames.

(** *** Deriving [returns m Q] along the structure of [m] *)

Ltac returns_step :=
  lazymatch goal with
  | |- forall _, _ => intro
  | |- True => exact I
  | |- returns (ret _) _ => apply Rules.returns_ret
  | |- returns (raise _) _ => apply Rules.returns_raise
  | |- returns (bind _ _) _ => apply Rules.returns_bind
  | |- returns (try_except_else _ _ _) _ => apply Rules.returns_try
  | |- returns (try_except _ _) _ => unfold try_except
  | |- returns (if ?b then _ else _) _ => destruct b
  | |- returns (match ?x with _ => _ end) _ => destruct x
  | |- match (if ?b then _ else _) with _ => _ end => destruct b
  end.

(* ===================================================================== *)
(** ** The streaming mode of the download engine *)
(* ===================================================================== *)

Module DownloadStream.
Import Download DownloadFrames.

















End DownloadStream.

(* ===================================================================== *)
(** ** The streaming mode of the upload engine *)
(* ===================================================================== *)

Module UploadStream.
Import Upload.

Lemma up_validate_settings_messages f self silent :
  (forall t s, f (EvMessage t s) = false) ->
  bounded f 0 (validate_settings self silent).
Proof.
  intros Hf. unfold validate_settings.
  assert (Hm : forall t s, bounded f 0 (Sdk.output_message t s)).
  { intros. apply Rules.quiet_notify, Hf. }
  assert (Hi : forall s, bounded f 0 (invalid silent s)).
  { intros. unfold invalid. apply Rules.quiet_bind; [destruct silent|intros].
    - apply Rules.bounded_ret.
    - apply Hm.
    - apply Rules.bounded_ret. }
  repeat (first [ apply Hi | quiet_step ]).
Qed.























End UploadStream.

(* ===================================================================== *)
(** ** Facts about [str.strip] *)
(* ===================================================================== *)

Module StripFacts.

Lemma all_space_app a b :
  all_space (a +:+ b) = all_space a && all_space b.
Proof.
  induction a as [|c a IH]; simpl; [reflexivity|].
  rewrite IH. now rewrite andb_assoc.
Qed.

Lemma lstrip_split s :
  exists a, s = a +:+ lstrip s /\ all_space a = true.
Proof.
  induction s as [|c s [a [E A]]]; simpl.
  - exists EmptyString. split; reflexivity.
  - destruct (isspace c) eqn:C.
    + exists (String c a). simpl. rewrite C, A. split; [now rewrite <- E|reflexivity].
    + exists EmptyString. split; reflexivity.
Qed.

Lemma lstrip_head s : starts_with_space (lstrip s) = false.
Proof.
  induction s as [|c s IH]; simpl; [reflexivity|].
  destruct (isspace c) eqn:C; [exact IH|simpl; exact C].
Qed.

Lemma lstrip_all_space s : all_space s = true -> lstrip s = EmptyString.
Proof.
  induction s as [|c s IH]; simpl; [reflexivity|].
  destruct (isspace c); simpl; [exact IH|discriminate].
Qed.

Lemma rstrip_empty s : rstrip s = EmptyString <-> all_space s = true.
Proof.
  induction s as [|c s IH]; simpl; [tauto|].
  destruct (rstrip s) eqn:R.
  - destruct (isspace c); simpl.
    + split; intros _; [now apply IH|reflexivity].
    + split; discriminate.
  - split; [discriminate|].
    intros H. apply andb_true_iff in H as [_ H].
    apply IH in H. discriminate.
Qed.

Lemma rstrip_split s :
  exists b, s = rstrip s +:+ b /\ all_space b = true.
Proof.
  induction s as [|c s [b [E B]]]; simpl.
  - exists EmptyString. split; reflexivity.
  - destruct (rstrip s) eqn:R.
    + destruct (isspace c) eqn:C.
      * exists (String c s). simpl. rewrite C. split; [reflexivity|].
        simpl. now apply rstrip_empty.
      * exists b. simpl in *. split; [now f_equal|exact B].
    + exists b. simpl in *. split; [now f_equal|exact B].
Qed.

Lemma rstrip_tail s : ends_with_space (rstrip s) = false.
Proof.
  induction s as [|c s IH]; simpl; [reflexivity|].
  destruct (rstrip s) eqn:R.
  - destruct (isspace c) eqn:C; simpl; [reflexivity|exact C].
  - simpl. simpl in IH. exact IH.
Qed.

Lemma rstrip_head s :
  starts_with_space s = false -> starts_with_space (rstrip s) = false.
Proof.
  destruct s as [|c s]; simpl; [reflexivity|].
  intros C. destruct (rstrip s); [rewrite C|]; simpl; exact C.
Qed.

Lemma strip_empty s : strip s = EmptyString <-> all_space s = true.
Proof.
  unfold strip. split.
  - intros H. apply rstrip_empty in H.
    destruct (lstrip_split s) as [a [E A]].
    rewrite E, all_space_app, A, H. reflexivity.
  - intros H. now rewrite (lstrip_all_space s H).
Qed.

Lemma strip_stripped s : stripped_of s (strip s).
Proof.
  destruct (lstrip_split s) as [a [E A]].
  destruct (rstrip_split (lstrip s)) as [b [E' B]].
  exists a, b. unfold strip. repeat split; trivial.
  - now rewrite <- E', <- E.
  - apply rstrip_head, lstrip_head.
  - apply rstrip_tail.
Qed.

Lemma truthy_strip tx : truthy (Some (strip tx)) = negb (all_space tx).
Proof.
  simpl. destruct (all_space tx) eqn:A.
  - apply strip_empty in A. now rewrite A.
  - destruct (String.eqb_spec (strip tx) EmptyString) as [E|E]; [|reflexivity].
    apply strip_empty in E. congruence.
Qed.

End StripFacts.

(* ===================================================================== *)
(** ** The settings extractor *)
(* ===================================================================== *)

(** C10.  For every configuration key, [_prep_xmltext] never raises; it
    returns [None] when the element is absent, when it has no text, and
    when its text is empty or only whitespace; otherwise it returns the
    text with its surrounding whitespace stripped.  Hence it never returns
    the empty string. *)
Theorem prep_xmltext_spec (et : Et.Element) (key : string) :
  (Et.find et key = None -> Et._prep_xmltext et key = Ok None)
  /\ (forall c, Et.find et key = Some c -> Et.text c = None ->
                Et._prep_xmltext et key = Ok None)
  /\ (forall c tx, Et.find et key = Some c -> Et.text c = Some tx ->
                   all_space tx = true ->
                   Et._prep_xmltext et key = Ok None)
  /\ (forall c tx, Et.find et key = Some c -> Et.text c = Some tx ->
                   all_space tx = false ->
                   Et._prep_xmltext et key = Ok (Some (strip tx))
                   /\ stripped_of tx (strip tx))
  /\ Et._prep_xmltext et key <> Ok (Some EmptyString).
Proof.
  unfold Et._prep_xmltext, Et.findtext.
  destruct (Et.find et key) as [c|] eqn:F.
  2:{ simpl. repeat split; intros; congruence. }
  destruct (Et.text c) as [tx|] eqn:T.
  2:{ simpl. repeat split; intros; congruence. }
  assert (Hs := StripFacts.truthy_strip tx).
  assert (He := StripFacts.strip_empty tx).
  assert (Hc : forall c' tx', Some c = Some c' -> Et.text c' = Some tx' -> tx' = tx)
    by (intros c' tx' Hc Ht; congruence).
  destruct (all_space tx) eqn:A.
  - (* only whitespace: the text is empty, or it strips to nothing *)
    assert (S0 : strip tx = EmptyString) by now apply He.
    rewrite S0.
    destruct (truthy (Some tx)); simpl.
    all: repeat split; intros; congruence.
  - (* some character is not whitespace *)
    assert (N : truthy (Some tx) = true).
    { simpl. destruct tx; [discriminate|reflexivity]. }
    rewrite N. cbv beta iota.
    assert (E : eq_opt (Some (strip tx)) (Some EmptyString) = false).
    { simpl. simpl in Hs. now destruct (String.eqb (strip tx) EmptyString). }
    rewrite Hs, E. simpl.
    repeat split; intros; try congruence.
    all: try match goal with
             | H : Some _ = Some ?c', H' : Et.text ?c' = Some ?t |- _ =>
                 rewrite (Hc c' t H H') in *
             end.
    all: try congruence.
    + apply StripFacts.strip_stripped.
    + intros H. injection H as H. apply He in H. discriminate.
Qed.

(* ===================================================================== *)
(** ** Trust on first use *)
(* ===================================================================== *)

Module TrustFacts.

(** A host that the store does not know has no entry to overwrite:
    [add] appends. *)
Lemma add_unknown hk h t k :
  Pysftp.lookup hk h = None ->
  Pysftp.add hk h t k = hk ++ [mkHostKey h t k].
Proof.
  unfold Pysftp.lookup.
  induction hk as [|e r IH]; simpl; [reflexivity|].
  destruct (eq_opt (hk_host e) h); simpl; [discriminate|].
  intros H. now rewrite IH.
Qed.

(** The shared connecting code, for a host that is not in the store. *)
Lemma connect_unknown h p u pw kf kp env w conn w' :
  Pysftp.lookup (loaded w) h = None ->
  Connect._init_sftp_connect h p u pw kf kp env w = (Ok (Some conn), w') ->
  exists a tail,
    trace w' =
      trace w
      ++ EvMessage EMT_warning
           ("Unkown host " +:+ fmt h +:+ ". Any host key will be accepted.")
      :: EvConnect a Returned
      :: EvMessage EMT_warning
           "Connected to unknown host. Caching its hostkey to known_hosts."
      :: tail
    /\ count is_message tail = 0
    /\ hosts_file w'
       = Some (loaded w ++ [mkHostKey h (key_name (remote_server_key conn))
                                        (key_data (remote_server_key conn))]).
Proof.
  intros L R. unfold Connect._init_sftp_connect in R.
  run_unfold. fold (loaded w) in R. rewrite L in R.
  cbn [fst snd] in R.
  repeat (run_case_in R; cbn [fst snd] in R; try discriminate R).
  all: injection R as <- <-.
  all: eexists; eexists; split; [|split].
  all: cbn [trace hosts_file set_hosts set_file add_event remote_server_key].
  all: rewrite ?(add_unknown _ _ _ _ L).
  all: try reflexivity.
  all: rewrite <- ?app_assoc; cbn [app]; try reflexivity.
Qed.

Lemma no_message_no_warning l :
  count is_message l = 0 -> length (filter is_warning l) = 0.
Proof.
  unfold count. induction l as [|e l IH]; simpl; [reflexivity|].
  destruct e as [[] ?| | | | | | | | |]; simpl; try discriminate; exact IH.
Qed.

(** The same, with the warnings counted. *)
Lemma trusted_counts h w conn w' :
  trusted_on_first_use h w conn w' ->
  exists evs, trace w' = trace w ++ evs /\ count is_warning evs = 2.
Proof.
  intros (a & tail & T & W & _). eexists. split; [exact T|].
  unfold count. cbn [filter is_warning length]. now rewrite W.
Qed.

(** Events that are not warnings may follow. *)
Lemma trusted_extend h w conn w1 w' more :
  trusted_on_first_use h w conn w1 ->
  trace w' = trace w1 ++ more ->
  length (filter is_warning more) = 0 ->
  hosts_file w' = hosts_file w1 ->
  trusted_on_first_use h w conn w'.
Proof.
  intros (a & tail & T & W & H) E Wm Hh.
  exists a, (tail ++ more). split; [|split].
  - rewrite E, T, <- app_assoc. reflexivity.
  - now rewrite filter_app, length_app, W, Wm.
  - now rewrite Hh.
Qed.

End TrustFacts.

(** C4.  When [_init_sftp] connects to a host that the known-hosts store
    does not list and returns a session, it has emitted exactly two
    warnings, one before the connection attempt ("Unkown host ...") and one
    after it ("... Caching its hostkey ..."), and the known-hosts file is
    the old one with exactly one entry appended: the hostname with the type
    and the material of the key the server presented.  This holds for the
    download engine and for the upload engine. *)
Theorem unknown_host_two_warnings_one_record :
  (forall self env w conn w',
      Pysftp.lookup (loaded w) (Download.hostname (Download.sftp_settings self)) = None ->
      Download._init_sftp self env w = (Ok (Some conn), w') ->
      trusted_on_first_use (Download.hostname (Download.sftp_settings self)) w conn w'
      /\ exists evs, trace w' = trace w ++ evs /\ count is_warning evs = 2)
  /\ (forall self env w conn w',
      Pysftp.lookup (loaded w) (Upload.hostname (Upload.sftp_settings self)) = None ->
      Upload._init_sftp self env w = (Ok (Some conn), w') ->
      trusted_on_first_use (Upload.hostname (Upload.sftp_settings self)) w conn w'
      /\ exists evs, trace w' = trace w ++ evs /\ count is_warning evs = 2).
Proof.
  split; intros self env w conn w' L R.
  - unfold Download._init_sftp in R. rewrite Rules.run_bind in R.
    destruct (Connect._init_sftp_connect _ _ _ _ _ _ env w) as [[[c|]|e] w1] eqn:C;
      try discriminate R.
    destruct (TrustFacts.connect_unknown _ _ _ _ _ _ _ _ _ _ L C)
      as (a & tail & T & M & H).
    assert (T1 : trusted_on_first_use
                   (Download.hostname (Download.sftp_settings self)) w c w1).
    { exists a, tail. split; [exact T|split; [|exact H]].
      now apply TrustFacts.no_message_no_warning. }
    clear C T M H.
    run_unfold. cbn [fst snd] in R.
    repeat (run_case_in R; cbn [fst snd] in R; try discriminate R).
    all: injection R as <- <-.
    all: match goal with
         | |- trusted_on_first_use _ _ _ ?w' /\ _ =>
             assert (T2 : trusted_on_first_use
                            (Download.hostname (Download.sftp_settings self)) w c w')
         end.
    all: try (split; [exact T2|exact (TrustFacts.trusted_counts _ _ _ _ T2)]).
    all: eapply TrustFacts.trusted_extend;
      [exact T1
      |cbn [trace add_event]; rewrite <- !app_assoc; cbn [app]; reflexivity
      |reflexivity|reflexivity].
  - unfold Upload._init_sftp in R. rewrite Rules.run_bind in R.
    destruct (Connect._init_sftp_connect _ _ _ _ _ _ env w) as [[[c|]|e] w1] eqn:C;
      try discriminate R.
    destruct (TrustFacts.connect_unknown _ _ _ _ _ _ _ _ _ _ L C)
      as (a & tail & T & M & H).
    assert (T1 : trusted_on_first_use
                   (Upload.hostname (Upload.sftp_settings self)) w c w1).
    { exists a, tail. split; [exact T|split; [|exact H]].
      now apply TrustFacts.no_message_no_warning. }
    clear C T M H.
    run_unfold. cbn [fst snd] in R.
    repeat (run_case_in R; cbn [fst snd] in R; try discriminate R).
    all: injection R as <- <-.
    all: match goal with
         | |- trusted_on_first_use _ _ _ ?w' /\ _ =>
             assert (T2 : trusted_on_first_use
                            (Upload.hostname (Upload.sftp_settings self)) w c w')
         end.
    all: try (split; [exact T2|exact (TrustFacts.trusted_counts _ _ _ _ T2)]).
    all: eapply TrustFacts.trusted_extend;
      [exact T1
      |cbn [trace add_event]; rewrite <- !app_assoc; cbn [app]; reflexivity
      |reflexivity|reflexivity].
Qed.

(* ===================================================================== *)
(** ** Items that are not files *)
(* ===================================================================== *)

Module SkipFacts.
Import Download.

(** The loop body on an item that is not a file. *)
Lemma push_item_skips self conn fd ri rc total i f env w :
  f_is_file f = Some false ->
  tool_mode self <> LIST_FILES ->
  push_item self conn fd ri rc total i f env w
  = (Ok tt,
     add_events w
       [EvUpdateProgress i total;
        EvMessage EMT_warning
          (dq +:+ fmt (remote_path (sftp_settings self)) +:+ f_filename f +:+ dq
           +:+ " is not a file. Skipped.")]).
Proof.
  intros F M. unfold push_item. run_unfold. rewrite F.
  destruct (tool_mode self); try congruence; reflexivity.
Qed.

(** [_process_file] downloads at most once. *)
Lemma process_file_one_get self c e fd ri rc :
  bounded is_get 1 (_process_file self c e fd ri rc).
Proof.
  unfold _process_file.
  do 4 (apply (Rules.bounded_bind _ 0 1); [quiet|intro]).
  apply (Rules.bounded_bind _ 1 0);
    [|intro; unfold handle_downloaded; quiet].
  destruct (tool_mode self);
    try (apply Rules.bounded_weaken with (n := 0); [lia|quiet]; fail).
  all: apply (Rules.bounded_bind _ 0 1); [quiet|intro out_fname].
  all: apply (Rules.bounded_bind _ 1 0); [|quiet].
  all: unfold try_except; apply (Rules.bounded_try _ 1 0); [|quiet|quiet].
  all: destruct out_fname; [|apply Rules.bounded_raise].
  all: apply Rules.bounded_one_any; intros env w; unfold Pysftp.get.
  all: destruct (srv_get env (clock w) (f_filename e) s) as [d|x [part|]];
    simpl; eauto.
Qed.

(** Over a whole listing, there are at most as many downloads as there
    are files in it. *)
Lemma push_items_gets self conn fd ri rc total file_list :
  tool_mode self <> LIST_FILES ->
  forall i,
    bounded is_get (count_files file_list)
            (push_items (push_item self conn fd ri rc total) i file_list).
Proof.
  intros M. induction file_list as [|f rest IH]; intros i; cbn [push_items].
  - apply Rules.bounded_ret.
  - destruct (f_is_file f) as [[|]|] eqn:F.
    + (* a file *)
      replace (count_files (f :: rest)) with (1 + count_files rest)
        by (unfold count_files; simpl; now rewrite F).
      apply Rules.bounded_bind; [|intro; apply IH].
      unfold push_item. rewrite F.
      apply (Rules.bounded_bind _ 0 1); [quiet|intro].
      apply (Rules.bounded_bind _ 0 1); [quiet|intros b].
      destruct (negb b && negb (mode_eqb (tool_mode self) LIST_FILES)).
      * apply Rules.bounded_weaken with (n := 0); [lia|quiet].
      * apply process_file_one_get.
    + (* not a file *)
      replace (count_files (f :: rest)) with (0 + count_files rest)
        by (unfold count_files; simpl; now rewrite F).
      apply Rules.bounded_bind; [|intro; apply IH].
      intros env w. rewrite (push_item_skips _ _ _ _ _ _ _ _ env w F M).
      eexists. split; [apply Rules.trace_add_events|]. reflexivity.
    + (* no ['is_file'] key: the body raises before anything else *)
      replace (count_files (f :: rest)) with (0 + count_files rest)
        by (unfold count_files; simpl; now rewrite F).
      apply Rules.bounded_bind; [|intro; apply IH].
      unfold push_item. rewrite F.
      apply Rules.quiet_bind; [quiet|intro].
      apply (Rules.bounded_bind_returns _ (fun _ => False) 0 0).
      * quiet.
      * intros env w b w' E. discriminate E.
      * intros b [].
Qed.

(** A streamed record that names something that is not a file. *)
Lemma push_record_skips self p rec fld conn env w w1 w2 :
  UpdateOnly env <> "True" ->
  validate_settings p false env w = (Ok true, w1) ->
  in_field self = Some fld ->
  tool_mode p <> LIST_FILES ->
  download_session self p env w1 conn w2 ->
  (forall t, srv_isfile env t (get_as_string rec (fd_name fld)) = false) ->
  exists self' evs,
    ii_push_record self p (Some rec) env w = (Ok (true, self'), add_events w2 evs)
    /\ sftp_conn self' = slot_Conn conn
    /\ file_counter self' = file_counter self
    /\ (evs = [EvSftp conn (c_exists (Some (get_as_string rec (fd_name fld)))) Returned;
               EvMessage EMT_warning
                 ("File " +:+ dq +:+ fmt (remote_path (sftp_settings p))
                  +:+ get_as_string rec (fd_name fld) +:+ dq
                  +:+ " does not exist. Skipped.")]
        \/ evs = [EvSftp conn (c_exists (Some (get_as_string rec (fd_name fld)))) Returned;
                  EvSftp conn (c_isfile (get_as_string rec (fd_name fld))) Returned;
                  EvMessage EMT_warning
                    ("File " +:+ dq +:+ fmt (remote_path (sftp_settings p))
                     +:+ get_as_string rec (fd_name fld) +:+ dq
                     +:+ " is actually a folder. Skipped.")]).
Proof.
  intros Hu Hv Hf Hm Hs Hi.
  assert (Hm' : mode_eqb (tool_mode p) LIST_FILES = false)
    by (destruct (tool_mode p); try reflexivity; congruence).
  apply String.eqb_neq in Hu.
  assert (P : forall self0,
             exists evs,
               push_current self0 p fld conn rec env w2
               = (Ok (true, self0), add_events w2 evs)
               /\ (evs = [EvSftp conn (c_exists (Some (get_as_string rec (fd_name fld))))
                                 Returned;
                          EvMessage EMT_warning
                            ("File " +:+ dq +:+ fmt (remote_path (sftp_settings p))
                             +:+ get_as_string rec (fd_name fld) +:+ dq
                             +:+ " does not exist. Skipped.")]
                   \/ evs = [EvSftp conn (c_exists (Some (get_as_string rec (fd_name fld))))
                                    Returned;
                             EvSftp conn (c_isfile (get_as_string rec (fd_name fld)))
                                    Returned;
                             EvMessage EMT_warning
                               ("File " +:+ dq +:+ fmt (remote_path (sftp_settings p))
                                +:+ get_as_string rec (fd_name fld) +:+ dq
                                +:+ " is actually a folder. Skipped.")])).
  { intros self0. unfold push_current. run_unfold.
    destruct (srv_exists env (clock w2) (Some (get_as_string rec (fd_name fld)))).
    - cbn [negb]. rewrite Hi. cbn [negb].
      eexists. split; [|right; reflexivity]. reflexivity.
    - cbn [negb]. eexists. split; [|left; reflexivity]. reflexivity. }
  unfold ii_push_record. rewrite Rules.run_bind.
  unfold Sdk.get_init_var_UpdateOnly, ask. rewrite Hu.
  rewrite Rules.run_bind, Hv. cbn [negb]. rewrite Hf, Hm'.
  destruct Hs as [[Hc ->]|[Hc Hi2]].
  - rewrite Hc. destruct (P self) as [evs [E D]].
    exists self, evs. rewrite E. repeat split; trivial.
  - assert (R : forall (X : M (bool * IncomingInterface)),
               match sftp_conn self with
               | slot_Conn conn0 => push_current self p fld conn0 rec
               | _ => X
               end = X).
    { intros X. destruct (sftp_conn self) as [| |c]; try reflexivity.
      now elim (Hc c). }
    rewrite R, Rules.run_bind, Hi2.
    destruct (P (with_conn self (slot_of (Some conn)))) as [evs [E D]].
    exists (with_conn self (slot_of (Some conn))), evs.
    rewrite E. repeat split; trivial.
Qed.

End SkipFacts.

(** C5.  In every mode other than List, an item that is not a file is
    skipped with a warning: the loop of [pi_push_all_records] reports its
    progress, emits the warning "... is not a file. Skipped." and goes on
    to the next item; over a whole listing at most as many downloads are
    attempted as there are files in it; and [ii_push_record], once its
    checks have passed and a session is at hand, asks the server about the
    name, emits the warning "... does not exist. Skipped." or "... is
    actually a folder. Skipped.", and answers [True] without counting the
    record.  No error message, no [get] and no pushed record in either
    case. *)
Theorem non_file_is_skipped_with_warning :
  (forall self conn fd ri rc total i f env w,
      Download.f_is_file f = Some false ->
      Download.tool_mode self <> Download.LIST_FILES ->
      Download.push_item self conn fd ri rc total i f env w
      = (Ok tt,
         add_events w
           [EvUpdateProgress i total;
            EvMessage EMT_warning
              (dq +:+ fmt (Download.remote_path (Download.sftp_settings self))
               +:+ Download.f_filename f +:+ dq +:+ " is not a file. Skipped.")]))
  /\ (forall self conn fd ri rc total file_list i,
      Download.tool_mode self <> Download.LIST_FILES ->
      bounded is_get (Download.count_files file_list)
              (Download.push_items (Download.push_item self conn fd ri rc total)
                                   i file_list))
  /\ (forall self p rec fld conn env w w1 w2,
      UpdateOnly env <> "True" ->
      Download.validate_settings p false env w = (Ok true, w1) ->
      Download.in_field self = Some fld ->
      Download.tool_mode p <> Download.LIST_FILES ->
      download_session self p env w1 conn w2 ->
      (forall t, srv_isfile env t (get_as_string rec (fd_name fld)) = false) ->
      exists self' evs,
        Download.ii_push_record self p (Some rec) env w
        = (Ok (true, self'), add_events w2 evs)
        /\ Download.sftp_conn self' = Download.slot_Conn conn
        /\ Download.file_counter self' = Download.file_counter self
        /\ count is_warning evs = 1
        /\ count is_error evs = 0
        /\ count is_get evs = 0
        /\ count is_push_record evs = 0).
Proof.
  split; [|split].
  - intros. now apply SkipFacts.push_item_skips.
  - intros. now apply SkipFacts.push_items_gets.
  - intros self p rec fld conn env w w1 w2 Hu Hv Hf Hm Hs Hi.
    destruct (SkipFacts.push_record_skips self p rec fld conn env w w1 w2
                Hu Hv Hf Hm Hs Hi) as (self' & evs & E & C & N & [D|D]).
    all: exists self', evs; subst evs; repeat split; trivial.
Qed.

(* ===================================================================== *)
(** ** The overwrite policy *)
(* ===================================================================== *)

Module OverwriteFacts.
Import Upload.

(** A local file whose name exists on the server. *)
Lemma upload_file_skips p fld conn rec env w b :
  files w (get_as_string rec (fd_name fld)) = Some (File b) ->
  srv_exists env (clock w)
             (Some (snd (os_path_split env (get_as_string rec (fd_name fld))))) = true ->
  overwrite p = false ->
  upload_file p fld conn rec env w
  = (Ok true,
     add_events w
       [EvSftp conn
               (c_exists (Some (snd (os_path_split env (get_as_string rec (fd_name fld))))))
               Returned;
        exists_warning p (snd (os_path_split env (get_as_string rec (fd_name fld))))]).
Proof.
  intros F E O. unfold upload_file. run_unfold.
  repeat (rewrite ?F, ?E, ?O; cbn [Os.is_some Os.is_file negb andb]).
  reflexivity.
Qed.

(** A blob whose name exists on the server. *)
Lemma upload_blob_skips self p fld conn rec env w :
  get_as_string rec (fd_name fld) <> EmptyString ->
  srv_exists env (clock w) (Some (get_as_string rec (fd_name fld))) = true ->
  overwrite p = false ->
  upload_blob self p fld conn rec env w
  = (Ok true,
     add_events w
       [EvSftp conn (c_exists (Some (get_as_string rec (fd_name fld)))) Returned;
        exists_warning p (get_as_string rec (fd_name fld))]).
Proof.
  intros N E O. unfold upload_blob, truthy_str. run_unfold.
  apply String.eqb_neq in N.
  repeat (rewrite ?N, ?E, ?O; cbn [negb andb]).
  reflexivity.
Qed.

(** Whatever the local file system holds, nothing is uploaded when the
    server reports every name as existing and overwriting is off. *)
Lemma push_current_no_put self p fld conn rec env w :
  (forall t n, srv_exists env t n = true) ->
  overwrite p = false ->
  exists evs,
    trace (snd (push_current self p fld conn rec env w)) = trace w ++ evs
    /\ count is_put evs = 0.
Proof.
  intros E O. unfold push_current, upload_file, upload_blob. run_unfold.
  destruct (upload_mode p).
  - exists []. now rewrite app_nil_r.
  - destruct (negb (Os.is_some (files w (get_as_string rec (fd_name fld))))).
    { eexists. split; [reflexivity|reflexivity]. }
    destruct (negb (Os.is_file (files w (get_as_string rec (fd_name fld))))).
    { eexists. split; [reflexivity|reflexivity]. }
    rewrite E, O. cbn [negb andb].
    eexists. split; [cbn [trace snd add_event]; rewrite <- !app_assoc|];
      reflexivity.
  - destruct (negb (truthy_str (get_as_string rec (fd_name fld)))).
    { eexists. split; [reflexivity|reflexivity]. }
    rewrite E, O. cbn [negb andb].
    eexists. split; [cbn [trace snd add_event]; rewrite <- !app_assoc|];
      reflexivity.
Qed.

(** How [ii_push_record] reaches the processing of its record. *)
Lemma push_record_reaches self p rec fld conn env w w1 w2 :
  UpdateOnly env <> "True" ->
  validate_settings p false env w = (Ok true, w1) ->
  in_field self = Some fld ->
  upload_session self p env w1 conn w2 ->
  exists self0,
    ii_push_record self p (Some rec) env w = push_current self0 p fld conn rec env w2
    /\ file_counter self0 = file_counter self.
Proof.
  intros Hu Hv Hf Hs. apply String.eqb_neq in Hu.
  unfold ii_push_record. rewrite Rules.run_bind.
  unfold Sdk.get_init_var_UpdateOnly, ask. rewrite Hu.
  rewrite Rules.run_bind, Hv. cbn [negb]. rewrite Hf.
  destruct Hs as [[Hc ->]|[Hc Hi]].
  - rewrite Hc. now exists self.
  - assert (R : forall (X : M (bool * IncomingInterface)),
               match sftp_conn self with
               | slot_Conn conn0 => push_current self p fld conn0 rec
               | _ => X
               end = X).
    { intros X. destruct (sftp_conn self) as [| |c]; try reflexivity.
      now elim (Hc c). }
    rewrite R, Rules.run_bind, Hi.
    now exists (with_conn self (slot_of (Some conn))).
Qed.

End OverwriteFacts.

(** C6.  With [overwrite] off, an upload item whose target name exists on
    the server is skipped with a warning and nothing is uploaded.  Once
    the checks of [ii_push_record] have passed and a session is at hand:
    in [UPLOAD_FILES] mode, for a record that names an existing local file,
    and in [UPLOAD_BLOBS] mode, for a record with a non-empty name, the
    method asks the server whether the name exists, emits the warning
    "... already exists. Skipped." and answers [True] without counting the
    record: no [put], no [putfo], no error message, and the local file is
    left alone. *)
Theorem existing_remote_file_is_not_overwritten :
  (forall self p rec fld conn env w w1 w2 b,
      UpdateOnly env <> "True" ->
      Upload.validate_settings p false env w = (Ok true, w1) ->
      Upload.in_field self = Some fld ->
      upload_session self p env w1 conn w2 ->
      Upload.upload_mode p = Upload.UPLOAD_FILES ->
      files w2 (get_as_string rec (fd_name fld)) = Some (File b) ->
      (forall t, srv_exists env t
                   (Some (snd (os_path_split env (get_as_string rec (fd_name fld)))))
                 = true) ->
      Upload.overwrite p = false ->
      exists self' evs,
        Upload.ii_push_record self p (Some rec) env w
        = (Ok (true, self'), add_events w2 evs)
        /\ Upload.file_counter self' = Upload.file_counter self
        /\ count is_warning evs = 1
        /\ count is_error evs = 0
        /\ count is_put evs = 0
        /\ count is_local_handling evs = 0)
  /\ (forall self p rec fld conn env w w1 w2,
      UpdateOnly env <> "True" ->
      Upload.validate_settings p false env w = (Ok true, w1) ->
      Upload.in_field self = Some fld ->
      upload_session self p env w1 conn w2 ->
      Upload.upload_mode p = Upload.UPLOAD_BLOBS ->
      get_as_string rec (fd_name fld) <> EmptyString ->
      (forall t, srv_exists env t (Some (get_as_string rec (fd_name fld))) = true) ->
      Upload.overwrite p = false ->
      exists self' evs,
        Upload.ii_push_record self p (Some rec) env w
        = (Ok (true, self'), add_events w2 evs)
        /\ Upload.file_counter self' = Upload.file_counter self
        /\ count is_warning evs = 1
        /\ count is_error evs = 0
        /\ count is_put evs = 0
        /\ count is_local_handling evs = 0)
  /\ (forall self p rec fld conn env w w1 w2,
      UpdateOnly env <> "True" ->
      Upload.validate_settings p false env w = (Ok true, w1) ->
      Upload.in_field self = Some fld ->
      upload_session self p env w1 conn w2 ->
      (forall t n, srv_exists env t n = true) ->
      Upload.overwrite p = false ->
      exists evs,
        trace (snd (Upload.ii_push_record self p (Some rec) env w)) = trace w2 ++ evs
        /\ count is_put evs = 0).
Proof.
  split; [|split].
  - intros self p rec fld conn env w w1 w2 b Hu Hv Hf Hs Hm F E O.
    destruct (OverwriteFacts.push_record_reaches self p rec fld conn env w w1 w2
                Hu Hv Hf Hs) as (self0 & R & N).
    rewrite R. unfold Upload.push_current. rewrite Hm, Rules.run_bind.
    rewrite (OverwriteFacts.upload_file_skips p fld conn rec env w2 b F (E _) O).
    eexists. eexists. split; [reflexivity|]. repeat split; trivial.
  - intros self p rec fld conn env w w1 w2 Hu Hv Hf Hs Hm F E O.
    destruct (OverwriteFacts.push_record_reaches self p rec fld conn env w w1 w2
                Hu Hv Hf Hs) as (self0 & R & N).
    rewrite R. unfold Upload.push_current. rewrite Hm, Rules.run_bind.
    rewrite (OverwriteFacts.upload_blob_skips self0 p fld conn rec env w2 F (E _) O).
    eexists. eexists. split; [reflexivity|]. repeat split; trivial.
  - intros self p rec fld conn env w w1 w2 Hu Hv Hf Hs E O.
    destruct (OverwriteFacts.push_record_reaches self p rec fld conn env w w1 w2
                Hu Hv Hf Hs) as (self0 & R & N).
    rewrite R. now apply OverwriteFacts.push_current_no_put.
Qed.

(* ===================================================================== *)
(** ** The temporary file of the blob mode *)
(* ===================================================================== *)

Module TempFileFacts.
Import Download.





End TempFileFacts.


(* ===================================================================== *)
(** ** Lazy connection in the streaming mode *)
(* ===================================================================== *)


(* ===================================================================== *)
(** ** Runs in which a transfer or the remote path fails *)
(* ===================================================================== *)

Section Runs.
Import Scenario.

(** C1.  A failed transfer does not stop the file handling.  Download to
    a path with [DELETE_FILES]: the [get] of [a.txt] raises an [IOError],
    and the engine then removes [a.txt] from the server.  Upload from a
    path with [DELETE_FILES]: the [put] of [x.csv] raises an [IOError],
    and the engine then deletes the local [x.csv]. *)
Theorem failed_transfer_is_still_handled :
  filter (fun e => is_get e || is_remote_handling e)
         (trace (snd (Download.pi_push_all_records
                        (download_plugin Download.DOWNLOAD_TO_PATH
                                         Download.DELETE_FILES false)
                        0 env_get_fails world)))
  = [EvSftp (session 1) (c_get "a.txt" "/data/in/a.txt") Failed;
     EvSftp (session 1) (c_remove "/inbox/a.txt") Returned]
  /\ filter (fun e => is_put e || is_local_handling e)
            (trace (snd (Upload.ii_push_record
                           upload_ii
                           (upload_plugin Upload.UPLOAD_FILES Upload.DELETE_FILES)
                           (Some (record_of "/data/out/x.csv"))
                           env_put_fails world)))
     = [EvSftp (session 0) (c_put "/data/out/x.csv") Failed;
        EvOs (o_remove "/data/out/x.csv") Returned]
  /\ files world "/data/out/x.csv" = Some (File payload)
  /\ files (snd (Upload.ii_push_record
                   upload_ii
                   (upload_plugin Upload.UPLOAD_FILES Upload.DELETE_FILES)
                   (Some (record_of "/data/out/x.csv"))
                   env_put_fails world))
           "/data/out/x.csv"
     = None.
Proof. repeat split; vm_compute; reflexivity. Qed.

(** C2.  In blob mode a failed download can end the batch.  The listing
    holds [a.bin] and [b.bin]; the [get] of [a.bin] raises an [IOError]
    before its local file exists; the error is reported, and the read of
    the temporary file then raises out of [pi_push_all_records]: [b.bin]
    is never asked for, no record is pushed, the session is not closed.
    With the same server, the path mode goes on to [b.bin]. *)
Theorem failed_blob_download_aborts_batch :
  fst (Download.pi_push_all_records
         (download_plugin Download.DOWNLOAD_TO_BLOB Download.KEEP_FILES false)
         0 env_first_get_fails world)
  = Raised (Os.not_found "/tmp/engine_12.tmp")
  /\ filter (fun e => is_get e || is_push_record e || is_close e)
            (trace (snd (Download.pi_push_all_records
                           (download_plugin Download.DOWNLOAD_TO_BLOB
                                            Download.KEEP_FILES false)
                           0 env_first_get_fails world)))
     = [EvSftp (session 1) (c_get "a.bin" "/tmp/engine_12.tmp") Failed]
  /\ filter (fun e => is_get e || is_close e)
            (trace (snd (Download.pi_push_all_records
                           (download_plugin Download.DOWNLOAD_TO_PATH
                                            Download.KEEP_FILES false)
                           0 env_first_get_fails world)))
     = [EvSftp (session 1) (c_get "a.bin" "/data/in/a.bin") Failed;
        EvSftp (session 1) (c_get "b.bin" "/data/in/b.bin") Returned;
        EvSftp (session 1) c_close Returned].
Proof. repeat split; vm_compute; reflexivity. Qed.


(** C7.  The upload engine changes into the remote path without checking
    that it is a directory: its [_init_sftp] never calls [isdir].  On a
    server where the remote path is a regular file, the download engine
    reports that the path is not a directory, makes no [chdir] and
    answers [False]; the upload engine calls [chdir], whose [SFTPError]
    is no [IOError], so that the exception leaves [_init_sftp] without
    any error message. *)
Theorem upload_skips_directory_check :
  (forall self, bounded is_isdir 0 (Upload._init_sftp self))
  /\ fst (Download._init_sftp
            (download_plugin Download.DOWNLOAD_TO_BLOB Download.KEEP_FILES true)
            env_path_is_file world) = Ok None
  /\ filter (fun e => is_error e || is_isdir e || is_chdir e)
            (trace (snd (Download._init_sftp
                           (download_plugin Download.DOWNLOAD_TO_BLOB
                                            Download.KEEP_FILES true)
                           env_path_is_file world)))
     = [EvSftp (session 0) (c_isdir (Some "/inbox/")) Returned;
        EvMessage EMT_error
                  ("Remote path " +:+ dq +:+ "/inbox/" +:+ dq +:+ " is not a directory.")]
  /\ fst (Upload._init_sftp (upload_plugin Upload.UPLOAD_FILES Upload.KEEP_FILES)
                            env_path_is_file world)
     = Raised not_a_directory
  /\ filter (fun e => is_error e || is_isdir e || is_chdir e)
            (trace (snd (Upload._init_sftp
                           (upload_plugin Upload.UPLOAD_FILES Upload.KEEP_FILES)
                           env_path_is_file world)))
     = [EvSftp (session 0) (c_chdir (Some "/inbox/")) Failed].
Proof.
  split.
  - intros self. unfold Upload._init_sftp, Connect._init_sftp_connect. quiet.
  - repeat split; vm_compute; reflexivity.
Qed.


End Runs.

(* ===================================================================== *)
(** ** The theorems with hypotheses, at concrete inputs *)
(* ===================================================================== *)

Section Instances.
Import Scenario.

(** The settings extractor on a sample configuration. *)
Lemma prep_xmltext_spec_witness :
  Et._prep_xmltext sample_config "Hostname" = Ok (Some "sftp.example.org")
  /\ Et._prep_xmltext sample_config "Username" = Ok None
  /\ Et._prep_xmltext sample_config "Password" = Ok None
  /\ Et._prep_xmltext sample_config "KeyfilePath" = Ok None.
Proof.
  split; [|split; [|split]].
  - destruct (prep_xmltext_spec sample_config "Hostname") as (_ & _ & _ & H & _).
    exact (proj1 (H (Et.Elem "Hostname" (Some "  sftp.example.org ") [])
                    "  sftp.example.org " eq_refl eq_refl eq_refl)).
  - destruct (prep_xmltext_spec sample_config "Username") as (_ & _ & H & _).
    exact (H (Et.Elem "Username" (Some "   ") []) "   " eq_refl eq_refl eq_refl).
  - destruct (prep_xmltext_spec sample_config "Password") as (_ & H & _).
    exact (H (Et.Elem "Password" None []) eq_refl eq_refl).
  - destruct (prep_xmltext_spec sample_config "KeyfilePath") as (H & _).
    exact (H eq_refl).
Defined.

(** Both engines connecting to a server that the known-hosts file does
    not list. *)
Lemma unknown_host_two_warnings_one_record_witness :
  (trusted_on_first_use
     (Some "sftp.example.org") world_unknown_host (session 1)
     (snd (Download._init_sftp
             (download_plugin Download.DOWNLOAD_TO_BLOB Download.KEEP_FILES false)
             env_ok world_unknown_host))
   /\ exists evs,
       trace (snd (Download._init_sftp
                     (download_plugin Download.DOWNLOAD_TO_BLOB Download.KEEP_FILES false)
                     env_ok world_unknown_host))
       = trace world_unknown_host ++ evs
       /\ count is_warning evs = 2)
  /\ (trusted_on_first_use
        (Some "sftp.example.org") world_unknown_host (session 1)
        (snd (Upload._init_sftp (upload_plugin Upload.UPLOAD_BLOBS Upload.KEEP_FILES)
                                env_ok world_unknown_host))
      /\ exists evs,
          trace (snd (Upload._init_sftp (upload_plugin Upload.UPLOAD_BLOBS Upload.KEEP_FILES)
                                        env_ok world_unknown_host))
          = trace world_unknown_host ++ evs
          /\ count is_warning evs = 2).
Proof.
  split.
  - apply (proj1 unknown_host_two_warnings_one_record
                 (download_plugin Download.DOWNLOAD_TO_BLOB Download.KEEP_FILES false)
                 env_ok world_unknown_host (session 1)).
    + vm_compute. reflexivity.
    + vm_compute. reflexivity.
  - apply (proj2 unknown_host_two_warnings_one_record
                 (upload_plugin Upload.UPLOAD_BLOBS Upload.KEEP_FILES)
                 env_ok world_unknown_host (session 1)).
    + vm_compute. reflexivity.
    + vm_compute. reflexivity.
Defined.

(** A listing entry and a streamed name that are directories. *)
Lemma non_file_is_skipped_with_warning_witness :
  Download.push_item (download_plugin Download.DOWNLOAD_TO_PATH Download.KEEP_FILES false)
                     (session 1) [] blob_record_info [] 1 0
                     (Download.mkEntry "sub" 4096 "0" "0" "755" EmptyString EmptyString (Some false)
                                       (Some true))
                     env_directory world
  = (Ok tt,
     add_events world
       [EvUpdateProgress 0 1;
        EvMessage EMT_warning (dq +:+ "/inbox/sub" +:+ dq +:+ " is not a file. Skipped.")])
  /\ bounded is_get 0
             (Download.push_items
                (Download.push_item
                   (download_plugin Download.DOWNLOAD_TO_PATH Download.KEEP_FILES false)
                   (session 1) [] blob_record_info [] 1)
                0
                [Download.mkEntry "sub" 4096 "0" "0" "755" EmptyString EmptyString (Some false) (Some true)])
  /\ exists self' evs,
      Download.ii_push_record
        (download_ii Download.DOWNLOAD_TO_PATH Download.KEEP_FILES)
        (download_plugin Download.DOWNLOAD_TO_PATH Download.KEEP_FILES true)
        (Some (record_of "sub")) env_directory world
      = (Ok (true, self'),
         add_events
           (snd (Download._init_sftp
                   (download_plugin Download.DOWNLOAD_TO_PATH Download.KEEP_FILES true)
                   env_directory world))
           evs)
      /\ Download.sftp_conn self' = Download.slot_Conn (session 0)
      /\ Download.file_counter self'
         = Download.file_counter (download_ii Download.DOWNLOAD_TO_PATH Download.KEEP_FILES)
      /\ count is_warning evs = 1
      /\ count is_error evs = 0
      /\ count is_get evs = 0
      /\ count is_push_record evs = 0.
Proof.
  destruct non_file_is_skipped_with_warning as (H1 & H2 & H3).
  split; [|split].
  - apply H1; [reflexivity|discriminate].
  - apply (H2 (download_plugin Download.DOWNLOAD_TO_PATH Download.KEEP_FILES false)).
    discriminate.
  - apply H3 with (fld := name_field) (w1 := world).
    + discriminate.
    + vm_compute. reflexivity.
    + vm_compute. reflexivity.
    + discriminate.
    + right. split; [intros c; discriminate|vm_compute; reflexivity].
    + intros t. reflexivity.
Defined.

(** A local file and a blob whose names exist on the server. *)
Lemma existing_remote_file_is_not_overwritten_witness :
  (exists self' evs,
      Upload.ii_push_record upload_ii (upload_plugin Upload.UPLOAD_FILES Upload.KEEP_FILES)
                            (Some (record_of "/data/out/x.csv")) env_ok world
      = (Ok (true, self'),
         add_events
           (snd (Upload._init_sftp (upload_plugin Upload.UPLOAD_FILES Upload.KEEP_FILES)
                                   env_ok world))
           evs)
      /\ Upload.file_counter self' = Upload.file_counter upload_ii
      /\ count is_warning evs = 1
      /\ count is_error evs = 0
      /\ count is_put evs = 0
      /\ count is_local_handling evs = 0)
  /\ (exists self' evs,
      Upload.ii_push_record upload_ii (upload_plugin Upload.UPLOAD_BLOBS Upload.KEEP_FILES)
                            (Some (record_of "x.csv")) env_ok world
      = (Ok (true, self'),
         add_events
           (snd (Upload._init_sftp (upload_plugin Upload.UPLOAD_BLOBS Upload.KEEP_FILES)
                                   env_ok world))
           evs)
      /\ Upload.file_counter self' = Upload.file_counter upload_ii
      /\ count is_warning evs = 1
      /\ count is_error evs = 0
      /\ count is_put evs = 0
      /\ count is_local_handling evs = 0)
  /\ (exists evs,
      trace (snd (Upload.ii_push_record
                    upload_ii (upload_plugin Upload.UPLOAD_FILES Upload.DELETE_FILES)
                    (Some (record_of "/data/out/missing.csv")) env_ok world))
      = trace (snd (Upload._init_sftp
                      (upload_plugin Upload.UPLOAD_FILES Upload.DELETE_FILES)
                      env_ok world))
        ++ evs
      /\ count is_put evs = 0).
Proof.
  destruct existing_remote_file_is_not_overwritten as (H1 & H2 & H3).
  split; [|split].
  - apply H1 with (fld := name_field) (conn := session 0) (w1 := world) (b := payload).
    + discriminate.
    + vm_compute. reflexivity.
    + reflexivity.
    + right. split; [intros c; discriminate|vm_compute; reflexivity].
    + reflexivity.
    + vm_compute. reflexivity.
    + intros t. reflexivity.
    + reflexivity.
  - apply H2 with (fld := name_field) (conn := session 0) (w1 := world).
    + discriminate.
    + vm_compute. reflexivity.
    + reflexivity.
    + right. split; [intros c; discriminate|vm_compute; reflexivity].
    + reflexivity.
    + discriminate.
    + intros t. reflexivity.
    + reflexivity.
  - apply H3 with (fld := name_field) (conn := session 0) (w1 := world).
    + discriminate.
    + vm_compute. reflexivity.
    + reflexivity.
    + right. split; [intros c; discriminate|vm_compute; reflexivity].
    + intros t n. reflexivity.
    + reflexivity.
Defined.



End Instances.

(* ===================================================================== *)
(** ** [validate_settings] reports the checks that fail *)
(* ===================================================================== *)

Module ValidityFacts.
Import Validity.

Lemma files_add_events w evs : files (add_events w evs) = files w.
Proof. revert w. induction evs as [|e evs IH]; intros w; simpl; [reflexivity|now rewrite IH]. Qed.


Lemma add_events_app w a b : add_events w (a ++ b) = add_events (add_events w a) b.
Proof. unfold add_events. apply fold_left_app. Qed.

Lemma files_reported silent w l : files (reported silent w l) = files w.
Proof. unfold reported. destruct silent; [reflexivity|apply files_add_events]. Qed.

Lemma reported_app silent w a b :
  reported silent w (a ++ b) = reported silent (reported silent w a) b.
Proof.
  unfold reported. destruct silent; [reflexivity|].
  now rewrite map_app, add_events_app.
Qed.

Lemma is_nil_app {A} (a b : list A) : is_nil (a ++ b) = is_nil a && is_nil b.
Proof. now destruct a. Qed.

Section Checks.
Variable silent : bool.

Lemma checks_ret vr : checks silent vr (fun _ => []) (ret vr).
Proof.
  intros env w. unfold ret, reported. simpl. rewrite andb_true_r.
  now destruct silent.
Qed.

Lemma checks_invalid_dl vr text :
  checks silent vr (fun _ => [text]) (Download.invalid silent text).
Proof.
  intros env w. unfold Download.invalid, reported. simpl. rewrite andb_false_r.
  now destruct silent.
Qed.

Lemma checks_invalid_up vr text :
  checks silent vr (fun _ => [text]) (Upload.invalid silent text).
Proof.
  intros env w. unfold Upload.invalid, reported. simpl. rewrite andb_false_r.
  now destruct silent.
Qed.

Lemma checks_if vr (c : bool) f1 f2 m1 m2 :
  checks silent vr f1 m1 -> checks silent vr f2 m2 ->
  checks silent vr (fun fs => if c then f1 fs else f2 fs) (if c then m1 else m2).
Proof. now destruct c. Qed.

Lemma checks_bind vr f1 f2 m (k : bool -> M bool) :
  checks silent vr f1 m -> (forall vr', checks silent vr' f2 (k vr')) ->
  checks silent vr (fun fs => f1 fs ++ f2 fs) (bind m k).
Proof.
  intros Hm Hk env w. unfold bind. rewrite Hm, Hk, files_reported.
  now rewrite is_nil_app, reported_app, andb_assoc.
Qed.

Lemma checks_peek vr (g : (string -> option Node) -> bool) f (k : bool -> M bool) :
  (forall b, checks silent vr (f b) (k b)) ->
  checks silent vr (fun fs => f (g fs) fs) (bind (peek (fun w => g (files w))) k).
Proof. intros Hk env w. unfold bind, peek. apply Hk. Qed.

Lemma checks_ext vr f g m :
  checks silent vr f m -> (forall fs, f fs = g fs) -> checks silent vr g m.
Proof. intros H E env w. rewrite <- E. apply H. Qed.

(** A path check of either engine. *)
Lemma checks_path vr p (kind : option Node -> bool) missing wrong_kind inv :
  (forall vr' t, checks silent vr' (fun _ => [t]) (inv t)) ->
  checks silent vr
         (fun fs => path_check fs p kind missing wrong_kind)
         (bind (peek (fun w => Os.is_some (files w p)))
               (fun ex =>
                  if negb ex then inv missing
                  else bind (peek (fun w => kind (files w p)))
                            (fun ok => if negb ok then inv wrong_kind else ret vr))).
Proof.
  intros Hinv env w. unfold bind, peek, path_check.
  destruct (Os.is_some (files w p)); simpl; [|apply Hinv].
  destruct (kind (files w p)); simpl; [apply checks_ret|apply Hinv].
Qed.

Lemma dl_validate_checks self :
  checks silent true (download_failures self) (Download.validate_settings self silent).
Proof.
  destruct self as [[h p u pw kf kp rp mp] mode [lp bf] fh inf io ori].
  unfold Download.validate_settings, download_failures, keyfile_check, hostname_check,
    failing, Os.path_exists, Os.path_isfile, Os.path_isdir.
  cbv beta iota zeta delta
      [Download.sftp_settings Download.tool_mode Download.output_settings
       Download.file_handling Download.incoming_field Download.input_optional
       Download.hostname Download.port Download.username Download.remote_path
       Download.move_path Download.key_filepath Download.local_path].
  repeat (apply checks_bind; [|intro]).
  all: try apply checks_ret.
  all: try (apply checks_if; [apply checks_invalid_dl|apply checks_ret]).
  - apply checks_if; [apply checks_invalid_dl|].
    apply checks_if; [apply checks_invalid_dl|apply checks_ret].
  - destruct kf as [kf|]; [|apply checks_ret].
    apply checks_if; [|apply checks_ret].
    apply checks_path. intros. apply checks_invalid_dl.
  - destruct lp as [lp|]; [|apply checks_ret].
    apply checks_if; [|apply checks_ret].
    apply checks_path. intros. apply checks_invalid_dl.
  - eapply checks_ext; [|intros fs; apply app_nil_r].
    apply checks_bind; [|intro; apply checks_ret].
    apply checks_if; [apply checks_invalid_dl|apply checks_ret].
Qed.

Lemma up_validate_checks self :
  checks silent true (upload_failures self) (Upload.validate_settings self silent).
Proof.
  destruct self as [[h p u pw kf kp rp] mode fh mp inf bf ov].
  unfold Upload.validate_settings, upload_failures, keyfile_check, hostname_check,
    failing, Os.path_exists, Os.path_isfile, Os.path_isdir.
  cbv beta iota zeta delta
      [Upload.sftp_settings Upload.upload_mode Upload.file_handling Upload.move_path
       Upload.incoming_field Upload.blob_field
       Upload.hostname Upload.port Upload.username Upload.remote_path
       Upload.key_filepath].
  repeat (apply checks_bind; [|intro]).
  all: try apply checks_ret.
  all: try (apply checks_if; [apply checks_invalid_up|apply checks_ret]).
  - apply checks_if; [apply checks_invalid_up|].
    apply checks_if; [apply checks_invalid_up|apply checks_ret].
  - destruct kf as [kf|]; [|apply checks_ret].
    apply checks_if; [|apply checks_ret].
    apply checks_path. intros. apply checks_invalid_up.
  - eapply checks_ext; [|intros fs; apply app_nil_r].
    apply checks_bind; [|intro; apply checks_ret].
    destruct mp as [mp|]; [|apply checks_ret].
    apply checks_if; [|apply checks_ret].
    apply checks_path. intros. apply checks_invalid_up.
Qed.

End Checks.

End ValidityFacts.

(* ===================================================================== *)
(** ** Validation and the runs it guards *)
(* ===================================================================== *)

Section Validation.
Import Validity.

(** X1.  The download engine's [validate_settings] never raises.  It
    answers [True] exactly when none of its checks fails; unless it is
    silent it reports the text of every failing check as an error
    message, in the order of the checks, and nothing else; when silent it
    leaves no trace at all. *)
Theorem download_validation_reports_failed_checks :
  forall (self : Download.AyxPlugin) (silent : bool) (env : Env) (w : World),
    Download.validate_settings self silent env w
    = (Ok (is_nil (download_failures self (files w))),
       reported silent w (download_failures self (files w))).
Proof. intros. apply (ValidityFacts.dl_validate_checks silent self env w). Qed.

(** X2.  The same for the upload engine's [validate_settings] and its
    own list of checks. *)
Theorem upload_validation_reports_failed_checks :
  forall (self : Upload.AyxPlugin) (silent : bool) (env : Env) (w : World),
    Upload.validate_settings self silent env w
    = (Ok (is_nil (upload_failures self (files w))),
       reported silent w (upload_failures self (files w))).
Proof. intros. apply (ValidityFacts.up_validate_checks silent self env w). Qed.

(** X3.  In both engines the silent and the reporting validation reach
    the same verdict; the silent one changes nothing, the reporting one
    only appends error messages, and its verdict is [False] exactly when
    it has appended at least one. *)
Theorem validation_verdict_matches_messages :
  (forall (self : Download.AyxPlugin) (env : Env) (w : World),
      exists b evs,
        Download.validate_settings self true env w = (Ok b, w)
        /\ Download.validate_settings self false env w = (Ok b, add_events w evs)
        /\ count is_error evs = length evs
        /\ (b = false <-> 1 <= length evs))
  /\ (forall (self : Upload.AyxPlugin) (env : Env) (w : World),
         exists b evs,
           Upload.validate_settings self true env w = (Ok b, w)
           /\ Upload.validate_settings self false env w = (Ok b, add_events w evs)
           /\ count is_error evs = length evs
           /\ (b = false <-> 1 <= length evs)).
Proof.
  assert (C : forall l, count is_error (map (EvMessage EMT_error) l)
                        = length (map (EvMessage EMT_error) l)).
  { induction l as [|a l IH]; [reflexivity|].
    unfold count in *. simpl. now rewrite IH. }
  assert (N : forall l : list string,
             is_nil l = false <-> 1 <= length (map (EvMessage EMT_error) l)).
  { intros [|a l]; simpl; split; intros H; try reflexivity; try discriminate; lia. }
  split; intros self env w.
  - exists (is_nil (download_failures self (files w))),
           (map (EvMessage EMT_error) (download_failures self (files w))).
    rewrite !(ValidityFacts.dl_validate_checks _ self env w).
    repeat split; [apply C|apply N|apply N].
  - exists (is_nil (upload_failures self (files w))),
           (map (EvMessage EMT_error) (upload_failures self (files w))).
    rewrite !(ValidityFacts.up_validate_checks _ self env w).
    repeat split; [apply C|apply N|apply N].
Qed.

(** X4.  A static run on settings that fail validation answers [False]
    and does nothing else: no message, no connection attempt, no call
    at all. *)
Theorem static_run_refuses_invalid_settings_silently :
  forall (self : Download.AyxPlugin) (n : Z) (env : Env) (w : World),
    UpdateOnly env <> "True" ->
    download_failures self (files w) <> [] ->
    Download.pi_push_all_records self n env w = (Ok (false, self), w).
Proof.
  intros self n env w U F.
  unfold Download.pi_push_all_records, Sdk.get_init_var_UpdateOnly.
  rewrite Rules.run_bind. unfold ask.
  apply String.eqb_neq in U. rewrite U.
  rewrite Rules.run_bind, (ValidityFacts.dl_validate_checks true self env w).
  destruct (download_failures self (files w)); [congruence|reflexivity].
Qed.

(** X5.  When a record arrives while the settings fail validation,
    [ii_push_record] of either engine reports the failing checks, answers
    [False] and leaves the interface as it was; it makes no connection
    attempt and no other call. *)
Theorem streamed_record_refused_on_invalid_settings :
  (forall (self : Download.IncomingInterface) (p : Download.AyxPlugin) (r : InRecord)
          (env : Env) (w : World),
      UpdateOnly env <> "True" ->
      download_failures p (files w) <> [] ->
      Download.ii_push_record self p (Some r) env w
      = (Ok (false, self),
         add_events w (map (EvMessage EMT_error) (download_failures p (files w)))))
  /\ (forall (self : Upload.IncomingInterface) (p : Upload.AyxPlugin) (r : InRecord)
             (env : Env) (w : World),
         UpdateOnly env <> "True" ->
         upload_failures p (files w) <> [] ->
         Upload.ii_push_record self p (Some r) env w
         = (Ok (false, self),
            add_events w (map (EvMessage EMT_error) (upload_failures p (files w))))).
Proof.
  split; intros self p r env w U F; apply String.eqb_neq in U.
  - unfold Download.ii_push_record, Sdk.get_init_var_UpdateOnly.
    rewrite Rules.run_bind. unfold ask. rewrite U.
    rewrite Rules.run_bind, (ValidityFacts.dl_validate_checks false p env w).
    destruct (download_failures p (files w)); [congruence|reflexivity].
  - unfold Upload.ii_push_record, Sdk.get_init_var_UpdateOnly.
    rewrite Rules.run_bind. unfold ask. rewrite U.
    rewrite Rules.run_bind, (ValidityFacts.up_validate_checks false p env w).
    destruct (upload_failures p (files w)); [congruence|reflexivity].
Qed.

(** X6.  When the engine only asks for metadata ([UpdateOnly] is
    ['True']), nothing is transferred: the static run answers [False]
    after at most re-announcing the output fields, and [ii_push_record]
    of either engine answers [False] without any call. *)
Theorem update_only_runs_transfer_nothing :
  forall (env : Env) (w : World),
    UpdateOnly env = "True" ->
    (forall (self : Download.AyxPlugin) (n : Z),
        Download.pi_push_all_records self n env w
        = (Ok (false, self),
           match Download.output_recordinfo self with
           | Some ri => add_event w (EvAnchorInit (map fd_name (ri_fields ri)))
           | None => w
           end))
    /\ (forall (self : Download.IncomingInterface) (p : Download.AyxPlugin)
               (r : option InRecord),
           Download.ii_push_record self p r env w = (Ok (false, self), w))
    /\ (forall (self : Upload.IncomingInterface) (p : Upload.AyxPlugin)
               (r : option InRecord),
           Upload.ii_push_record self p r env w = (Ok (false, self), w)).
Proof.
  intros env w U. repeat split.
  - intros self n.
    unfold Download.pi_push_all_records, Sdk.get_init_var_UpdateOnly.
    rewrite Rules.run_bind. unfold ask. rewrite U. simpl.
    now destruct (Download.output_recordinfo self).
  - intros self p [r|]; [|reflexivity].
    unfold Download.ii_push_record, Sdk.get_init_var_UpdateOnly.
    rewrite Rules.run_bind. unfold ask. now rewrite U.
  - intros self p [r|]; [|reflexivity].
    unfold Upload.ii_push_record, Sdk.get_init_var_UpdateOnly.
    rewrite Rules.run_bind. unfold ask. now rewrite U.
Qed.

End Validation.

(* ===================================================================== *)
(** ** Which calls a whole run can make *)
(* ===================================================================== *)

Module RunFrames.

(** The two loops of [pi_push_all_records]. *)
Lemma collect_files_quiet f conn l :
  (forall p, f (EvSftp conn (c_isfile p) Returned) = false) ->
  (forall p, f (EvSftp conn (c_isdir p) Returned) = false) ->
  bounded f 0 (Download.collect_files conn l).
Proof.
  intros Hf Hd. induction l as [|a l IH]; cbn [Download.collect_files].
  - apply Rules.bounded_ret.
  - apply Rules.quiet_bind.
    + unfold Download.file_entry.
      repeat first [ apply Rules.quiet_total; first [apply Hf|apply Hd] | quiet_step ].
    + intro. apply Rules.quiet_bind; [exact IH|intro; apply Rules.bounded_ret].
Qed.

Lemma push_items_quiet f body l :
  (forall i x, bounded f 0 (body i x)) ->
  forall i, bounded f 0 (Download.push_items body i l).
Proof.
  intros H. induction l as [|a l IH]; intros i; cbn [Download.push_items].
  - apply Rules.bounded_ret.
  - apply Rules.quiet_bind; [apply H|intro; apply IH].
Qed.

(** The loop of the streaming mode. *)
Lemma dl_feed_quiet f p :
  (forall self r, bounded f 0 (Download.ii_push_record self p r)) ->
  forall records self, bounded f 0 (Download.feed self p records).
Proof.
  intros H. induction records as [|r l IH]; intros self; cbn [Download.feed].
  - apply Rules.bounded_ret.
  - apply Rules.quiet_bind; [apply H|].
    intros out. destruct (fst out); [apply IH|apply Rules.bounded_ret].
Qed.

Lemma up_feed_quiet f p :
  (forall self r, bounded f 0 (Upload.ii_push_record self p r)) ->
  forall records self, bounded f 0 (Upload.feed self p records).
Proof.
  intros H. induction records as [|r l IH]; intros self; cbn [Upload.feed].
  - apply Rules.bounded_ret.
  - apply Rules.quiet_bind; [apply H|].
    intros out. destruct (fst out); [apply IH|apply Rules.bounded_ret].
Qed.

End RunFrames.

Ltac unfold_download :=
  unfold Download.pi_push_all_records, Download.run_streaming, Download.ii_init,
    Download.ii_close, Download.ii_push_record, Download.push_current,
    Download._init_sftp, Connect._init_sftp_connect, Download.build_ayx_output,
    Download.push_item, Download._process_file, Download.handle_downloaded.

Ltac unfold_upload :=
  unfold Upload.run_streaming, Upload.ii_init, Upload.ii_close, Upload.ii_push_record,
    Upload.push_current, Upload.upload_file, Upload.upload_blob, Upload.handle_uploaded,
    Upload._init_sftp, Connect._init_sftp_connect.

Ltac run_quiet :=
  repeat first
    [ apply DownloadFrames.dl_validate_settings_messages; reflexivity
    | apply UploadStream.up_validate_settings_messages; reflexivity
    | apply RunFrames.collect_files_quiet; intros; reflexivity
    | apply RunFrames.push_items_quiet; intros
    | apply RunFrames.dl_feed_quiet; intros
    | apply RunFrames.up_feed_quiet; intros
    | quiet_step
    | progress unfold_download
    | progress unfold_upload ].

Section Directions.

(** X7.  The download engine never writes to the server and never
    deletes or moves a local file: neither its static run nor its
    streaming run calls [put] or [putfo], [os.remove] or [os.rename]. *)
Theorem download_engine_never_uploads :
  forall (self : Download.AyxPlugin) (n : Z) (ri : RecordInfo) (records : list InRecord),
    bounded is_put 0 (Download.pi_push_all_records self n)
    /\ bounded is_local_handling 0 (Download.pi_push_all_records self n)
    /\ bounded is_put 0 (Download.run_streaming self ri records)
    /\ bounded is_local_handling 0 (Download.run_streaming self ri records).
Proof.
  intros. repeat split; unfold_download; run_quiet.
Qed.

(** X8.  The upload engine never reads from the server and never deletes
    or renames anything on it: its run calls neither [get] nor the
    remote [remove] or [rename]. *)
Theorem upload_engine_never_downloads :
  forall (self : Upload.AyxPlugin) (ri : RecordInfo) (records : list InRecord),
    bounded is_get 0 (Upload.run_streaming self ri records)
    /\ bounded is_remote_handling 0 (Upload.run_streaming self ri records).
Proof.
  intros. repeat split; unfold_upload; run_quiet.
Qed.

End Directions.

Module HandlingFrames.

Lemma handle_downloaded_untouched self c f :
  Download.file_handling self <> Download.DELETE_FILES ->
  Download.file_handling self <> Download.MOVE_FILES ->
  bounded is_remote_handling 0 (Download.handle_downloaded self c f).
Proof.
  intros D M. unfold Download.handle_downloaded.
  destruct (Download.file_handling self); try congruence; apply Rules.bounded_ret.
Qed.

Lemma process_file_untouched self c f fd ri rc :
  Download.file_handling self <> Download.DELETE_FILES ->
  Download.file_handling self <> Download.MOVE_FILES ->
  bounded is_remote_handling 0 (Download._process_file self c f fd ri rc).
Proof.
  intros D M. unfold Download._process_file.
  repeat first [ apply handle_downloaded_untouched; assumption | quiet_step ].
Qed.

Lemma dl_push_record_untouched self p r :
  Download.file_handling p <> Download.DELETE_FILES ->
  Download.file_handling p <> Download.MOVE_FILES ->
  bounded is_remote_handling 0 (Download.ii_push_record self p r).
Proof.
  intros D M.
  unfold Download.ii_push_record, Download.push_current, Download._init_sftp,
    Connect._init_sftp_connect.
  repeat first [ apply process_file_untouched; assumption
               | apply DownloadFrames.dl_validate_settings_messages; reflexivity
               | quiet_step ].
Qed.

Lemma dl_ii_init_same_handling self p ri :
  returns (Download.ii_init self p ri)
          (fun out => Download.file_handling (snd out) = Download.file_handling p).
Proof.
  unfold Download.ii_init, Download.build_ayx_output.
  repeat returns_step; reflexivity.
Qed.

Lemma handle_uploaded_untouched p a b :
  Upload.file_handling p <> Upload.DELETE_FILES ->
  Upload.file_handling p <> Upload.MOVE_FILES ->
  bounded is_local_handling 0 (Upload.handle_uploaded p a b).
Proof.
  intros D M. unfold Upload.handle_uploaded.
  destruct (Upload.file_handling p); try congruence; apply Rules.bounded_ret.
Qed.

Lemma up_push_record_untouched self p r :
  Upload.upload_mode p = Upload.UPLOAD_BLOBS
  \/ (Upload.file_handling p <> Upload.DELETE_FILES
      /\ Upload.file_handling p <> Upload.MOVE_FILES) ->
  bounded is_local_handling 0 (Upload.ii_push_record self p r).
Proof.
  intros H.
  unfold Upload.ii_push_record, Upload.push_current, Upload._init_sftp,
    Connect._init_sftp_connect.
  destruct H as [B|[D M]].
  - rewrite B. unfold Upload.upload_blob.
    repeat first [ apply UploadStream.up_validate_settings_messages; reflexivity
                 | quiet_step ].
  - unfold Upload.upload_file, Upload.upload_blob.
    repeat first [ apply handle_uploaded_untouched; assumption
                 | apply UploadStream.up_validate_settings_messages; reflexivity
                 | quiet_step ].
Qed.

End HandlingFrames.

Section Handling.

(** X9.  Unless the file handling is [DELETE_FILES] or [MOVE_FILES], a
    run of the download engine leaves the remote files where they are:
    it calls neither [remove] nor [rename] on the server, in the static
    and in the streaming mode. *)
Theorem download_keeps_remote_files :
  forall (self : Download.AyxPlugin) (n : Z) (ri : RecordInfo) (records : list InRecord),
    Download.file_handling self <> Download.DELETE_FILES ->
    Download.file_handling self <> Download.MOVE_FILES ->
    bounded is_remote_handling 0 (Download.pi_push_all_records self n)
    /\ bounded is_remote_handling 0 (Download.run_streaming self ri records).
Proof.
  intros self n ri records D M. split.
  - unfold Download.pi_push_all_records, Download._init_sftp, Connect._init_sftp_connect,
      Download.build_ayx_output, Download.push_item.
    repeat first
      [ apply HandlingFrames.process_file_untouched; [exact D|exact M]
      | apply DownloadFrames.dl_validate_settings_messages; reflexivity
      | apply RunFrames.collect_files_quiet; intros; reflexivity
      | apply RunFrames.push_items_quiet; intros
      | quiet_step ].
  - unfold Download.run_streaming.
    apply (Rules.bounded_bind_returns
             _ (fun out => Download.file_handling (snd out) = Download.file_handling self)
             0 0).
    + unfold Download.ii_init, Download.build_ayx_output. quiet.
    + apply HandlingFrames.dl_ii_init_same_handling.
    + intros [[ok ii] p] E. cbn [snd] in E.
      apply Rules.quiet_bind.
      * destruct ok; [|apply Rules.bounded_ret].
        apply RunFrames.dl_feed_quiet. intros.
        apply HandlingFrames.dl_push_record_untouched; congruence.
      * intros. unfold Download.ii_close. quiet.
Qed.

(** X10.  The upload engine deletes or moves a local file only when it
    uploads files with the handling [DELETE_FILES] or [MOVE_FILES]: in
    blob mode, and with any other handling, a run calls neither
    [os.remove] nor [os.rename]. *)
Theorem upload_keeps_local_files :
  forall (self : Upload.AyxPlugin) (ri : RecordInfo) (records : list InRecord),
    Upload.upload_mode self = Upload.UPLOAD_BLOBS
    \/ (Upload.file_handling self <> Upload.DELETE_FILES
        /\ Upload.file_handling self <> Upload.MOVE_FILES) ->
    bounded is_local_handling 0 (Upload.run_streaming self ri records).
Proof.
  intros self ri records H. unfold Upload.run_streaming.
  apply Rules.quiet_bind; [unfold Upload.ii_init; quiet|intros out].
  apply Rules.quiet_bind; [|intros; unfold Upload.ii_close; quiet].
  destruct (fst out); [|apply Rules.bounded_ret].
  apply RunFrames.up_feed_quiet. intros.
  apply HandlingFrames.up_push_record_untouched. exact H.
Qed.

End Handling.

(* ===================================================================== *)
(** ** What the hostname pattern lets through *)
(* ===================================================================== *)

Module HostnameFacts.
Import Hostname Validity.

Lemma label_chars l : label_ok l = true -> Forall (fun c => hostname_char c = true) l.
Proof.
  unfold label_ok. destruct l as [|c r]; [discriminate|].
  intros H. apply andb_prop in H as [_ H].
  rewrite forallb_forall in H. apply Forall_forall. intros x Hx.
  specialize (H x Hx). unfold hostname_char. now rewrite H.
Qed.

Lemma label_head l d : label_ok l = true -> is_alnum (hd d l) = true.
Proof.
  unfold label_ok. destruct l as [|c r]; [discriminate|].
  intros H. apply andb_prop in H as [H _]. apply andb_prop in H as [H _]. exact H.
Qed.

Lemma label_nonempty l : label_ok l = true -> l <> [].
Proof. destruct l; [discriminate|discriminate]. Qed.

Lemma last_indep {A} (l : list A) d d' : l <> [] -> last l d = last l d'.
Proof.
  induction l as [|a l IH]; [congruence|]. intros _.
  destruct l as [|b l]; [reflexivity|]. simpl in *. apply IH. discriminate.
Qed.

Lemma last_app_r {A} (a l : list A) d : l <> [] -> last (a ++ l) d = last l d.
Proof.
  intros N. induction a as [|x a IH]; [reflexivity|].
  simpl. rewrite IH. destruct (a ++ l) eqn:E; [|reflexivity].
  apply app_eq_nil in E as [_ E]. congruence.
Qed.

Lemma label_last l d : label_ok l = true -> is_alnum (last l d) = true.
Proof.
  intros H. pose proof (label_nonempty _ H) as N.
  unfold label_ok in H. destruct l as [|c r]; [discriminate|].
  apply andb_prop in H as [H _]. apply andb_prop in H as [_ H].
  now rewrite (last_indep _ d c N).
Qed.

Lemma split_dots_chars s :
  forall acc, forallb label_ok (split_dots acc s) = true ->
              Forall (fun c => hostname_char c = true) (rev acc ++ s).
Proof.
  induction s as [|c s IH]; intros acc H; simpl in H.
  - apply andb_prop in H as [H _]. rewrite app_nil_r. now apply label_chars.
  - destruct (is_dot c) eqn:D.
    + simpl in H. apply andb_prop in H as [H1 H2].
      apply Forall_app. split; [now apply label_chars|].
      constructor.
      * unfold hostname_char. rewrite D. now rewrite orb_true_r.
      * apply (IH [] H2).
    + specialize (IH (c :: acc) H). simpl in IH. now rewrite <- app_assoc in IH.
Qed.

Lemma split_dots_head s d :
  forall acc, forallb label_ok (split_dots acc s) = true ->
              rev acc ++ s <> [] /\ is_alnum (hd d (rev acc ++ s)) = true.
Proof.
  induction s as [|c s IH]; intros acc H; simpl in H.
  - apply andb_prop in H as [H _]. rewrite app_nil_r.
    split; [now apply label_nonempty|now apply label_head].
  - destruct (is_dot c) eqn:D.
    + simpl in H. apply andb_prop in H as [H1 _].
      pose proof (label_nonempty _ H1) as N. pose proof (label_head _ d H1) as A.
      destruct (rev acc) as [|x r]; [congruence|]. split; [discriminate|exact A].
    + specialize (IH (c :: acc) H). simpl in IH. now rewrite <- app_assoc in IH.
Qed.

Lemma split_dots_last s d :
  forall acc, forallb label_ok (split_dots acc s) = true ->
              is_alnum (last (rev acc ++ s) d) = true.
Proof.
  induction s as [|c s IH]; intros acc H; simpl in H.
  - apply andb_prop in H as [H _]. rewrite app_nil_r. now apply label_last.
  - destruct (is_dot c) eqn:D.
    + simpl in H. apply andb_prop in H as [_ H2].
      pose proof (IH [] H2) as L. simpl in L.
      destruct (split_dots_head s d [] H2) as [N _]. simpl in N.
      replace (rev acc ++ c :: s) with ((rev acc ++ [c]) ++ s)
        by now rewrite <- app_assoc.
      now rewrite last_app_r.
    + specialize (IH (c :: acc) H). simpl in IH. now rewrite <- app_assoc in IH.
Qed.

Lemma labels_ok_shape l d :
  labels_ok l = true ->
  Forall (fun c => hostname_char c = true) l
  /\ l <> []
  /\ is_alnum (hd d l) = true
  /\ is_alnum (last l d) = true.
Proof.
  intros H. unfold labels_ok in H.
  pose proof (split_dots_chars l [] H) as C.
  destruct (split_dots_head l d [] H) as [N A].
  pose proof (split_dots_last l d [] H) as L.
  simpl in *. auto.
Qed.

End HostnameFacts.

Section HostnameShape.
Import Hostname Validity.

(** X11.  A hostname that the pattern of [validate_settings] accepts is,
    up to one final newline, a non-empty run of letters, digits, hyphens
    and dots that starts and ends with a letter or a digit: it holds no
    scheme, user, port or path separator and no blank. *)
Theorem accepted_hostname_shape :
  forall s : string,
    re_match s = true ->
    exists body,
      (list_ascii_of_string s = body \/ list_ascii_of_string s = body ++ [newline])
      /\ body <> []
      /\ Forall (fun c => hostname_char c = true) body
      /\ is_alnum (hd newline body) = true
      /\ is_alnum (last body newline) = true.
Proof.
  intros s H. unfold re_match in H. apply orb_prop in H as [H|H].
  - exists (list_ascii_of_string s).
    destruct (HostnameFacts.labels_ok_shape _ newline H) as (C & N & A & L).
    auto.
  - destruct (rev (list_ascii_of_string s)) as [|c r] eqn:E; [discriminate|].
    apply andb_prop in H as [Hn H]. exists (rev r).
    destruct (HostnameFacts.labels_ok_shape _ newline H) as (C & N & A & L).
    split; [right|auto].
    apply (f_equal (@rev ascii)) in E. rewrite rev_involutive in E. simpl in E.
    rewrite E. f_equal. f_equal.
    unfold is_newline in Hn. apply Nat.eqb_eq in Hn.
    unfold newline. rewrite <- Hn. symmetry. apply ascii_nat_embedding.
Qed.

End HostnameShape.

(* ===================================================================== *)
(** ** Rules for runs that return *)
(* ===================================================================== *)

Module PostRules.
Import Post.

Lemma ext_unique (w w' : World) e1 e2 :
  trace w' = trace w ++ e1 -> trace w' = trace w ++ e2 -> e1 = e2.
Proof. intros A B. rewrite A in B. now apply app_inv_head in B. Qed.

Lemma bind_inv {A B} (m : M A) (k : A -> M B) env w b w' :
  bind m k env w = (Ok b, w') ->
  exists a w1, m env w = (Ok a, w1) /\ k a env w1 = (Ok b, w').
Proof.
  unfold bind. destruct (m env w) as [[a|e] w1]; [|discriminate].
  intros H. now exists a, w1.
Qed.

(** What a [bounded] fact says about one run. *)
Lemma bounded_at {A} f n (m : M A) env w r w1 :
  bounded f n m -> m env w = (r, w1) ->
  exists evs, trace w1 = trace w ++ evs /\ count f evs <= n.
Proof. intros B E. destruct (B env w) as [evs H]. rewrite E in H. now exists evs. Qed.

Lemma exactly_at {A} f n (m : M A) env w r w1 :
  exactly f n m -> m env w = (r, w1) ->
  exists evs, trace w1 = trace w ++ evs /\ count f evs = n.
Proof. intros B E. destruct (B env w) as [evs H]. rewrite E in H. now exists evs. Qed.

Lemma post_at {A} (m : M A) Q env w a w1 :
  post m Q -> m env w = (Ok a, w1) ->
  exists evs, trace w1 = trace w ++ evs /\ Q a evs.
Proof. intros P E. exact (P env w a w1 E). Qed.

(** A part that logs no event of kind [f] does not move the count. *)
Lemma tallies_quiet {A} f c (m : M A) : bounded f 0 m -> tallies f c m (fun _ => c).
Proof.
  intros H env w a w' E.
  destruct (bounded_at _ _ _ _ _ _ _ H E) as (evs & T & C).
  exists evs. split; [exact T|lia].
Qed.

Section Tallies.
Context {A B : Type} (f : Event -> bool).

Lemma tallies_ret c (a : A) (N : A -> nat) : c = N a -> tallies f c (ret a) N.
Proof.
  intros H env w a' w' E. injection E as <- <-.
  exists []. rewrite app_nil_r. split; [reflexivity|]. unfold count. simpl. lia.
Qed.

Lemma tallies_raise c e (N : A -> nat) : tallies f c (raise e) N.
Proof. intros env w a' w' E. discriminate. Qed.

Lemma tallies_bind c (m : M A) (k : A -> M B) (N1 : A -> nat) (N : B -> nat) :
  tallies f c m N1 -> (forall a, tallies f (N1 a) (k a) N) ->
  tallies f c (bind m k) N.
Proof.
  intros Hm Hk env w b w' E.
  apply bind_inv in E as (a & w1 & E1 & E2).
  destruct (Hm env w a w1 E1) as (e1 & T1 & C1).
  destruct (Hk a env w1 b w' E2) as (e2 & T2 & C2).
  exists (e1 ++ e2). rewrite T2, T1, app_assoc, Rules.count_app.
  split; [reflexivity|lia].
Qed.

Lemma tallies_after_quiet c (m : M A) (k : A -> M B) (N : B -> nat) :
  bounded f 0 m -> (forall a, tallies f c (k a) N) -> tallies f c (bind m k) N.
Proof.
  intros Hm Hk. apply (tallies_bind c m k (fun _ => c)); [|exact Hk].
  now apply tallies_quiet.
Qed.

Lemma tallies_before_quiet c n (m : M A) (k : A -> M B) :
  tallies f c m (fun _ => n) -> (forall a, bounded f 0 (k a)) ->
  tallies f c (bind m k) (fun _ => n).
Proof.
  intros Hm Hk. apply (tallies_bind c m k (fun _ => n)); [exact Hm|].
  intros a. now apply tallies_quiet.
Qed.

(** A pure expression hands its value on, or raises. *)
Lemma tallies_lift_bind c (r : Res A) (k : A -> M B) (N : B -> nat) :
  (forall a, r = Ok a -> tallies f c (k a) N) -> tallies f c (bind (lift r) k) N.
Proof.
  intros Hk env w b w' E. unfold bind, lift in E.
  destruct r as [a|e]; [|discriminate].
  exact (Hk a eq_refl env w b w' E).
Qed.

Lemma tallies_weaken c (m : M A) (N N' : A -> nat) :
  (forall a, N a = N' a) -> tallies f c m N -> tallies f c m N'.
Proof.
  intros H Hm env w a w' E. destruct (Hm env w a w' E) as (evs & T & C).
  exists evs. split; [exact T|]. now rewrite <- H.
Qed.
End Tallies.

Lemma tallies_notify f c ev :
  f ev = true -> tallies f c (Call.notify ev) (fun _ => S c).
Proof.
  intros H env w a w' E. injection E as _ <-.
  exists [ev]. split; [reflexivity|]. unfold count. simpl. rewrite H. simpl. lia.
Qed.

End PostRules.

(* ===================================================================== *)
(** ** The closing summary and the records pushed *)
(* ===================================================================== *)

Ltac tally_step :=
  lazymatch goal with
  | |- forall _, _ => intro
  | |- Post.tallies _ _ (ret _) _ => apply PostRules.tallies_ret; reflexivity
  | |- Post.tallies _ _ (raise _) _ => apply PostRules.tallies_raise
  | |- Post.tallies _ _ (if ?b then _ else _) _ => destruct b
  | |- Post.tallies _ _ (match ?x with _ => _ end) _ => destruct x
  | |- Post.tallies _ _ (bind _ _) _ =>
      apply PostRules.tallies_after_quiet; [solve [run_quiet]|]
  end.

Module SummaryFacts.
Import Post PostRules.

(** A call of [_process_file] that returns has pushed one record. *)
Lemma process_file_tallies self conn f fd ri rc c :
  tallies is_push_record c (Download._process_file self conn f fd ri rc)
          (fun _ => S c).
Proof.
  unfold Download._process_file.
  repeat (apply tallies_after_quiet; [solve [quiet]|intro]).
  apply tallies_before_quiet.
  - unfold Sdk.push_record. now apply tallies_notify.
  - intros. unfold Download.handle_downloaded. quiet.
Qed.

Lemma expected_cons self f l :
  expected_records self (f :: l)
  = expected_records self [f] + expected_records self l.
Proof.
  unfold expected_records, Download.count_files.
  destruct (Download.tool_mode self); simpl;
    try reflexivity; destruct (Download.f_is_file f) as [[]|]; reflexivity.
Qed.

Lemma push_item_tallies self conn fd ri rc total i f c :
  tallies is_push_record c (Download.push_item self conn fd ri rc total i f)
          (fun _ => c + expected_records self [f]).
Proof.
  unfold Download.push_item.
  apply tallies_after_quiet; [solve [quiet]|intros _].
  unfold expected_records, Download.count_files. cbn [filter].
  destruct (Download.f_is_file f) as [b'|];
    apply tallies_lift_bind; intros b E; [injection E as ->|discriminate].
  destruct b, (Download.tool_mode self); simpl.
  all: first
         [ apply (tallies_weaken _ _ _ (fun _ => S c));
           [intros; lia|apply process_file_tallies]
         | apply (tallies_weaken _ _ _ (fun _ => c));
           [intros; lia|apply tallies_quiet; quiet] ].
Qed.

Lemma push_items_tallies self conn fd ri rc total l :
  forall i c,
    tallies is_push_record c
            (Download.push_items (Download.push_item self conn fd ri rc total) i l)
            (fun _ => c + expected_records self l).
Proof.
  induction l as [|f l IH]; intros i c; cbn [Download.push_items].
  - apply tallies_ret. unfold expected_records, Download.count_files.
    destruct (Download.tool_mode self); simpl; lia.
  - apply (tallies_bind _ _ _ _ (fun _ => c + expected_records self [f])).
    + apply push_item_tallies.
    + intros _. rewrite (expected_cons self f l).
      apply (tallies_weaken
               _ _ _ (fun _ => c + expected_records self [f] + expected_records self l)).
      * intros; lia.
      * apply IH.
Qed.

(** The streaming mode keeps [file_counter] in step with the records it
    pushes. *)
Lemma dl_push_current_tallies self p fld conn r :
  tallies is_push_record (Download.file_counter self)
          (Download.push_current self p fld conn r)
          (fun out => Download.file_counter (snd out)).
Proof.
  unfold Download.push_current. repeat tally_step.
  apply (tallies_bind _ _ _ _ (fun _ => S (Download.file_counter self))).
  - destruct (Download.record_info_out self); [|apply tallies_raise].
    destruct (Download.record_creator self); [|apply tallies_raise].
    apply process_file_tallies.
  - repeat tally_step.
Qed.

Lemma dl_push_record_tallies self p r :
  tallies is_push_record (Download.file_counter self)
          (Download.ii_push_record self p r)
          (fun out => Download.file_counter (snd out)).
Proof.
  unfold Download.ii_push_record.
  repeat first [ apply dl_push_current_tallies | tally_step ].
  all: apply (dl_push_current_tallies
                (Download.with_conn self (Download.slot_of (Some c)))).
Qed.

Lemma dl_feed_tallies p records :
  forall self,
    tallies is_push_record (Download.file_counter self)
            (Download.feed self p records) Download.file_counter.
Proof.
  induction records as [|r l IH]; intros self; cbn [Download.feed].
  - now apply tallies_ret.
  - apply (tallies_bind _ _ _ _ (fun out => Download.file_counter (snd out))).
    + apply dl_push_record_tallies.
    + intros out. destruct (fst out); [apply IH|now apply tallies_ret].
Qed.

Lemma dl_ii_init_tallies p ri :
  tallies is_push_record 0 (Download.ii_init Download.II_new p ri)
          (fun out => Download.file_counter (snd (fst out))).
Proof.
  unfold Download.ii_init, Download.build_ayx_output. repeat tally_step.
Qed.

Lemma dl_ii_init_same_summary self p ri :
  returns (Download.ii_init self p ri)
          (fun out => forall n, download_summary (snd out) n = download_summary p n).
Proof.
  unfold Download.ii_init, Download.build_ayx_output.
  repeat returns_step; reflexivity.
Qed.

(** The counts of three kinds of events over one run. *)
Lemma counts_at {A} (m : M A) env w r w1 (f g h : Event -> bool) nf ng nh :
  exactly f nf m -> exactly g ng m -> exactly h nh m -> m env w = (r, w1) ->
  exists evs,
    trace w1 = trace w ++ evs
    /\ count f evs = nf /\ count g evs = ng /\ count h evs = nh.
Proof.
  intros F G H E.
  destruct (exactly_at _ _ _ _ _ _ _ F E) as (e1 & T1 & C1).
  destruct (exactly_at _ _ _ _ _ _ _ G E) as (e2 & T2 & C2).
  destruct (exactly_at _ _ _ _ _ _ _ H E) as (e3 & T3 & C3).
  rewrite (ext_unique _ _ _ _ T2 T1) in C2.
  rewrite (ext_unique _ _ _ _ T3 T1) in C3.
  now exists e1.
Qed.

Lemma push_item_no_connect self conn fd ri rc total i f :
  bounded is_connect 0 (Download.push_item self conn fd ri rc total i f).
Proof.
  unfold Download.push_item.
  repeat first [ apply DownloadFrames.process_file_no_connect | quiet_step ].
Qed.

Lemma push_item_no_close self conn fd ri rc total i f :
  bounded is_close 0 (Download.push_item self conn fd ri rc total i f).
Proof.
  unfold Download.push_item.
  repeat first [ apply DownloadFrames.process_file_no_close | quiet_step ].
Qed.

Lemma dl_init_sftp_no_push self : bounded is_push_record 0 (Download._init_sftp self).
Proof. unfold Download._init_sftp, Connect._init_sftp_connect. quiet. Qed.

End SummaryFacts.

Section Summary.
Import Post PostRules.

(** X12.  When a streaming run of the download engine returns, the log
    ends with the status message, the final record count and the closing
    of the anchor, and the number in the status message, which is the
    interface's [file_counter], is the number of records the run has
    pushed downstream. *)
Theorem streaming_summary_counts_pushed_records :
  forall (p : Download.AyxPlugin) (ri : RecordInfo) (records : list InRecord)
         (env : Env) (w : World) (self' : Download.IncomingInterface) (w' : World),
    Download.run_streaming p ri records env w = (Ok self', w') ->
    exists evs,
      trace w'
      = trace w ++ evs
        ++ [EvMessage Status_info (download_summary p (count is_push_record evs));
            EvRecordCount true; EvAnchorClose]
      /\ Download.file_counter self' = count is_push_record evs.
Proof.
  intros p ri records env w self' w' H.
  unfold Download.run_streaming in H.
  apply bind_inv in H as (out & w1 & I & H).
  destruct (SummaryFacts.dl_ii_init_tallies p ri env w out w1 I) as (e1 & T1 & C1).
  pose proof (SummaryFacts.dl_ii_init_same_summary _ p ri env w out w1 I) as S1.
  destruct out as [[ok self] p1]. cbn [fst snd] in *.
  apply bind_inv in H as (self2 & w2 & F & H).
  assert (exists e2, trace w2 = trace w1 ++ e2
                     /\ Download.file_counter self + count is_push_record e2
                        = Download.file_counter self2) as (e2 & T2 & C2).
  { destruct ok.
    - exact (SummaryFacts.dl_feed_tallies p1 records self env w1 self2 w2 F).
    - injection F as <- <-. exists []. rewrite app_nil_r. split; [reflexivity|].
      unfold count. simpl. lia. }
  unfold Download.ii_close in H.
  destruct (Download.sftp_conn self2) as [| |c] eqn:SC.
  - injection H as <- <-.
    exists (e1 ++ e2). cbn [trace add_event].
    rewrite T2, T1, !Rules.count_app, <- !app_assoc. cbn [app].
    split; [|simpl; lia].
    repeat f_equal. rewrite <- S1. unfold download_summary.
    replace (count is_push_record e1 + count is_push_record e2)
      with (Download.file_counter self2) by lia.
    reflexivity.
  - injection H as <- <-.
    exists (e1 ++ e2). cbn [trace add_event].
    rewrite T2, T1, !Rules.count_app, <- !app_assoc. cbn [app].
    split; [|simpl; lia].
    repeat f_equal. rewrite <- S1. unfold download_summary.
    replace (count is_push_record e1 + count is_push_record e2)
      with (Download.file_counter self2) by lia.
    reflexivity.
  - injection H as <- <-.
    exists (e1 ++ e2 ++ [EvSftp c c_close Returned]). cbn [trace add_event].
    rewrite T2, T1, !Rules.count_app, <- !app_assoc. cbn [app].
    assert (Z0 : count is_push_record [EvSftp c c_close Returned] = 0) by reflexivity.
    rewrite Z0.
    split; [|simpl; lia].
    repeat f_equal. rewrite <- S1. unfold download_summary.
    replace (count is_push_record e1 + (count is_push_record e2 + 0))
      with (Download.file_counter self2) by lia.
    reflexivity.
Qed.

(** X13.  When a static run of the download engine answers [True], the
    settings had passed validation and the engine was asked for data; the
    run has made exactly one connection attempt and has closed the
    session once, as its last call to the server; and the log ends with
    the status message, the final progress and the closing of the anchor,
    where the number in the status message is the number of records the
    run has pushed downstream. *)
Theorem static_run_summary_counts_pushed_records :
  forall (self : Download.AyxPlugin) (n : Z) (env : Env) (w : World)
         (p' : Download.AyxPlugin) (w' : World),
    Download.pi_push_all_records self n env w = (Ok (true, p'), w') ->
    exists conn evs,
      trace w'
      = trace w ++ evs
        ++ [EvSftp conn c_close Returned;
            EvMessage Status_info (download_summary self (count is_push_record evs));
            EvUpdateProgress 1 1; EvAnchorClose]
      /\ count is_connect evs = 1
      /\ count is_close evs = 0
      /\ UpdateOnly env <> "True"
      /\ Validity.download_failures self (files w) = [].
Proof.
  intros self n env w p' w' H.
  unfold Download.pi_push_all_records in H.
  apply bind_inv in H as (uo & w0 & U & H).
  unfold Sdk.get_init_var_UpdateOnly, ask in U. injection U as <- <-.
  destruct (String.eqb (UpdateOnly env) "True") eqn:EU.
  { apply bind_inv in H as (? & ? & _ & H). unfold ret in H. discriminate H. }
  apply bind_inv in H as (valid & w1 & V & H).
  rewrite (ValidityFacts.dl_validate_checks true self env w) in V.
  cbn [andb Validity.reported] in V. injection V as <- <-.
  destruct (Validity.download_failures self (files w)) eqn:DF;
    [|unfold ret in H; discriminate H].
  cbn [Validity.is_nil negb] in H.
  apply bind_inv in H as ([] & w2 & P0 & H).
  unfold Sdk.update_progress, Call.notify in P0. injection P0 as <-.
  apply bind_inv in H as (r & w3 & I & H).
  destruct r as [conn|]; [|unfold ret in H; discriminate H].
  apply bind_inv in H as (sftp_files & w4 & L & H).
  apply bind_inv in H as (file_list & w5 & C & H).
  apply bind_inv in H as (out & w6 & B & H).
  unfold Download.build_ayx_output in B.
  apply bind_inv in B as ([] & w6' & B1 & B2).
  unfold Sdk.anchor_init, Call.notify in B1. injection B1 as <-.
  unfold ret in B2. injection B2 as <- <-.
  cbn beta iota in H.
  apply bind_inv in H as ([] & w7 & P & H).
  unfold bind, Pysftp.close, Sdk.output_message, Sdk.update_progress, Sdk.anchor_close,
    Call.notify, ret in H.
  injection H as <- <-.
  (* the parts of the run *)
  destruct (SummaryFacts.counts_at
              _ _ _ _ _ is_connect is_close is_push_record 1 0 0
              (DownloadFrames.dl_init_sftp_exactly_once self)
              (proj1 (Rules.quiet_exactly _ _) (DownloadFrames.dl_init_sftp_no_close self))
              (proj1 (Rules.quiet_exactly _ _) (SummaryFacts.dl_init_sftp_no_push self))
              I)
    as (e3 & T3 & A3 & B3 & C3).
  assert (T4 : trace w4 = trace w3 ++ [EvSftp conn c_listdir_attr Returned]).
  { unfold Pysftp.listdir_attr, Call.fallible in L.
    destruct (srv_listdir_attr env (clock w3)); [|discriminate L].
    now injection L as _ <-. }
  destruct (SummaryFacts.counts_at
              _ _ _ _ _ is_connect is_close is_push_record 0 0 0
              (proj1 (Rules.quiet_exactly _ _)
                     (RunFrames.collect_files_quiet is_connect conn sftp_files
                        (fun _ => eq_refl) (fun _ => eq_refl)))
              (proj1 (Rules.quiet_exactly _ _)
                     (RunFrames.collect_files_quiet is_close conn sftp_files
                        (fun _ => eq_refl) (fun _ => eq_refl)))
              (proj1 (Rules.quiet_exactly _ _)
                     (RunFrames.collect_files_quiet is_push_record conn sftp_files
                        (fun _ => eq_refl) (fun _ => eq_refl)))
              C)
    as (e5 & T5 & A5 & B5 & C5).
  destruct (bounded_at
              _ _ _ _ _ _ _
              (RunFrames.push_items_quiet
                 is_connect _ file_list
                 (fun i x => SummaryFacts.push_item_no_connect _ _ _ _ _ _ i x) 0)
              P)
    as (e7 & T7 & A7).
  destruct (bounded_at
              _ _ _ _ _ _ _
              (RunFrames.push_items_quiet
                 is_close _ file_list
                 (fun i x => SummaryFacts.push_item_no_close _ _ _ _ _ _ i x) 0)
              P)
    as (e7' & T7' & B7).
  rewrite (ext_unique _ _ _ _ T7' T7) in B7. clear T7' e7'.
  destruct (SummaryFacts.push_items_tallies _ _ _ _ _ _ file_list 0 0 env _ tt w7 P)
    as (e7' & T7' & C7).
  rewrite (ext_unique _ _ _ _ T7' T7) in C7. clear T7' e7'.
  match type of T7 with
  | trace _ = trace (add_event _ ?ev) ++ _ => set (ai := ev) in *
  end.
  assert (Ai : is_connect ai = false /\ is_close ai = false
               /\ is_push_record ai = false) by (repeat split; reflexivity).
  destruct Ai as (Ai1 & Ai2 & Ai3). clearbody ai.
  cbn [trace add_event] in T7, T3.
  unfold expected_records in C7.
  cbn [Download.tool_mode Download.set_output_recordinfo] in C7.
  fold (expected_records self file_list) in C7.
  set (evs := [EvUpdateProgress 0 1] ++ e3 ++ [EvSftp conn c_listdir_attr Returned]
              ++ e5 ++ [ai] ++ e7).
  assert (S1 : forall f e, count f [e] = if f e then 1 else 0).
  { intros f e. unfold count. simpl. now destruct (f e). }
  assert (N : count is_push_record evs = expected_records self file_list).
  { unfold evs. rewrite !Rules.count_app, !S1, Ai3. simpl. lia. }
  exists conn, evs. repeat split.
  - cbn [trace add_event]. rewrite N, T7, T5, T4, T3. unfold evs.
    rewrite <- !app_assoc. cbn [app]. repeat f_equal.
    unfold download_summary, expected_records.
    now destruct (Download.tool_mode self).
  - unfold evs. rewrite !Rules.count_app, !S1, Ai1. simpl. lia.
  - unfold evs. rewrite !Rules.count_app, !S1, Ai2. simpl. lia.
  - now apply String.eqb_neq.
Qed.

End Summary.

(* ===================================================================== *)
(** ** What [pi_init] makes of a configuration *)
(* ===================================================================== *)

Module ConfigFacts.
Import Builtins.

(** The extractor never raises, and never yields an empty string. *)
Lemma prep_total xml key : exists v, Et._prep_xmltext xml key = Ok v.
Proof.
  unfold Et._prep_xmltext, Et.findtext.
  destruct (Et.find xml key) as [c|]; simpl.
  - destruct (Et.text c); simpl.
    + destruct (negb (String.eqb s EmptyString)); eauto.
    + eauto.
  - eauto.
Qed.

Lemma prep_nonempty xml key v :
  Et._prep_xmltext xml key = Ok v -> v <> Some EmptyString.
Proof.
  unfold Et._prep_xmltext. intros H E. subst v.
  destruct (if truthy (Et.findtext xml key) then _ else _) as [t|e]; [|discriminate].
  injection H as H.
  destruct t as [t|]; simpl in H; [|discriminate].
  destruct (String.eqb t EmptyString) eqn:T; simpl in H; [discriminate|].
  injection H as ->. discriminate.
Qed.

Lemma setting_run xml key env w v w' :
  setting xml key env w = (Ok v, w') ->
  Et._prep_xmltext xml key = Ok v /\ w' = w.
Proof. unfold setting, lift. intros H. injection H as H <-. now split. Qed.

Lemma ends_with_slash_app p : ends_with_slash (p +:+ "/") = true.
Proof.
  induction p as [|c p IH]; [reflexivity|].
  simpl. rewrite IH. now destruct (p +:+ "/") eqn:E; [destruct p; discriminate|].
Qed.

Lemma with_trailing_slash_ok rp :
  rp <> Some EmptyString ->
  with_trailing_slash rp = None
  \/ exists r, with_trailing_slash rp = Some r /\ ends_with_slash r = true.
Proof.
  intros N. destruct rp as [p|]; [right|now left]. unfold with_trailing_slash.
  destruct (truthy_str p) eqn:T.
  - destruct (ends_with_slash p) eqn:E; simpl; eauto using ends_with_slash_app.
  - unfold truthy_str in T. apply negb_false_iff, String.eqb_eq in T. congruence.
Qed.

Lemma setting_bind {B} xml key v (k : option string -> M B) env w :
  Et._prep_xmltext xml key = Ok v -> bind (setting xml key) k env w = k v env w.
Proof. intros E. unfold bind, setting, lift. now rewrite E. Qed.

Lemma lift_bind {A B} (r : Res A) (k : A -> M B) env w :
  bind (lift r) k env w
  = match r with Ok a => k a env w | Raised e => (Raised e, w) end.
Proof. unfold bind, lift. now destruct r. Qed.

Lemma passphrase_bind {B} xml kf (k : option string -> M B) env w :
  exists v,
    bind (if truthy kf then setting xml "KeyfilePassphrase" else ret None) k env w
    = k v env w.
Proof.
  destruct (truthy kf).
  - destruct (prep_total xml "KeyfilePassphrase") as [v E].
    exists v. now apply setting_bind.
  - now exists None.
Qed.

End ConfigFacts.

Ltac run_setting xml key :=
  let v := fresh "v" in
  let E := fresh "E" in
  destruct (ConfigFacts.prep_total xml key) as [v E];
  rewrite (ConfigFacts.setting_bind xml key v _ _ _ E); cbv beta.

Ltac inv_setting H v E :=
  let w1 := fresh "w" in
  apply PostRules.bind_inv in H as (v & w1 & E & H);
  apply ConfigFacts.setting_run in E as [E ->].

Section Config.
Import Builtins Validity.

(** X14.  When the download engine's [pi_init] returns, the settings it
    leaves are in normal form: the port is the integer that the Port
    text denotes; the remote path is unset or ends with a slash; the key
    passphrase is unset when no key file is given; no text setting is the
    empty string; the local path is the joined LocalPath setting in
    [DOWNLOAD_TO_PATH] mode and unset otherwise; the name of the blob
    field is untouched.  All that [pi_init] has logged are the error
    messages of the checks that these settings fail. *)
Theorem download_pi_init_normal_form :
  forall (self : Download.AyxPlugin) (xml : Et.Element) (env : Env) (w : World)
         (p : Download.AyxPlugin) (w' : World),
    DownloadConfig.pi_init self xml env w = (Ok p, w') ->
    let s := Download.sftp_settings p in
    (exists z, Download.port s = PortInt z
               /\ exists t, Et._prep_xmltext xml "Port" = Ok t /\ int_ t = Ok z)
    /\ (Download.remote_path s = None
        \/ exists r, Download.remote_path s = Some r /\ ends_with_slash r = true)
    /\ (Download.key_filepath s = None -> Download.key_passphrase s = None)
    /\ (forall x,
           In x [Download.hostname s; Download.username s; Download.password s;
                 Download.key_filepath s; Download.key_passphrase s;
                 Download.move_path s; Download.incoming_field p] ->
           x <> Some EmptyString)
    /\ (Download.tool_mode p <> Download.DOWNLOAD_TO_PATH ->
        Download.local_path (Download.output_settings p) = None)
    /\ (Download.tool_mode p = Download.DOWNLOAD_TO_PATH ->
        exists lp, Et._prep_xmltext xml "LocalPath" = Ok (Some lp)
                   /\ Download.local_path (Download.output_settings p)
                      = Some (os_path_join env lp EmptyString))
    /\ Download.blobfield (Download.output_settings p)
       = Download.blobfield (Download.output_settings self)
    /\ w' = reported false w (download_failures p (files w)).
Proof.
  intros self xml env w p w' H. unfold DownloadConfig.pi_init in H.
  inv_setting H hostname Eh.
  inv_setting H port_text Ept.
  apply PostRules.bind_inv in H as (port & w1 & Ep & H).
  unfold lift in Ep. injection Ep as Ep <-.
  inv_setting H username Eu.
  inv_setting H password Epw.
  inv_setting H key_filepath Ek.
  apply PostRules.bind_inv in H as (key_passphrase & w1 & Ekp & H).
  assert (Kp : key_passphrase <> Some EmptyString
               /\ (key_filepath = None -> key_passphrase = None) /\ w1 = w).
  { destruct key_filepath as [k|]; simpl in Ekp.
    - destruct (negb (String.eqb k EmptyString)).
      + apply ConfigFacts.setting_run in Ekp as [Ekp ->].
        repeat split; [now apply ConfigFacts.prep_nonempty in Ekp|discriminate].
      + injection Ekp as <- <-. repeat split; discriminate.
    - injection Ekp as <- <-. repeat split; discriminate. }
  destruct Kp as (Kp1 & Kp2 & ->).
  inv_setting H remote_path Er.
  inv_setting H move_path Em.
  inv_setting H mode_text Emt.
  inv_setting H handling_text Eht.
  apply PostRules.bind_inv in H as (local_path & w1 & El & H).
  assert (Lp : (DownloadConfig.tool_mode_of mode_text <> Download.DOWNLOAD_TO_PATH ->
                local_path = None)
               /\ (DownloadConfig.tool_mode_of mode_text = Download.DOWNLOAD_TO_PATH ->
                   exists lp, Et._prep_xmltext xml "LocalPath" = Ok (Some lp)
                              /\ local_path = Some (os_path_join env lp EmptyString))
               /\ w1 = w).
  { destruct (DownloadConfig.tool_mode_of mode_text); simpl in El;
      try (unfold ret in El; injection El as <- <-;
           repeat split; discriminate).
    inv_setting El lp E1.
    destruct lp as [lp|]; simpl in El.
    - unfold bind, Os.path_join, ask, ret in El. injection El as <- <-.
      repeat split; [congruence|eauto].
    - unfold bind, raise in El. discriminate El. }
  destruct Lp as (Lp1 & Lp2 & ->).
  inv_setting H incoming_field Ei.
  apply PostRules.bind_inv in H as (valid & w1 & V & H).
  rewrite (ValidityFacts.dl_validate_checks false _ env w) in V.
  injection V as _ <-.
  unfold ret in H. injection H as <- <-.
  cbn [Download.sftp_settings Download.port Download.remote_path Download.key_filepath
       Download.key_passphrase Download.hostname Download.username Download.password
       Download.move_path Download.incoming_field Download.tool_mode
       Download.output_settings Download.local_path Download.blobfield].
  repeat split.
  - exists port. split; [reflexivity|eauto].
  - apply ConfigFacts.with_trailing_slash_ok. now apply ConfigFacts.prep_nonempty in Er.
  - exact Kp2.
  - intros x [<-|[<-|[<-|[<-|[<-|[<-|[<-|[]]]]]]]];
      eauto using ConfigFacts.prep_nonempty.
  - exact Lp1.
  - exact Lp2.
Qed.

(** X15.  When the upload engine's [pi_init] returns, the settings it
    leaves are in normal form: the port is the integer that the Port
    text denotes; the remote path is unset or ends with a slash; the key
    passphrase is unset when no key file is given; no text setting is the
    empty string; the move path is unset or the joined MovePath setting;
    overwriting is on exactly when the Overwrite text is ['True'].  All
    that [pi_init] has logged are the error messages of the checks that
    these settings fail. *)
Theorem upload_pi_init_normal_form :
  forall (self : Upload.AyxPlugin) (xml : Et.Element) (env : Env) (w : World)
         (p : Upload.AyxPlugin) (w' : World),
    UploadConfig.pi_init self xml env w = (Ok p, w') ->
    let s := Upload.sftp_settings p in
    (exists z, Upload.port s = PortInt z
               /\ exists t, Et._prep_xmltext xml "Port" = Ok t /\ int_ t = Ok z)
    /\ (Upload.remote_path s = None
        \/ exists r, Upload.remote_path s = Some r /\ ends_with_slash r = true)
    /\ (Upload.key_filepath s = None -> Upload.key_passphrase s = None)
    /\ (forall x,
           In x [Upload.hostname s; Upload.username s; Upload.password s;
                 Upload.key_filepath s; Upload.key_passphrase s;
                 Upload.incoming_field p; Upload.blob_field p] ->
           x <> Some EmptyString)
    /\ (Upload.move_path p = None
        \/ exists mp, Et._prep_xmltext xml "MovePath" = Ok (Some mp)
                      /\ Upload.move_path p = Some (os_path_join env mp EmptyString))
    /\ (Upload.overwrite p = true
        <-> Et._prep_xmltext xml "Overwrite" = Ok (Some "True"))
    /\ w' = reported false w (upload_failures p (files w)).
Proof.
  intros self xml env w p w' H. unfold UploadConfig.pi_init in H.
  inv_setting H hostname Eh.
  inv_setting H port_text Ept.
  apply PostRules.bind_inv in H as (port & w1 & Ep & H).
  unfold lift in Ep. injection Ep as Ep <-.
  inv_setting H username Eu.
  inv_setting H password Epw.
  inv_setting H key_filepath Ek.
  apply PostRules.bind_inv in H as (key_passphrase & w1 & Ekp & H).
  assert (Kp : key_passphrase <> Some EmptyString
               /\ (key_filepath = None -> key_passphrase = None) /\ w1 = w).
  { destruct key_filepath as [k|]; simpl in Ekp.
    - destruct (negb (String.eqb k EmptyString)).
      + apply ConfigFacts.setting_run in Ekp as [Ekp ->].
        repeat split; [now apply ConfigFacts.prep_nonempty in Ekp|discriminate].
      + injection Ekp as <- <-. repeat split; discriminate.
    - injection Ekp as <- <-. repeat split; discriminate. }
  destruct Kp as (Kp1 & Kp2 & ->).
  inv_setting H remote_path Er.
  inv_setting H mode_text Emt.
  inv_setting H handling_text Eht.
  inv_setting H move_text Em.
  apply PostRules.bind_inv in H as (move_path & w1 & Emp & H).
  assert (Mp : (move_path = None
                \/ exists mp, Et._prep_xmltext xml "MovePath" = Ok (Some mp)
                              /\ move_path = Some (os_path_join env mp EmptyString))
               /\ w1 = w).
  { destruct move_text as [mp|].
    - destruct (truthy_str mp) eqn:T.
      + unfold bind, Os.path_join, ask, ret in Emp. injection Emp as <- <-.
        split; [right|reflexivity]. eauto.
      + apply ConfigFacts.prep_nonempty in Em.
        unfold truthy_str in T. apply negb_false_iff, String.eqb_eq in T. congruence.
    - unfold ret in Emp. injection Emp as <- <-. split; [now left|reflexivity]. }
  destruct Mp as (Mp & ->).
  inv_setting H overwrite_text Eo.
  inv_setting H incoming_field Ei.
  inv_setting H blob_field Eb.
  apply PostRules.bind_inv in H as (valid & w1 & V & H).
  rewrite (ValidityFacts.up_validate_checks false _ env w) in V.
  injection V as _ <-.
  unfold ret in H. injection H as <- <-.
  cbn [Upload.sftp_settings Upload.port Upload.remote_path Upload.key_filepath
       Upload.key_passphrase Upload.hostname Upload.username Upload.password
       Upload.move_path Upload.incoming_field Upload.blob_field Upload.overwrite].
  repeat split.
  - exists port. split; [reflexivity|eauto].
  - apply ConfigFacts.with_trailing_slash_ok. now apply ConfigFacts.prep_nonempty in Er.
  - exact Kp2.
  - intros x [<-|[<-|[<-|[<-|[<-|[<-|[<-|[]]]]]]]];
      eauto using ConfigFacts.prep_nonempty.
  - exact Mp.
  - intros O. rewrite Eo. destruct overwrite_text as [o|]; [|discriminate].
    simpl in O. apply String.eqb_eq in O. now subst.
  - intros O. rewrite Eo in O. injection O as ->. reflexivity.
Qed.

(** X16.  When the Port text of the configuration is not an integer
    literal, [pi_init] of either engine raises what [int] raises, before
    it has validated anything and without a message.  A missing or blank
    Port is such a text: [int(None)] raises [TypeError]. *)
Theorem pi_init_raises_on_unusable_port :
  forall (xml : Et.Element) (t : option string) (e : Exn) (env : Env) (w : World),
    Et._prep_xmltext xml "Port" = Ok t ->
    int_ t = Raised e ->
    (forall self, DownloadConfig.pi_init self xml env w = (Raised e, w))
    /\ (forall self, UploadConfig.pi_init self xml env w = (Raised e, w))
    /\ (t = None -> is_TypeError e = true).
Proof.
  intros xml t e env w P I. repeat split.
  - intros self. unfold DownloadConfig.pi_init.
    run_setting xml "Hostname".
    rewrite (ConfigFacts.setting_bind _ _ _ _ _ _ P). cbv beta.
    now rewrite ConfigFacts.lift_bind, I.
  - intros self. unfold UploadConfig.pi_init.
    run_setting xml "Hostname".
    rewrite (ConfigFacts.setting_bind _ _ _ _ _ _ P). cbv beta.
    now rewrite ConfigFacts.lift_bind, I.
  - intros ->. simpl in I. now injection I as <-.
Qed.

(** X17.  In the download engine, a configuration that selects the mode
    "download_file" without a LocalPath makes [pi_init] raise
    [TypeError] (from [os.path.join]) instead of reporting the missing
    path: no message is logged. *)
Theorem download_pi_init_raises_without_local_path :
  forall (self : Download.AyxPlugin) (xml : Et.Element) (t : option string) (z : Z)
         (env : Env) (w : World),
    Et._prep_xmltext xml "Port" = Ok t ->
    int_ t = Ok z ->
    Et._prep_xmltext xml "ToolMode" = Ok (Some "download_file") ->
    Et._prep_xmltext xml "LocalPath" = Ok None ->
    exists e,
      DownloadConfig.pi_init self xml env w = (Raised e, w)
      /\ is_TypeError e = true.
Proof.
  intros self xml t z env w P I T L. unfold DownloadConfig.pi_init.
  run_setting xml "Hostname".
  rewrite (ConfigFacts.setting_bind _ _ _ _ _ _ P). cbv beta.
  rewrite ConfigFacts.lift_bind, I.
  run_setting xml "Username". run_setting xml "Password". run_setting xml "KeyfilePath".
  match goal with
  | |- context [bind (if truthy ?kf then _ else _) ?k env w] =>
      destruct (ConfigFacts.passphrase_bind xml kf k env w) as [kp ->]
  end.
  cbv beta.
  run_setting xml "RemotePath". run_setting xml "MovePath".
  rewrite (ConfigFacts.setting_bind _ _ _ _ _ _ T). cbv beta.
  run_setting xml "FileHandling".
  cbn [DownloadConfig.tool_mode_of String.eqb Ascii.eqb Bool.eqb Download.mode_eqb].
  rewrite Rules.run_bind.
  rewrite (ConfigFacts.setting_bind _ _ _ _ _ _ L). cbv beta.
  cbn [path_join_opt]. unfold bind at 1. unfold raise.
  eexists. split; reflexivity.
Qed.

End Config.

(* ===================================================================== *)
(** ** Which exceptions can escape *)
(* ===================================================================== *)

Module RaiseRules.
Import Post.

Section Rules.
Context {A B : Type} (P : Exn -> Prop).

Lemma ro_ret (a : A) : raises_only (ret a) P.
Proof. intros env w e w' H. discriminate. Qed.

Lemma ro_ask (g : Env -> A) : raises_only (ask g) P.
Proof. intros env w e w' H. discriminate. Qed.

Lemma ro_peek (g : World -> A) : raises_only (peek g) P.
Proof. intros env w e w' H. discriminate. Qed.

Lemma ro_raise e : P e -> raises_only (@raise A e) P.
Proof. intros H env w e' w' E. injection E as <- _. exact H. Qed.

Lemma ro_lift (r : Res A) : (forall e, r = Raised e -> P e) -> raises_only (lift r) P.
Proof. intros H env w e w' E. injection E as E _. now apply H. Qed.

Lemma ro_notify ev : raises_only (Call.notify ev) P.
Proof. intros env w e w' H. discriminate. Qed.

Lemma ro_total (ans : Env -> nat -> A) ev : raises_only (Call.total ans ev) P.
Proof. intros env w e w' H. discriminate. Qed.

Lemma ro_temp_name ext : raises_only (Sdk.create_temp_file_name ext) P.
Proof. intros env w e w' H. discriminate. Qed.

Lemma ro_bind (m : M A) (k : A -> M B) :
  raises_only m P -> (forall a, raises_only (k a) P) -> raises_only (bind m k) P.
Proof.
  intros Hm Hk env w e w' E. unfold bind in E.
  destruct (m env w) as [[a|e0] w1] eqn:R.
  - exact (Hk a env w1 e w' E).
  - injection E as <- _. exact (Hm env w e0 w1 R).
Qed.

(** A guarded block: what the handler does not catch must be fine,
    whatever the block raises. *)
Lemma ro_try (m : M A) (h : Exn -> option (M B)) (els : A -> M B) :
  (forall e, h e = None -> P e) ->
  (forall e, match h e with Some k => raises_only k P | None => True end) ->
  (forall a, raises_only (els a) P) ->
  raises_only (try_except_else m h els) P.
Proof.
  intros Hn Hh He env w e w' E. unfold try_except_else in E.
  destruct (m env w) as [[a|e0] w1].
  - exact (He a env w1 e w' E).
  - specialize (Hh e0). destruct (h e0) as [k|] eqn:Hk.
    + exact (Hh env w1 e w' E).
    + injection E as <- _. now apply Hn.
Qed.
End Rules.

Lemma dict_get_not_io d k e : dict_get d k = Raised e -> not_io e.
Proof.
  unfold dict_get. destruct (find _ _); [discriminate|].
  intros H. injection H as <-. reflexivity.
Qed.

Lemma ro_set_field d k v rc : raises_only (set_field d k v rc) not_io.
Proof.
  unfold set_field. apply ro_bind; [|intros; apply ro_ret].
  apply ro_lift. apply dict_get_not_io.
Qed.

(** The handlers of the engines let no [IOError] through. *)
Lemma io_handler_covers {B} (k : Exn -> M B) e :
  (if is_IOError e then Some (k e) else None) = None -> not_io e.
Proof. unfold not_io. now destruct (is_IOError e). Qed.

Lemma exception_not_io e : is_Exception e = false -> not_io e.
Proof. unfold is_Exception, not_io, is_IOError. now destruct (exn_class e). Qed.

End RaiseRules.

Ltac ro_step :=
  lazymatch goal with
  | |- forall _, _ => intro
  | |- True => exact I
  | |- Post.not_io _ => reflexivity
  | |- Post.raises_only (ret _) _ => apply RaiseRules.ro_ret
  | |- Post.raises_only (raise _) _ => apply RaiseRules.ro_raise
  | |- Post.raises_only (ask _) _ => apply RaiseRules.ro_ask
  | |- Post.raises_only (peek _) _ => apply RaiseRules.ro_peek
  | |- Post.raises_only (bind _ _) _ => apply RaiseRules.ro_bind
  | |- Post.raises_only (try_except _ _) _ => unfold try_except
  | |- Post.raises_only (if ?b then _ else _) _ => destruct b
  | |- Post.raises_only (match ?x with _ => _ end) _ => destruct x
  | |- match (if ?b then _ else _) with _ => _ end => destruct b
  | |- Post.raises_only (Call.notify _) _ => apply RaiseRules.ro_notify
  | |- Post.raises_only (Call.total _ _) _ => apply RaiseRules.ro_total
  | |- Post.raises_only (Sdk.create_temp_file_name _) _ => apply RaiseRules.ro_temp_name
  | |- Post.raises_only (set_field _ _ _ _) _ => apply RaiseRules.ro_set_field
  | |- Post.raises_only (Sdk.output_message _ _) _ => unfold Sdk.output_message
  | |- Post.raises_only Sdk.get_init_var_UpdateOnly _ => unfold Sdk.get_init_var_UpdateOnly
  | |- Post.raises_only (Sdk.anchor_init _) _ => unfold Sdk.anchor_init
  | |- Post.raises_only (Sdk.update_progress _ _) _ => unfold Sdk.update_progress
  | |- Post.raises_only (Sdk.push_record _) _ => unfold Sdk.push_record
  | |- Post.raises_only (Sdk.output_record_count _) _ => unfold Sdk.output_record_count
  | |- Post.raises_only Sdk.anchor_close _ => unfold Sdk.anchor_close
  | |- Post.raises_only (Os.path_exists _) _ => unfold Os.path_exists
  | |- Post.raises_only (Os.path_isfile _) _ => unfold Os.path_isfile
  | |- Post.raises_only (Os.path_isdir _) _ => unfold Os.path_isdir
  | |- Post.raises_only (Os.path_join _ _) _ => unfold Os.path_join
  | |- Post.raises_only (Os.path_split _) _ => unfold Os.path_split
  | |- Post.raises_only (Os.path_dirname _) _ => unfold Os.path_dirname
  | |- Post.raises_only Pysftp.CnOpts_hostkeys _ => unfold Pysftp.CnOpts_hostkeys
  | |- Post.raises_only Pysftp.helpers_known_hosts _ => unfold Pysftp.helpers_known_hosts
  | |- Post.raises_only (Pysftp.isdir _ _) _ => unfold Pysftp.isdir
  | |- Post.raises_only (Pysftp.isfile _ _) _ => unfold Pysftp.isfile
  | |- Post.raises_only (Pysftp.exists_ _ _) _ => unfold Pysftp.exists_
  | |- Post.raises_only (Pysftp.normalize _ _) _ => unfold Pysftp.normalize
  | |- Post.raises_only (Pysftp.pwd _) _ => unfold Pysftp.pwd
  | |- Post.raises_only (Pysftp.close _) _ => unfold Pysftp.close
  end.

Ltac ro_try :=
  apply RaiseRules.ro_try;
  [ intros ?e ?H;
    first [ exact (RaiseRules.io_handler_covers _ _ H)
          | repeat match type of H with
                   | (if ?b then _ else _) = None => destruct b eqn:?; try discriminate H
                   end;
            first [ apply RaiseRules.exception_not_io; assumption
                  | assumption
                  | match goal with
                    | E : (_ || _) = false |- _ =>
                        apply orb_false_elim in E; destruct E; assumption
                    end ] ]
  | |].

Module RaiseFacts.
Import Post.





(** The upload engine. *)
Lemma up_validate_never_raises self silent P :
  raises_only (Upload.validate_settings self silent) P.
Proof.
  intros env w e w' H.
  rewrite (ValidityFacts.up_validate_checks silent self env w) in H. discriminate.
Qed.

Lemma connect_not_io h p u pw kf kp :
  raises_only (Connect._init_sftp_connect h p u pw kf kp) not_io.
Proof.
  unfold Connect._init_sftp_connect.
  repeat first [ ro_try | ro_step ].
Qed.

Lemma up_init_sftp_not_io self : raises_only (Upload._init_sftp self) not_io.
Proof.
  unfold Upload._init_sftp.
  repeat first [ apply connect_not_io | ro_try | ro_step ].
Qed.

Lemma up_push_current_not_io self p fld conn r :
  raises_only (Upload.push_current self p fld conn r) not_io.
Proof.
  unfold Upload.push_current, Upload.upload_file, Upload.upload_blob,
    Upload.handle_uploaded.
  repeat first [ ro_try | ro_step ].
Qed.

Lemma up_push_record_not_io self p r :
  raises_only (Upload.ii_push_record self p r) not_io.
Proof.
  unfold Upload.ii_push_record.
  repeat first [ apply up_validate_never_raises
               | apply up_init_sftp_not_io
               | apply up_push_current_not_io
               | ro_step ].
Qed.

Lemma up_feed_not_io p records :
  forall self, raises_only (Upload.feed self p records) not_io.
Proof.
  induction records as [|r l IH]; intros self; cbn [Upload.feed].
  - apply RaiseRules.ro_ret.
  - apply RaiseRules.ro_bind; [apply up_push_record_not_io|].
    intros out. destruct (fst out); [apply IH|apply RaiseRules.ro_ret].
Qed.

End RaiseFacts.

Section Containment.
Import Post.

(** X18.  No [IOError] aborts an upload: whatever a streaming run of the
    upload engine raises (from [ii_init] to [ii_close]) is not an
    [IOError].  Failed transfers, failed deletions and moves of the
    local file, and a remote path that does not exist are reported as
    messages instead. *)
Theorem upload_run_lets_no_io_error_escape :
  forall (p : Upload.AyxPlugin) (ri : RecordInfo) (records : list InRecord)
         (env : Env) (w : World) (e : Exn) (w' : World),
    Upload.run_streaming p ri records env w = (Raised e, w') ->
    is_IOError e = false.
Proof.
  intros p ri records.
  change (raises_only (Upload.run_streaming p ri records) not_io).
  unfold Upload.run_streaming, Upload.ii_init, Upload.ii_close.
  repeat first [ apply RaiseFacts.up_feed_not_io | ro_step ].
Qed.


End Containment.

(* ===================================================================== *)
(** ** The list mode *)
(* ===================================================================== *)

Module ListFacts.

Lemma process_file_list_no_get self conn f fd ri rc :
  Download.tool_mode self = Download.LIST_FILES ->
  bounded is_get 0 (Download._process_file self conn f fd ri rc).
Proof.
  intros M. unfold Download._process_file, Download.handle_downloaded.
  rewrite M. quiet.
Qed.

End ListFacts.

Section ListMode.

(** X20.  In list mode a static run transfers nothing: it never calls
    [get]. *)
Theorem list_mode_never_downloads :
  forall (self : Download.AyxPlugin) (n : Z),
    Download.tool_mode self = Download.LIST_FILES ->
    bounded is_get 0 (Download.pi_push_all_records self n).
Proof.
  intros self n M.
  unfold Download.pi_push_all_records, Download._init_sftp, Connect._init_sftp_connect,
    Download.build_ayx_output, Download.push_item.
  repeat first
    [ apply ListFacts.process_file_list_no_get; exact M
    | apply DownloadFrames.dl_validate_settings_messages; reflexivity
    | apply RunFrames.collect_files_quiet; intros; reflexivity
    | apply RunFrames.push_items_quiet; intros
    | quiet_step ].
Qed.


End ListMode.

(* ===================================================================== *)
(** ** Setting up: [ii_init] and the connection attempt *)
(* ===================================================================== *)

Section Init.

(** X22.  The download engine's [ii_init] never raises.  It answers
    [True] only when the configured incoming field is found in the
    incoming data; it then announces the output fields, stores the field
    and resets the counter.  Otherwise it answers [False] after exactly
    one error message and leaves the plugin as it was. *)
Theorem download_ii_init_outcomes :
  forall (self : Download.IncomingInterface) (p : Download.AyxPlugin) (ri : RecordInfo)
         (env : Env) (w : World),
    match Download.ii_init self p ri env w with
    | (Ok (true, self', p'), w') =>
        (exists names, w' = add_event w (EvAnchorInit names))
        /\ Download.file_counter self' = 0
        /\ (exists name fld,
               Download.incoming_field p = Some name
               /\ get_field_by_name ri name = Some fld
               /\ Download.in_field self' = Some fld)
        /\ Download.record_info_out self' <> None
        /\ Download.output_recordinfo p' = Download.record_info_out self'
    | (Ok (false, self', p'), w') =>
        (exists text, w' = add_event w (EvMessage EMT_error text)) /\ p' = p
    | (Raised _, _) => False
    end.
Proof.
  intros self p ri env w. unfold Download.ii_init.
  destruct (Download.incoming_field p) as [name|] eqn:N.
  - destruct (truthy_str name).
    + destruct (get_field_by_name ri name) as [fld|] eqn:F.
      * unfold Download.build_ayx_output. run_unfold.
        repeat split; eauto; discriminate.
      * run_unfold. split; eauto.
    + run_unfold. split; eauto.
  - run_unfold. split; eauto.
Qed.

(** X23.  The upload engine's [ii_init] answers [True] without a trace
    only when the configured field is found and is a string field and,
    in blob mode, the blob field is found and is a blob field; it answers
    [False] after exactly one error message; and in blob mode it raises
    [AttributeError], without a message, when the blob field is not in
    the incoming data. *)
Theorem upload_ii_init_outcomes :
  forall (self : Upload.IncomingInterface) (p : Upload.AyxPlugin) (ri : RecordInfo)
         (env : Env) (w : World),
    match Upload.ii_init self p ri env w with
    | (Ok (true, self'), w') =>
        w' = w
        /\ Upload.file_counter self' = 0
        /\ Upload.record_info_in self' = Some ri
        /\ (exists f, get_field_by_name ri (fmt (Upload.incoming_field p)) = Some f
                      /\ Upload.in_field self' = Some f
                      /\ Upload.is_string_type (fd_type f) = true)
        /\ (Upload.upload_mode p = Upload.UPLOAD_BLOBS ->
            exists b, Upload.ii_blob_field self' = Some b
                      /\ Upload.is_blob_type (fd_type b) = true)
    | (Ok (false, self'), w') =>
        exists text, w' = add_event w (EvMessage EMT_error text)
    | (Raised e, w') =>
        w' = w
        /\ exn_class e = AttributeError
        /\ Upload.upload_mode p = Upload.UPLOAD_BLOBS
        /\ match Upload.blob_field p with
           | Some b => get_field_by_name ri b = None
           | None => True
           end
    end.
Proof.
  intros self p ri env w. unfold Upload.ii_init.
  destruct (negb (truthy (Upload.incoming_field p))); [run_unfold; eauto|].
  destruct (get_field_by_name ri (fmt (Upload.incoming_field p))) as [f|] eqn:F;
    [|run_unfold; eauto].
  destruct (Upload.is_string_type (fd_type f)) eqn:S; simpl; [|run_unfold; eauto].
  destruct (Upload.upload_mode p) eqn:M; simpl.
  - run_unfold. repeat split; eauto; discriminate.
  - run_unfold. repeat split; eauto; discriminate.
  - destruct (Upload.blob_field p) as [bn|] eqn:B.
    + destruct (get_field_by_name ri bn) as [b|] eqn:G.
      * destruct (Upload.is_blob_type (fd_type b)) eqn:T; simpl; run_unfold.
        -- repeat split; eauto.
        -- eauto.
      * run_unfold. repeat split; eauto.
    + run_unfold. repeat split; eauto.
Qed.


End Init.

(* ===================================================================== *)
(** ** What a transfer that goes well leaves behind *)
(* ===================================================================== *)

Section Transfers.




(** X28.  A record that cannot be used is skipped with one message; the
    stream goes on ([True] is answered), the counter stays, and nothing
    is transferred.  This holds for a streamed name that does not exist
    on the server (a warning), for a local path that does not exist or
    is a directory (an error), and for a blob without a file name (an
    error). *)
Theorem unusable_records_are_skipped :
  (forall (self : Download.IncomingInterface) (p : Download.AyxPlugin) (fld : FieldSpec)
          (conn : Connection) (r : InRecord) (env : Env) (w : World),
      srv_exists env (clock w) (Some (get_as_string r (fd_name fld))) = false ->
      Download.push_current self p fld conn r env w
      = (Ok (true, self),
         add_events w
           [EvSftp conn (c_exists (Some (get_as_string r (fd_name fld)))) Returned;
            EvMessage EMT_warning
              ("File " +:+ dq +:+ fmt (Download.remote_path (Download.sftp_settings p))
               +:+ get_as_string r (fd_name fld) +:+ dq
               +:+ " does not exist. Skipped.")]))
  /\ (forall (self : Upload.IncomingInterface) (p : Upload.AyxPlugin) (fld : FieldSpec)
             (conn : Connection) (r : InRecord) (env : Env) (w : World),
         Upload.upload_mode p = Upload.UPLOAD_FILES ->
         files w (get_as_string r (fd_name fld)) = None ->
         Upload.push_current self p fld conn r env w
         = (Ok (true, self),
            add_events w
              [EvMessage EMT_error
                 ("File " +:+ dq +:+ get_as_string r (fd_name fld) +:+ dq
                  +:+ " does not exist.")]))
  /\ (forall (self : Upload.IncomingInterface) (p : Upload.AyxPlugin) (fld : FieldSpec)
             (conn : Connection) (r : InRecord) (env : Env) (w : World),
         Upload.upload_mode p = Upload.UPLOAD_FILES ->
         files w (get_as_string r (fd_name fld)) = Some Dir ->
         Upload.push_current self p fld conn r env w
         = (Ok (true, self),
            add_events w
              [EvMessage EMT_error
                 ("File " +:+ dq +:+ get_as_string r (fd_name fld) +:+ dq
                  +:+ " is actually a folder. Please provide a file name.")]))
  /\ (forall (self : Upload.IncomingInterface) (p : Upload.AyxPlugin) (fld : FieldSpec)
             (conn : Connection) (r : InRecord) (env : Env) (w : World),
         Upload.upload_mode p = Upload.UPLOAD_BLOBS ->
         get_as_string r (fd_name fld) = EmptyString ->
         Upload.push_current self p fld conn r env w
         = (Ok (true, self),
            add_events w
              [EvMessage EMT_error "No filename provided. Cannot upload."])).
Proof.
  repeat split.
  - intros self p fld conn r env w E.
    unfold Download.push_current. run_unfold. cbv beta iota. now rewrite E.
  - intros self p fld conn r env w M F.
    unfold Upload.push_current, Upload.upload_file. rewrite M.
    run_unfold.
    repeat (cbv beta iota; rewrite ?F; cbn [Os.is_some Os.is_file negb]).
    reflexivity.
  - intros self p fld conn r env w M F.
    unfold Upload.push_current, Upload.upload_file. rewrite M.
    run_unfold.
    repeat (cbv beta iota; rewrite ?F; cbn [Os.is_some Os.is_file negb]).
    reflexivity.
  - intros self p fld conn r env w M E.
    unfold Upload.push_current, Upload.upload_blob. rewrite M, E.
    run_unfold. reflexivity.
Qed.

End Transfers.

(* ===================================================================== *)
(** ** How [_init_sftp] ends *)
(* ===================================================================== *)

Module SetupFacts.
Import Post PostRules.

Lemma reported_last_step w w1 w' :
  (exists evs, trace w1 = trace w ++ evs) -> reported_last w1 w' -> reported_last w w'.
Proof.
  intros (e1 & T1) (e2 & text & T2). exists (e1 ++ e2), text.
  now rewrite T2, T1, <- !app_assoc.
Qed.

Lemma extends_at {A} (m : M A) env w r w1 :
  bounded (fun _ => false) 0 m -> m env w = (r, w1) ->
  exists evs, trace w1 = trace w ++ evs.
Proof.
  intros B E. destruct (bounded_at _ _ _ _ _ _ _ B E) as (evs & T & _). eauto.
Qed.

Lemma message_then_none {A} text env w (r : option A) w' :
  (Sdk.output_message EMT_error text;; ret None) env w = (Ok r, w') ->
  reported_last w w'.
Proof.
  intros H. injection H as _ <-. exists [], text. reflexivity.
Qed.

Lemma connect_extends h p u pw kf kp :
  bounded (fun _ => false) 0 (Connect._init_sftp_connect h p u pw kf kp).
Proof. unfold Connect._init_sftp_connect. quiet. Qed.

(** The shared connecting code answers [None] only after an error
    message. *)
Lemma connect_none_reported h p u pw kf kp env w w' :
  Connect._init_sftp_connect h p u pw kf kp env w = (Ok None, w') ->
  reported_last w w'.
Proof.
  unfold Connect._init_sftp_connect. intros H.
  apply bind_inv in H as (hk & w0 & H0 & H).
  unfold Pysftp.CnOpts_hostkeys, peek in H0. injection H0 as <- <-.
  apply bind_inv in H as (st & w1 & H1 & H).
  assert (X1 : exists evs, trace w1 = trace w ++ evs).
  { refine (extends_at _ _ _ _ _ _ H1). quiet. }
  apply (reported_last_step _ _ _ X1). clear X1 H1.
  unfold try_except in H. rewrite Rules.run_try in H.
  match type of H with
  | match ?B env w1 with _ => _ end = _ =>
      assert (R : returns B (fun r => r <> None)) by (repeat returns_step; discriminate);
      assert (E : bounded (fun _ => false) 0 B) by quiet;
      destruct (B env w1) as [[r|e] w2] eqn:EB
  end.
  - injection H as -> <-. now specialize (R env w1 None w2 EB).
  - apply (reported_last_step _ _ _ (extends_at _ _ _ _ _ E EB)).
    destruct (is_ConnectionException e);
      [|destruct (is_CredentialException e);
        [|destruct (is_BadAuthenticationType e); [|destruct (is_Exception e)]]];
      try discriminate H; now apply message_then_none in H.
Qed.

End SetupFacts.

Section Setup.
Import Post PostRules SetupFacts.

(** X29.  A setup that fails is always reported: whenever [_init_sftp]
    of either engine answers without a session, the last thing it has
    logged is an error message. *)
Theorem failed_setup_is_always_reported :
  (forall (self : Download.AyxPlugin) (env : Env) (w w' : World),
      Download._init_sftp self env w = (Ok None, w') ->
      exists evs text, trace w' = trace w ++ evs ++ [EvMessage EMT_error text])
  /\ (forall (self : Upload.AyxPlugin) (env : Env) (w w' : World),
         Upload._init_sftp self env w = (Ok None, w') ->
         exists evs text, trace w' = trace w ++ evs ++ [EvMessage EMT_error text]).
Proof.
  split; intros self env w w' H.
  - change (reported_last w w').
    unfold Download._init_sftp in H.
    apply bind_inv in H as (r & w1 & C & H).
    destruct r as [conn|].
    + apply (reported_last_step _ _ _ (extends_at _ _ _ _ _ (connect_extends _ _ _ _ _ _) C)).
      apply bind_inv in H as ([] & w2 & M & H).
      apply (reported_last_step w1 w2 w'); [refine (extends_at _ _ _ _ _ _ M); quiet|].
      apply bind_inv in H as (isd & w3 & I & H).
      apply (reported_last_step w2 w3 w'); [refine (extends_at _ _ _ _ _ _ I); quiet|].
      destruct isd; cbn [negb] in H.
      * unfold try_except in H. rewrite Rules.run_try in H.
        match type of H with
        | match ?B env w3 with _ => _ end = _ =>
            assert (R : returns B (fun r => r <> None))
              by (repeat returns_step; discriminate);
            assert (E : bounded (fun _ => false) 0 B) by quiet;
            destruct (B env w3) as [[r|e] w4] eqn:EB
        end.
        -- injection H as -> <-. now specialize (R env w3 None w4 EB).
        -- apply (reported_last_step _ _ _ (extends_at _ _ _ _ _ E EB)).
           destruct (is_IOError e); [|discriminate H].
           now apply message_then_none in H.
      * now apply message_then_none in H.
    + unfold ret in H. injection H as <-. now apply connect_none_reported in C.
  - change (reported_last w w').
    unfold Upload._init_sftp in H.
    apply bind_inv in H as (r & w1 & C & H).
    destruct r as [conn|].
    + apply (reported_last_step _ _ _ (extends_at _ _ _ _ _ (connect_extends _ _ _ _ _ _) C)).
      apply bind_inv in H as ([] & w2 & M & H).
      apply (reported_last_step w1 w2 w'); [refine (extends_at _ _ _ _ _ _ M); quiet|].
      unfold try_except in H. rewrite Rules.run_try in H.
      match type of H with
      | match ?B env w2 with _ => _ end = _ =>
          assert (R : returns B (fun r => r <> None))
            by (repeat returns_step; discriminate);
          assert (E : bounded (fun _ => false) 0 B) by quiet;
          destruct (B env w2) as [[r|e] w4] eqn:EB
      end.
      * injection H as -> <-. now specialize (R env w2 None w4 EB).
      * apply (reported_last_step _ _ _ (extends_at _ _ _ _ _ E EB)).
        destruct (is_IOError e); [|discriminate H].
        now apply message_then_none in H.
    + unfold ret in H. injection H as <-. now apply connect_none_reported in C.
Qed.

(** X30.  A setup that succeeds has entered the remote path: whenever
    [_init_sftp] answers with a session, its last call was a [chdir] on
    that session to the configured remote path, and the call returned;
    in the download engine the call before it was the directory check of
    that path, answered with yes. *)
Theorem successful_setup_has_entered_remote_path :
  (forall (self : Download.AyxPlugin) (env : Env) (w w' : World) (conn : Connection),
      Download._init_sftp self env w = (Ok (Some conn), w') ->
      let rp := Download.remote_path (Download.sftp_settings self) in
      exists evs,
        trace w'
        = trace w ++ evs
          ++ [EvSftp conn (c_isdir rp) Returned; EvSftp conn (c_chdir rp) Returned]
        /\ srv_isdir env (length (trace w ++ evs)) rp = true)
  /\ (forall (self : Upload.AyxPlugin) (env : Env) (w w' : World) (conn : Connection),
         Upload._init_sftp self env w = (Ok (Some conn), w') ->
         let rp := Upload.remote_path (Upload.sftp_settings self) in
         exists evs,
           trace w' = trace w ++ evs ++ [EvSftp conn (c_chdir rp) Returned]).
Proof.
  split; intros self env w w' conn H rp.
  - unfold Download._init_sftp in H. fold rp in H.
    apply bind_inv in H as (r & w1 & C & H).
    destruct r as [c|]; [|unfold ret in H; discriminate H].
    destruct (extends_at _ _ _ _ _ (connect_extends _ _ _ _ _ _) C) as (e1 & T1).
    apply bind_inv in H as ([] & w2 & M & H).
    unfold Sdk.output_message, Call.notify in M. injection M as <-.
    apply bind_inv in H as (isd & w3 & I & H).
    unfold Pysftp.isdir, Call.total in I. injection I as <- <-.
    match type of H with
    | (if negb ?b then _ else _) _ _ = _ => destruct b eqn:D
    end; cbn [negb] in H.
    + unfold try_except in H. rewrite Rules.run_try, Rules.run_bind in H.
      unfold Pysftp.chdir, Call.fallible in H.
      match type of H with
      | context [srv_chdir ?a ?b ?c] => destruct (srv_chdir a b c) as [[]|e]
      end.
      * unfold ret in H. injection H as <- <-.
        eexists (e1 ++ [_]). cbn [trace add_event]. rewrite T1.
        split; [now rewrite <- !app_assoc|].
        unfold clock in D. cbn [trace add_event] in D. rewrite T1 in D.
        now rewrite <- app_assoc in D.
      * destruct (is_IOError e); [|discriminate H].
        unfold bind, Sdk.output_message, Call.notify, ret in H. discriminate H.
    + unfold bind, Sdk.output_message, Call.notify, ret in H. discriminate H.
  - unfold Upload._init_sftp in H. fold rp in H.
    apply bind_inv in H as (r & w1 & C & H).
    destruct r as [c|]; [|unfold ret in H; discriminate H].
    destruct (extends_at _ _ _ _ _ (connect_extends _ _ _ _ _ _) C) as (e1 & T1).
    apply bind_inv in H as ([] & w2 & M & H).
    unfold Sdk.output_message, Call.notify in M. injection M as <-.
    unfold try_except in H. rewrite Rules.run_try, Rules.run_bind in H.
    unfold Pysftp.chdir, Call.fallible in H.
    match type of H with
    | context [srv_chdir ?a ?b ?c] => destruct (srv_chdir a b c) as [[]|e]
    end.
    + unfold ret in H. injection H as <- <-.
      eexists (e1 ++ [_]). cbn [trace add_event]. rewrite T1.
      now rewrite <- !app_assoc.
    + destruct (is_IOError e); [|discriminate H].
      unfold bind, Sdk.output_message, Call.notify, ret in H. discriminate H.
Qed.

End Setup.

(* ===================================================================== *)
(** ** The further theorems with hypotheses, at concrete inputs *)
(* ===================================================================== *)

Section MoreInstances.
Import Scenario MoreScenarios.

(** A static run without a tool mode. *)
Lemma static_run_refuses_invalid_settings_silently_witness :
  Download.pi_push_all_records unconfigured_download 0 env_ok world
  = (Ok (false, unconfigured_download), world).
Proof.
  apply static_run_refuses_invalid_settings_silently.
  - vm_compute. discriminate.
  - vm_compute. discriminate.
Defined.

(** A record streamed to either engine while no mode is selected. *)
Lemma streamed_record_refused_on_invalid_settings_witness :
  Download.ii_push_record Download.II_new unconfigured_download
                          (Some (record_of "a.txt")) env_ok world
  = (Ok (false, Download.II_new),
     add_events world [EvMessage EMT_error "Please select a mode for the tool."])
  /\ Upload.ii_push_record Upload.II_new unconfigured_upload
                           (Some (record_of "a.txt")) env_ok world
     = (Ok (false, Upload.II_new),
        add_events world
                   [EvMessage EMT_error "Please specify what kind of data you provide."]).
Proof.
  split.
  - apply (proj1 streamed_record_refused_on_invalid_settings
                 Download.II_new unconfigured_download (record_of "a.txt") env_ok world).
    + vm_compute. discriminate.
    + vm_compute. discriminate.
  - apply (proj2 streamed_record_refused_on_invalid_settings
                 Upload.II_new unconfigured_upload (record_of "a.txt") env_ok world).
    + vm_compute. discriminate.
    + vm_compute. discriminate.
Defined.

(** A metadata-only run of a fully configured tool. *)
Lemma update_only_runs_transfer_nothing_witness :
  Download.pi_push_all_records
    (download_plugin Download.DOWNLOAD_TO_BLOB Download.DELETE_FILES false) 0
    env_update_only world
  = (Ok (false, download_plugin Download.DOWNLOAD_TO_BLOB Download.DELETE_FILES false),
     world)
  /\ Upload.ii_push_record upload_ii (upload_plugin Upload.UPLOAD_FILES Upload.DELETE_FILES)
                           (Some (record_of "/data/out/x.csv")) env_update_only world
     = (Ok (false, upload_ii), world).
Proof.
  destruct (update_only_runs_transfer_nothing env_update_only world eq_refl)
    as (H1 & _ & H3).
  split.
  - apply (H1 (download_plugin Download.DOWNLOAD_TO_BLOB Download.DELETE_FILES false) 0%Z).
  - apply H3.
Defined.

(** Downloading blobs with the handling "keep". *)
Lemma download_keeps_remote_files_witness :
  bounded is_remote_handling 0
          (Download.pi_push_all_records
             (download_plugin Download.DOWNLOAD_TO_BLOB Download.KEEP_FILES false) 0)
  /\ bounded is_remote_handling 0
             (Download.run_streaming
                (download_plugin Download.DOWNLOAD_TO_BLOB Download.KEEP_FILES true)
                names_in [record_of "a.txt"]).
Proof.
  split.
  - apply (download_keeps_remote_files
             (download_plugin Download.DOWNLOAD_TO_BLOB Download.KEEP_FILES false)
             0%Z names_in []); discriminate.
  - apply (download_keeps_remote_files
             (download_plugin Download.DOWNLOAD_TO_BLOB Download.KEEP_FILES true)
             0%Z names_in [record_of "a.txt"]); discriminate.
Defined.

(** Uploading blobs, whatever the handling says. *)
Lemma upload_keeps_local_files_witness :
  bounded is_local_handling 0
          (Upload.run_streaming (upload_plugin Upload.UPLOAD_BLOBS Upload.DELETE_FILES)
                                names_in [record_of "a.txt"]).
Proof.
  apply upload_keeps_local_files. left. reflexivity.
Defined.

(** The hostname of the sample settings. *)
Lemma accepted_hostname_shape_witness :
  exists body,
    (list_ascii_of_string "sftp.example.org" = body
     \/ list_ascii_of_string "sftp.example.org" = body ++ [Validity.newline])
    /\ body <> []
    /\ Forall (fun c => Validity.hostname_char c = true) body
    /\ Hostname.is_alnum (hd Validity.newline body) = true
    /\ Hostname.is_alnum (last body Validity.newline) = true.
Proof.
  apply accepted_hostname_shape. vm_compute. reflexivity.
Defined.

(** One blob streamed from the healthy server. *)
Lemma streaming_summary_counts_pushed_records_witness :
  exists evs,
    trace (snd streaming_run)
    = trace world ++ evs
      ++ [EvMessage Status_info
            (Post.download_summary
               (download_plugin Download.DOWNLOAD_TO_BLOB Download.KEEP_FILES true)
               (count is_push_record evs));
          EvRecordCount true; EvAnchorClose]
    /\ Download.file_counter (value_of Download.II_new streaming_run)
       = count is_push_record evs.
Proof.
  apply (streaming_summary_counts_pushed_records
           (download_plugin Download.DOWNLOAD_TO_BLOB Download.KEEP_FILES true)
           names_in [record_of "a.txt"] env_ok world
           (value_of Download.II_new streaming_run) (snd streaming_run)).
  vm_compute. reflexivity.
Defined.

(** The static download of the same blob. *)
Lemma static_run_summary_counts_pushed_records_witness :
  exists conn evs,
    trace (snd static_run)
    = trace world ++ evs
      ++ [EvSftp conn c_close Returned;
          EvMessage Status_info
            (Post.download_summary
               (download_plugin Download.DOWNLOAD_TO_BLOB Download.KEEP_FILES false)
               (count is_push_record evs));
          EvUpdateProgress 1 1; EvAnchorClose]
    /\ count is_connect evs = 1
    /\ count is_close evs = 0
    /\ UpdateOnly env_ok <> "True"
    /\ Validity.download_failures
         (download_plugin Download.DOWNLOAD_TO_BLOB Download.KEEP_FILES false)
         (files world) = [].
Proof.
  apply (static_run_summary_counts_pushed_records
           (download_plugin Download.DOWNLOAD_TO_BLOB Download.KEEP_FILES false)
           0%Z env_ok world
           (snd (value_of (false, DownloadConfig.AyxPlugin_new) static_run))
           (snd static_run)).
  vm_compute. reflexivity.
Defined.

(** The sample configuration read by either engine. *)
Lemma download_pi_init_normal_form_witness :
  snd download_init_run
  = Validity.reported
      false world
      (Validity.download_failures
         (value_of DownloadConfig.AyxPlugin_new download_init_run) (files world)).
Proof.
  assert (E : download_init_run
              = (Ok (value_of DownloadConfig.AyxPlugin_new download_init_run),
                 snd download_init_run)).
  { vm_compute. reflexivity. }
  destruct (download_pi_init_normal_form DownloadConfig.AyxPlugin_new sample_config
                                           env_ok world _ _ E) as (_ & _ & _ & _ & _ & _ & _ & H).
  exact H.
Defined.

Lemma upload_pi_init_normal_form_witness :
  snd upload_init_run
  = Validity.reported
      false world
      (Validity.upload_failures
         (value_of UploadConfig.AyxPlugin_new upload_init_run) (files world)).
Proof.
  assert (E : upload_init_run
              = (Ok (value_of UploadConfig.AyxPlugin_new upload_init_run),
                 snd upload_init_run)).
  { vm_compute. reflexivity. }
  destruct (upload_pi_init_normal_form UploadConfig.AyxPlugin_new sample_config
                                         env_ok world _ _ E) as (_ & _ & _ & _ & _ & _ & H).
  exact H.
Defined.

(** A configuration whose Port is blank. *)
Lemma pi_init_raises_on_unusable_port_witness :
  DownloadConfig.pi_init DownloadConfig.AyxPlugin_new config_without_port env_ok world
  = (Raised (raised_by (Builtins.int_ None, world)), world)
  /\ UploadConfig.pi_init UploadConfig.AyxPlugin_new config_without_port env_ok world
     = (Raised (raised_by (Builtins.int_ None, world)), world)
  /\ is_TypeError (raised_by (Builtins.int_ None, world)) = true.
Proof.
  assert (P : Et._prep_xmltext config_without_port "Port" = Ok None).
  { vm_compute. reflexivity. }
  destruct (pi_init_raises_on_unusable_port
              config_without_port None (raised_by (Builtins.int_ None, world))
              env_ok world P eq_refl) as (H1 & H2 & H3).
  split; [apply H1|split; [apply H2|apply H3; reflexivity]].
Defined.

(** The mode "download_file" without a LocalPath. *)
Lemma download_pi_init_raises_without_local_path_witness :
  exists e,
    DownloadConfig.pi_init DownloadConfig.AyxPlugin_new config_without_local_path
                           env_ok world
    = (Raised e, world)
    /\ is_TypeError e = true.
Proof.
  apply (download_pi_init_raises_without_local_path
           DownloadConfig.AyxPlugin_new config_without_local_path (Some "22") 22%Z).
  - vm_compute. reflexivity.
  - vm_compute. reflexivity.
  - vm_compute. reflexivity.
  - vm_compute. reflexivity.
Defined.

(** An upload that is aborted: the remote path is a regular file. *)
Lemma upload_run_lets_no_io_error_escape_witness :
  is_IOError (raised_by upload_to_file_path) = false.
Proof.
  apply (upload_run_lets_no_io_error_escape
           (upload_plugin Upload.UPLOAD_FILES Upload.KEEP_FILES)
           names_in [record_of "/data/out/x.csv"] env_path_is_file world
           (raised_by upload_to_file_path) (snd upload_to_file_path)).
  vm_compute. reflexivity.
Defined.


(** Listing the inbox. *)
Lemma list_mode_never_downloads_witness :
  bounded is_get 0
          (Download.pi_push_all_records
             (download_plugin Download.LIST_FILES Download.KEEP_FILES false) 0).
Proof.
  apply list_mode_never_downloads. reflexivity.
Defined.





(** Records that cannot be used. *)
Lemma unusable_records_are_skipped_witness :
  Download.push_current
    (download_ii_connected Download.DOWNLOAD_TO_BLOB Download.KEEP_FILES)
    (download_plugin Download.DOWNLOAD_TO_BLOB Download.KEEP_FILES true)
    name_field (session 0) (record_of "gone.txt") env_fresh_server world
  = (Ok (true, download_ii_connected Download.DOWNLOAD_TO_BLOB Download.KEEP_FILES),
     add_events world
       [EvSftp (session 0) (c_exists (Some "gone.txt")) Returned;
        EvMessage EMT_warning
          ("File " +:+ dq +:+ "/inbox/gone.txt" +:+ dq +:+ " does not exist. Skipped.")])
  /\ Upload.push_current upload_ii (upload_plugin Upload.UPLOAD_FILES Upload.KEEP_FILES)
                         name_field (session 0) (record_of "/data/out/missing.csv")
                         env_ok world
     = (Ok (true, upload_ii),
        add_events world
          [EvMessage EMT_error
             ("File " +:+ dq +:+ "/data/out/missing.csv" +:+ dq +:+ " does not exist.")])
  /\ Upload.push_current upload_ii (upload_plugin Upload.UPLOAD_FILES Upload.KEEP_FILES)
                         name_field (session 0) (record_of "/data/in/") env_ok world
     = (Ok (true, upload_ii),
        add_events world
          [EvMessage EMT_error
             ("File " +:+ dq +:+ "/data/in/" +:+ dq
              +:+ " is actually a folder. Please provide a file name.")])
  /\ Upload.push_current upload_ii (upload_plugin Upload.UPLOAD_BLOBS Upload.KEEP_FILES)
                         name_field (session 0) (record_of EmptyString) env_ok world
     = (Ok (true, upload_ii),
        add_events world [EvMessage EMT_error "No filename provided. Cannot upload."]).
Proof.
  destruct unusable_records_are_skipped as (H1 & H2 & H3 & H4).
  split; [|split; [|split]].
  - apply (H1 (download_ii_connected Download.DOWNLOAD_TO_BLOB Download.KEEP_FILES)
              (download_plugin Download.DOWNLOAD_TO_BLOB Download.KEEP_FILES true)
              name_field (session 0) (record_of "gone.txt") env_fresh_server world).
    reflexivity.
  - apply (H2 upload_ii (upload_plugin Upload.UPLOAD_FILES Upload.KEEP_FILES)
              name_field (session 0) (record_of "/data/out/missing.csv") env_ok world).
    + reflexivity.
    + reflexivity.
  - apply (H3 upload_ii (upload_plugin Upload.UPLOAD_FILES Upload.KEEP_FILES)
              name_field (session 0) (record_of "/data/in/") env_ok world).
    + reflexivity.
    + reflexivity.
  - apply (H4 upload_ii (upload_plugin Upload.UPLOAD_BLOBS Upload.KEEP_FILES)
              name_field (session 0) (record_of EmptyString) env_ok world).
    + reflexivity.
    + reflexivity.
Defined.

(** Both engines against a port on which nobody listens. *)
Lemma failed_setup_is_always_reported_witness :
  (exists evs text,
      trace (snd (download_setup env_refused))
      = trace world ++ evs ++ [EvMessage EMT_error text])
  /\ (exists evs text,
         trace (snd (upload_setup env_refused))
         = trace world ++ evs ++ [EvMessage EMT_error text]).
Proof.
  split.
  - apply (proj1 failed_setup_is_always_reported
                 (download_plugin Download.DOWNLOAD_TO_BLOB Download.KEEP_FILES false)
                 env_refused world (snd (download_setup env_refused))).
    vm_compute. reflexivity.
  - apply (proj2 failed_setup_is_always_reported
                 (upload_plugin Upload.UPLOAD_FILES Upload.KEEP_FILES)
                 env_refused world (snd (upload_setup env_refused))).
    vm_compute. reflexivity.
Defined.

(** Both engines against the healthy server. *)
Lemma successful_setup_has_entered_remote_path_witness :
  (exists evs,
      trace (snd (download_setup env_ok))
      = trace world ++ evs
        ++ [EvSftp (session 0) (c_isdir (Some "/inbox/")) Returned;
            EvSftp (session 0) (c_chdir (Some "/inbox/")) Returned]
      /\ srv_isdir env_ok (length (trace world ++ evs)) (Some "/inbox/") = true)
  /\ (exists evs,
         trace (snd (upload_setup env_ok))
         = trace world ++ evs ++ [EvSftp (session 0) (c_chdir (Some "/inbox/")) Returned]).
Proof.
  split.
  - apply (proj1 successful_setup_has_entered_remote_path
                 (download_plugin Download.DOWNLOAD_TO_BLOB Download.KEEP_FILES false)
                 env_ok world (snd (download_setup env_ok)) (session 0)).
    vm_compute. reflexivity.
  - apply (proj2 successful_setup_has_entered_remote_path
                 (upload_plugin Upload.UPLOAD_FILES Upload.KEEP_FILES)
                 env_ok world (snd (upload_setup env_ok)) (session 0)).
    vm_compute. reflexivity.
Defined.

End MoreInstances.
